(** * GTFS-Viewer: the route-detail pipeline of [gtfsviewer.py]

    A shallow embedding of class [GTFSViewer] (src/gtfsviewer.py):
    [_is_valid_gtfs], [get_routes], [get_route_details], [upload_gtfs],
    and, after them, [__init__], [get_available_folders],
    [_get_agency_name] and the endpoints of src/flaskapp.py.

    Conventions of the embedding.
    - A pandas [DataFrame] is its columns (name and dtype) and its rows; a
      cell is the Python scalar that [read_csv] produced: an integer, a
      finite float, a string, or NaN (a missing field).  Finite floats are
      the rational numbers they denote, so that [==] and [<] on them are
      exact; an integer and a float are equal when they denote one number
      (as numpy finds them, for integers below 2^53).  Columns of booleans
      are left out.  Strings are strings of bytes; what Python does with a
      digit or a space outside ASCII is not modelled.
    - An exception is a value of type [exn]; code that may raise returns
      [Exc A].  The [try/except Exception] around each public method is the
      last step of its model.
    - The file system is a finite map from the path strings that
      [os.path.join] builds to nodes; a file holds what [pd.read_csv] makes
      of it.  Two spellings of one path are two keys.
    - Four services of the Python runtime are not re-implemented but taken
      as the fields of a [Runtime]: [datetime.strptime] for the format
      ["%Y-%m-%d %H:%M"], [repr] and [float] on floats and strings, and the
      key-dtype check of [pd.merge]. *)

From Stdlib Require Import ZArith QArith String Ascii List Bool Lia.
From Stdlib Require Import DecimalString DecimalPos Permutation Sorted.
From stdpp Require Import base tactics option strings gmap.

Import ListNotations.
Local Open Scope string_scope.
Local Open Scope list_scope.
Local Open Scope Z_scope.

(** ** Exceptions and the error monad *)

Inductive exn : Type :=
  | KeyError (key : string)          (* df[col], row[col], merge on a missing column *)
  | ValueError (msg : string)
  | TypeError (msg : string)
  | OSError (path : string)          (* FileNotFoundError, IsADirectoryError, ... *)
  | ParserError (path : string)      (* pd.read_csv could not parse the file *)
  | BadZipFile.

Definition Exc (A : Type) : Type := (exn + A)%type.

Definition ret {A} (a : A) : Exc A := inr a.
Definition raise {A} (e : exn) : Exc A := inl e.
Definition bind {A B} (m : Exc A) (k : A -> Exc B) : Exc B :=
  match m with
  | inl e => inl e
  | inr a => k a
  end.

Notation "x <- m ;; k" := (bind m (fun x => k))
  (at level 100, m at next level, right associativity).

Fixpoint mapM {A B} (f : A -> Exc B) (l : list A) : Exc (list B) :=
  match l with
  | [] => ret []
  | a :: l' => b <- f a ;; bs <- mapM f l' ;; ret (b :: bs)
  end.

(** ** Python scalars *)

Inductive Value : Type :=
  | VInt (z : Z)
  | VFloat (q : Q)
  | VStr (s : string)
  | VNaN.

(** [pd.isna(x)] on a scalar. *)
Definition isna (v : Value) : bool :=
  match v with VNaN => true | _ => false end.

(** Python's [x == y] on scalars: numbers compare by value, a string only
    equals a string, NaN equals nothing (itself included). *)
Definition py_eq (v w : Value) : bool :=
  match v, w with
  | VInt a, VInt b => Z.eqb a b
  | VInt a, VFloat q => Qeq_bool (inject_Z a) q
  | VFloat q, VInt b => Qeq_bool q (inject_Z b)
  | VFloat p, VFloat q => Qeq_bool p q
  | VStr s, VStr t => String.eqb s t
  | _, _ => false
  end.

(** Equality of the pandas hash tables ([unique], [isin], merge keys):
    as [==], except that all NaN are one value. *)
Definition hash_eq (v w : Value) : bool :=
  py_eq v w || (isna v && isna w).

(** [x in arr] for a numpy array: [(arr == x).any()]. *)
Definition py_in (x : Value) (arr : list Value) : bool :=
  existsb (fun y => py_eq y x) arr.

(** [Series.isin(values)] on one cell. *)
Definition isin (values : list Value) (x : Value) : bool :=
  existsb (hash_eq x) values.

(** [Series.unique()]: first occurrences, in order of appearance. *)
Fixpoint unique_from (seen : list Value) (l : list Value) : list Value :=
  match l with
  | [] => []
  | x :: l' =>
      if isin seen x then unique_from seen l'
      else x :: unique_from (x :: seen) l'
  end.

Definition unique (l : list Value) : list Value := unique_from [] l.

(** *** [int(s)] on a string

    Surrounding whitespace is stripped; then an optional sign and decimal
    digits, single underscores allowed between digits.  (ASCII only.) *)

Definition is_space (c : ascii) : bool :=
  let n := nat_of_ascii c in
  (Nat.leb 9 n && Nat.leb n 13) || (Nat.leb 28 n && Nat.leb n 32).

Definition digit_of (c : ascii) : option Z :=
  let n := nat_of_ascii c in
  if Nat.leb 48 n && Nat.leb n 57 then Some (Z.of_nat n - 48) else None.

Fixpoint lstrip (s : string) : string :=
  match s with
  | String c r => if is_space c then lstrip r else s
  | EmptyString => EmptyString
  end.

Fixpoint rstrip (s : string) : string :=
  match s with
  | EmptyString => EmptyString
  | String c r =>
      match rstrip r with
      | EmptyString => if is_space c then EmptyString else String c EmptyString
      | r' => String c r'
      end
  end.

Definition strip (s : string) : string := rstrip (lstrip s).

Fixpoint parse_digits (after_digit : bool) (acc : Z) (s : string) : option Z :=
  match s with
  | EmptyString => if after_digit then Some acc else None
  | String c r =>
      match digit_of c with
      | Some d => parse_digits true (acc * 10 + d) r
      | None =>
          if Ascii.eqb c "_" && after_digit then parse_digits false acc r
          else None
      end
  end.

Definition py_int (s : string) : option Z :=
  match strip s with
  | String "-" r => option_map Z.opp (parse_digits false 0 r)
  | String "+" r => parse_digits false 0 r
  | r => parse_digits false 0 r
  end.

(** [str(n)] for an integer. *)
Definition str_of_Z (z : Z) : string := NilZero.string_of_int (Z.to_int z).

(** ** The runtime services taken as given *)

Record datetime : Type := mk_datetime {
  year : Z; month : Z; day : Z; hour : Z; minute : Z
}.

Class Runtime : Type := {
  (** [datetime.strptime(s, "%Y-%m-%d %H:%M")]; raises [ValueError]. *)
  strptime : string -> Exc datetime;
  (** [repr] of a finite float, as [str] and [astype(str)] print it. *)
  float_repr : Q -> string;
  (** [float(s)] on a string: a float, NaN, or [ValueError]. *)
  float_parse : string -> Exc Value;
  (** The check [pd.merge] makes on the two key columns before joining
      (it refuses with [ValueError] to join a string column with a numeric
      one). *)
  merge_keys_ok : list Value -> list Value -> bool
}.

(** ** Conversions of a cell *)

Section Cells.
Context {rt : Runtime}.

(** [str(x)], also one cell of [Series.astype(str)]. *)
Definition py_str (v : Value) : string :=
  match v with
  | VInt z => str_of_Z z
  | VFloat q => float_repr q
  | VStr s => s
  | VNaN => "nan"
  end.

(** One cell of [Series.astype(int)]: floats are truncated, strings go
    through [int], NaN cannot be converted. *)
Definition astype_int (v : Value) : Exc Z :=
  match v with
  | VInt z => ret z
  | VFloat q => ret (Z.quot (Qnum q) (Z.pos (Qden q)))
  | VStr s =>
      match py_int s with
      | Some z => ret z
      | None => raise (ValueError "invalid literal for int()")
      end
  | VNaN => raise (ValueError "cannot convert float NaN to integer")
  end.

(** [float(x)]. *)
Definition py_float (v : Value) : Exc Value :=
  match v with
  | VInt z => ret (VFloat (inject_Z z))
  | VFloat q => ret (VFloat q)
  | VStr s => float_parse s
  | VNaN => ret VNaN
  end.

End Cells.

(** ** Data frames *)

Inductive dtype : Type := Int64 | Float64 | Object.

Definition Row : Type := list Value.

Record DataFrame : Type := mk_df {
  schema : list (string * dtype);
  rows : list Row
}.

Definition columns (df : DataFrame) : list string := map fst (schema df).

(** [len(df) == 0], [df.empty]. *)
Definition is_empty (df : DataFrame) : bool :=
  match rows df with [] => true | _ => false end.

Fixpoint index_of (c : string) (cols : list string) : option nat :=
  match cols with
  | [] => None
  | c' :: cols' =>
      if String.eqb c c' then Some O else option_map S (index_of c cols')
  end.

(** [c in df.columns]. *)
Definition has_column (df : DataFrame) (c : string) : bool :=
  match index_of c (columns df) with Some _ => true | None => false end.

(** The cell of a row under a column; a row shorter than the header was
    padded with NaN by the reader. *)
Definition cell (i : nat) (r : Row) : Value := nth i r VNaN.

(** [df[c]]: the column as a series, or [KeyError]. *)
Definition column (df : DataFrame) (c : string) : Exc (list Value) :=
  match index_of c (columns df) with
  | Some i => ret (map (cell i) (rows df))
  | None => raise (KeyError c)
  end.

(** [df[mask]] for a boolean series aligned with the rows. *)
Fixpoint select_rows (rs : list Row) (mask : list bool) : list Row :=
  match rs, mask with
  | r :: rs', b :: mask' =>
      if b then r :: select_rows rs' mask' else select_rows rs' mask'
  | _, _ => []
  end.

Definition select (df : DataFrame) (mask : list bool) : DataFrame :=
  mk_df (schema df) (select_rows (rows df) mask).

(** [m1 | m2] and [m1 & m2] on aligned boolean series. *)
Fixpoint mask_or (m1 m2 : list bool) : list bool :=
  match m1, m2 with
  | a :: m1', b :: m2' => (a || b) :: mask_or m1' m2'
  | _, _ => []
  end.

Fixpoint mask_and (m1 m2 : list bool) : list bool :=
  match m1, m2 with
  | a :: m1', b :: m2' => (a && b) :: mask_and m1' m2'
  | _, _ => []
  end.

(** A row taken out of a frame ([df.iloc[0]], [df.iterrows()]) is a series
    with one dtype for all its cells: when every column is numeric and one
    of them is [float64], the integers of the row become floats. *)
Definition is_numeric (d : dtype) : bool :=
  match d with Object => false | _ => true end.

Definition is_float (d : dtype) : bool :=
  match d with Float64 => true | _ => false end.

Definition upcast (v : Value) : Value :=
  match v with VInt z => VFloat (inject_Z z) | _ => v end.

Definition row_series (df : DataFrame) (r : Row) : Row :=
  let ds := map snd (schema df) in
  if forallb is_numeric ds && existsb is_float ds then map upcast r else r.

(** [row[c]] on such a series. *)
Definition row_get (df : DataFrame) (r : Row) (c : string) : Exc Value :=
  match index_of c (columns df) with
  | Some i => ret (cell i (row_series df r))
  | None => raise (KeyError c)
  end.

(** The cells of a column agree with its dtype; the frames that
    [read_csv] returns are of this kind. *)
Definition cell_ok (d : dtype) (v : Value) : bool :=
  match d, v with
  | Int64, VInt _ => true
  | Float64, (VFloat _ | VNaN) => true
  | Object, _ => true
  | _, _ => false
  end.

Fixpoint row_ok (ds : list dtype) (r : Row) : bool :=
  match ds, r with
  | [], [] => true
  | d :: ds', v :: r' => cell_ok d v && row_ok ds' r'
  | _, _ => false
  end.

Definition well_typed (df : DataFrame) : bool :=
  forallb (row_ok (map snd (schema df))) (rows df).

(** [df.sort_values(by)]: rows with a NaN key go last; the other keys must
    be all numbers or all strings (Python refuses to order a string and a
    number).  Rows with equal keys are left in the order of the frame (the
    library does not promise an order among them). *)
Inductive sort_key : Type := KNum (q : Q) | KStr (s : string).

Definition key_of (v : Value) : option sort_key :=
  match v with
  | VInt z => Some (KNum (inject_Z z))
  | VFloat q => Some (KNum q)
  | VStr s => Some (KStr s)
  | VNaN => None
  end.

Definition is_num (v : Value) : bool :=
  match v with VInt _ | VFloat _ => true | _ => false end.

Definition is_str (v : Value) : bool :=
  match v with VStr _ => true | _ => false end.

(** [a <= b] on two cells of one kind. *)
Definition val_leb (a b : Value) : bool :=
  match key_of a, key_of b with
  | Some (KNum p), Some (KNum q) => Qle_bool p q
  | Some (KStr s), Some (KStr t) => String.leb s t
  | _, _ => false
  end.

Fixpoint insert_by {A} (leb : A -> A -> bool) (a : A) (l : list A) : list A :=
  match l with
  | [] => [a]
  | x :: l' => if leb a x then a :: x :: l' else x :: insert_by leb a l'
  end.

Definition sort_by {A} (leb : A -> A -> bool) (l : list A) : list A :=
  fold_right (insert_by leb) [] l.

Definition row_leb (i : nat) (r x : Row) : bool := val_leb (cell i r) (cell i x).

Definition sort_rows (i : nat) (l : list Row) : list Row := sort_by (row_leb i) l.

Definition sort_values (df : DataFrame) (by_ : string) : Exc DataFrame :=
  match index_of by_ (columns df) with
  | None => raise (KeyError by_)
  | Some i =>
      let present := List.filter (fun r => negb (isna (cell i r))) (rows df) in
      let missing := List.filter (fun r => isna (cell i r)) (rows df) in
      let keys := map (cell i) present in
      if forallb is_num keys || forallb is_str keys
      then ret (mk_df (schema df) (sort_rows i present ++ missing))
      else raise (TypeError "'<' not supported between instances of 'str' and 'int'")
  end.

(** A row brought to the width of its frame. *)
Definition pad (n : nat) (r : Row) : Row := map (fun i => cell i r) (seq 0 n).

Fixpoint drop_nth {A} (i : nat) (l : list A) : list A :=
  match l, i with
  | [], _ => []
  | _ :: l', O => l'
  | a :: l', S i' => a :: drop_nth i' l'
  end.

Definition mem_string (c : string) (l : list string) : bool :=
  existsb (String.eqb c) l.

Definition suffix_x (key : string) (rnames : list string)
  (col : string * dtype) : string * dtype :=
  if negb (String.eqb (fst col) key) && mem_string (fst col) rnames
  then ((fst col ++ "_x")%string, snd col) else col.

Definition suffix_y (lnames : list string) (col : string * dtype)
  : string * dtype :=
  if mem_string (fst col) lnames
  then ((fst col ++ "_y")%string, snd col) else col.

Definition merged_schema (key : string) (ls rs : list (string * dtype))
  : list (string * dtype) :=
  let lnames := map fst ls in
  let rnames := map fst rs in
  map (suffix_x key rnames) ls
  ++ map (suffix_y lnames)
       match index_of key rnames with
       | Some ri => drop_nth ri rs
       | None => rs
       end.

Section Merge.
Context {rt : Runtime}.

(** [pd.merge(left, right, on=key)] (inner join): for each left row, in
    order, the right rows with the same key.  The key column appears once;
    another name that both frames have gets the suffixes [_x] and [_y]. *)
Definition merge_inner (left right : DataFrame) (key : string) : Exc DataFrame :=
  match index_of key (columns left), index_of key (columns right) with
  | Some li, Some ri =>
      if merge_keys_ok (map (cell li) (rows left)) (map (cell ri) (rows right))
      then
        let nl := length (schema left) in
        let nr := length (schema right) in
        ret (mk_df (merged_schema key (schema left) (schema right))
               (flat_map
                  (fun l =>
                     map (fun r => pad nl l ++ drop_nth ri (pad nr r))
                       (List.filter (fun r => hash_eq (cell li l) (cell ri r))
                          (rows right)))
                  (rows left)))
      else raise (ValueError "You are trying to merge on incompatible columns")
  | _, _ => raise (KeyError key)
  end.

(** [pd.merge(left, right, on=key, how='left')]: a left row without a
    partner is kept, with NaN under the columns of [right]; a column of
    integers that receives a NaN becomes a column of floats. *)
Definition merge_left (left right : DataFrame) (key : string) : Exc DataFrame :=
  match index_of key (columns left), index_of key (columns right) with
  | Some li, Some ri =>
      if merge_keys_ok (map (cell li) (rows left)) (map (cell ri) (rows right))
      then
        let nl := length (schema left) in
        let nr := length (schema right) in
        let partners l :=
          List.filter (fun r => hash_eq (cell li l) (cell ri r)) (rows right) in
        let lonely :=
          existsb (fun l => match partners l with [] => true | _ => false end)
            (rows left) in
        let widen '(c, d) :=
          if lonely then (c, match d with Int64 => Float64 | _ => d end)
          else (c, d) in
        let fix_cell (v : Value) := if lonely then upcast v else v in
        ret (mk_df
               (merged_schema key (schema left) (map widen (schema right)))
               (flat_map
                  (fun l =>
                     match partners l with
                     | [] => [pad nl l ++ repeat VNaN (nr - 1)]
                     | ps =>
                         map (fun r =>
                                pad nl l ++ map fix_cell (drop_nth ri (pad nr r)))
                           ps
                     end)
                  (rows left)))
      else raise (ValueError "You are trying to merge on incompatible columns")
  | _, _ => raise (KeyError key)
  end.

End Merge.

(** [df.fillna('')]: every NaN becomes the empty string, and a column
    that had one becomes a column of objects. *)
Definition fillna_empty (df : DataFrame) : DataFrame :=
  let has_nan i := existsb (fun r => isna (cell i r)) (rows df) in
  let n := length (schema df) in
  mk_df
    (map (fun '(i, (c, d)) => if has_nan i then (c, Object) else (c, d))
       (combine (seq 0 n) (schema df)))
    (map (fun r => map (fun v => if isna v then VStr "" else v) (pad n r))
       (rows df)).

(** ** Dates

    [date.toordinal()] and [date.weekday()] as the standard library
    computes them; [strftime("%Y%m%d")] read back by [int]. *)

Definition is_leap (y : Z) : bool :=
  (y mod 4 =? 0)%Z && (negb (y mod 100 =? 0)%Z || (y mod 400 =? 0)%Z).

Definition days_before_year (y : Z) : Z :=
  let y1 := y - 1 in y1 * 365 + y1 / 4 - y1 / 100 + y1 / 400.

Definition days_in_month (y m : Z) : Z :=
  if (m =? 2)%Z then (if is_leap y then 29 else 28)
  else if (m =? 4)%Z || (m =? 6)%Z || (m =? 9)%Z || (m =? 11)%Z then 30
  else 31.

Fixpoint days_before_month_aux (y : Z) (m : nat) : Z :=
  match m with
  | O => 0
  | S m' => days_before_month_aux y m' + days_in_month y (Z.of_nat m)
  end.

Definition days_before_month (y m : Z) : Z :=
  days_before_month_aux y (Z.to_nat (m - 1)).

Definition toordinal (d : datetime) : Z :=
  days_before_year (year d) + days_before_month (year d) (month d) + day d.

Definition weekday (d : datetime) : Z := (toordinal d + 6) mod 7.

Definition service_date_int (d : datetime) : Z :=
  year d * 10000 + month d * 100 + day d.

(** The dictionary [weekday_mapping] of [get_route_details]. *)
Definition weekday_mapping (w : Z) : string :=
  if (w =? 0)%Z then "monday" else
  if (w =? 1)%Z then "tuesday" else
  if (w =? 2)%Z then "wednesday" else
  if (w =? 3)%Z then "thursday" else
  if (w =? 4)%Z then "friday" else
  if (w =? 5)%Z then "saturday" else "sunday".

(** ** Paths and the file system *)

(** [s.split('/')]. *)
Fixpoint split_slash (s : string) : list string :=
  match s with
  | EmptyString => [EmptyString]
  | String c r =>
      if Ascii.eqb c "/" then EmptyString :: split_slash r
      else match split_slash r with
           | p :: ps => String c p :: ps
           | [] => [String c EmptyString]
           end
  end.

Fixpoint ends_with_slash (s : string) : bool :=
  match s with
  | EmptyString => false
  | String c EmptyString => Ascii.eqb c "/"
  | String _ r => ends_with_slash r
  end.

(** [os.path.join(a, b)] (POSIX). *)
Definition path_join (a b : string) : string :=
  match b with
  | String "/" _ => b
  | _ =>
      match a with
      | EmptyString => b
      | _ => if ends_with_slash a then (a ++ b)%string
             else (a ++ "/" ++ b)%string
      end
  end.

(** [os.path.basename(p)]: what follows the last slash. *)
Definition basename (p : string) : string := List.last (split_slash p) EmptyString.

(** A node of the storage: a directory, or a file with what
    [pd.read_csv] returns for it (a frame, or the exception it raises). *)
Inductive node : Type :=
  | Dir
  | File (parsed : Exc DataFrame).

Abbreviation FileSystem := (gmap string node).

(** [os.path.exists(p)]. *)
Definition path_exists (fs : FileSystem) (p : string) : bool :=
  match fs !! p with Some _ => true | None => false end.

(** [pd.read_csv(p)]. *)
Definition read_csv (fs : FileSystem) (p : string) : Exc DataFrame :=
  match fs !! p with
  | Some (File parsed) => parsed
  | Some Dir => raise (OSError p)
  | None => raise (OSError p)
  end.

(** ** [GTFSViewer._is_valid_gtfs] *)

Definition required_files : list string :=
  ["routes.txt"; "stops.txt"; "trips.txt"; "stop_times.txt"].

Definition _is_valid_gtfs (fs : FileSystem) (folder_path : string) : bool :=
  let missing_files :=
    List.filter (fun file => negb (path_exists fs (path_join folder_path file)))
      required_files in
  match missing_files with
  | [] => true
  | _ => false
  end.

(** ** [GTFSViewer.get_route_details] *)

Record Point : Type := mk_point { lat : Value; lng : Value }.

Record Stop : Type := mk_stop {
  stop_id : string; stop_name : string; stop_lat : Value; stop_lng : Value
}.

(** What the method returns: one of its four explicit error dictionaries,
    the dictionary [{"error": str(e)}] of its exception handler, or the
    details. *)
Inductive Payload : Type :=
  | FolderNotFound
  | RequiredFileMissing (file : string)
  | NoTripsForRoute (route_id : string)
  | NoTripsForDate (route_id : string) (date_time_str : string)
  | Failed (e : exn)
  | Details (route : list (string * string)) (shape : list Point)
      (stops : list Stop).

Definition payload_of (result : Exc Payload) : Payload :=
  match result with
  | inr payload => payload
  | inl e => Failed e
  end.

Section RouteDetails.
Context {rt : Runtime}.
Variable base_dir : string.
Variable fs : FileSystem.

(** Lines 222-237: the trips of the route. *)
Definition filter_route (trips_df : DataFrame) (route_id : string)
  : Exc DataFrame :=
  match py_int route_id with
  | Some route_id_int =>
      ids <- column trips_df "route_id" ;;
      let trips_route_id_match := map (fun v => py_eq v (VStr route_id)) ids in
      let trips_route_id_int_match :=
        map (fun v => py_eq v (VInt route_id_int)) ids in
      let trips_route_id_str_match :=
        map (fun v => String.eqb (py_str v) route_id) ids in
      ret (select trips_df
             (mask_or (mask_or trips_route_id_match trips_route_id_int_match)
                trips_route_id_str_match))
  | None =>
      ids <- column trips_df "route_id" ;;
      let trips_route_id_match := map (fun v => py_eq v (VStr route_id)) ids in
      let trips_route_id_str_match :=
        map (fun v => String.eqb (py_str v) route_id) ids in
      ret (select trips_df (mask_or trips_route_id_match trips_route_id_str_match))
  end.

(** Lines 249-280: [service_ids] after [calendar.txt]; [None] is Python's
    [None]. *)
Definition calendar_service_ids (folder_path : string) (date_time : datetime)
  : Exc (option (list Value)) :=
  let calendar_file := path_join folder_path "calendar.txt" in
  if path_exists fs calendar_file then
    calendar_df <- read_csv fs calendar_file ;;
    let sdi := service_date_int date_time in
    starts <- column calendar_df "start_date" ;;
    starts <- mapM astype_int starts ;;
    let start_date_le := map (fun z => z <=? sdi) starts in
    ends <- column calendar_df "end_date" ;;
    ends <- mapM astype_int ends ;;
    let end_date_ge := map (fun z => z >=? sdi) ends in
    let valid_services := select calendar_df (mask_and start_date_le end_date_ge) in
    let weekday_column := weekday_mapping (weekday date_time) in
    valid_services <-
      (if has_column calendar_df weekday_column then
         flags <- column valid_services weekday_column ;;
         ret (select valid_services (map (fun v => py_eq v (VInt 1)) flags))
       else ret valid_services) ;;
    if negb (is_empty valid_services) then
      ids <- column valid_services "service_id" ;;
      ret (Some (unique ids))
    else ret None
  else ret None.

(** [list(set(a).union(set(b)))]: the elements of both, each once under
    [==] (the order of a Python set is not specified; here, first
    occurrences). *)
Fixpoint set_list (seen l : list Value) : list Value :=
  match l with
  | [] => []
  | x :: l' =>
      if py_in x seen then set_list seen l' else x :: set_list (x :: seen) l'
  end.

Definition set_union (a b : list Value) : list Value := set_list [] (a ++ b).

(** Lines 283-309: [service_ids] after [calendar_dates.txt]. *)
Definition calendar_dates_service_ids (folder_path : string)
  (date_time : datetime) (service_ids : option (list Value))
  : Exc (option (list Value)) :=
  let calendar_dates_file := path_join folder_path "calendar_dates.txt" in
  if path_exists fs calendar_dates_file then
    calendar_dates_df <- read_csv fs calendar_dates_file ;;
    if has_column calendar_dates_df "date"
       && has_column calendar_dates_df "exception_type" then
      let sdi := service_date_int date_time in
      dates <- column calendar_dates_df "date" ;;
      dates <- mapM astype_int dates ;;
      let date_equals := map (fun z => z =? sdi) dates in
      let date_exceptions := select calendar_dates_df date_equals in
      if negb (is_empty date_exceptions) then
        types <- column date_exceptions "exception_type" ;;
        added <- column (select date_exceptions
                           (map (fun v => py_eq v (VInt 1)) types))
                   "service_id" ;;
        let added_services := unique added in
        types <- column date_exceptions "exception_type" ;;
        removed <- column (select date_exceptions
                             (map (fun v => py_eq v (VInt 2)) types))
                     "service_id" ;;
        let removed_services := unique removed in
        match service_ids with
        | Some ids =>
            let kept :=
              List.filter (fun sid => negb (py_in sid removed_services)) ids in
            ret (Some (set_union kept added_services))
        | None => ret (Some added_services)
        end
      else ret service_ids
    else ret service_ids
  else ret service_ids.

(** Lines 347-350: one point of the shape. *)
Definition shape_point (shape_df : DataFrame) (row : Row) : Exc Point :=
  la <- row_get shape_df row "shape_pt_lat" ;;
  la <- py_float la ;;
  lo <- row_get shape_df row "shape_pt_lon" ;;
  lo <- py_float lo ;;
  ret (mk_point la lo).

(** Lines 328-356: the shape of the first remaining trip. *)
Definition shape_points_of (folder_path : string) (route_trips : DataFrame)
  : Exc (list Point) :=
  if has_column route_trips "shape_id" then
    let shapes_file := path_join folder_path "shapes.txt" in
    if path_exists fs shapes_file then
      shapes_df <- read_csv fs shapes_file ;;
      match rows route_trips with
      | first :: _ =>
          if has_column route_trips "shape_id" then
            first_shape_id <- row_get route_trips first "shape_id" ;;
            ids <- column shapes_df "shape_id" ;;
            shape_df <-
              sort_values
                (select shapes_df (map (fun v => py_eq v first_shape_id) ids))
                "shape_pt_sequence" ;;
            mapM (shape_point shape_df) (rows shape_df)
          else ret []
      | [] => ret []
      end
    else ret []
  else ret [].

(** Lines 359-372: the stops of the remaining trips. *)
Definition stop_record (stops_df : DataFrame) (stop : Row) : Exc Stop :=
  id <- row_get stops_df stop "stop_id" ;;
  name <- row_get stops_df stop "stop_name" ;;
  la <- row_get stops_df stop "stop_lat" ;;
  la <- py_float la ;;
  lo <- row_get stops_df stop "stop_lon" ;;
  lo <- py_float lo ;;
  ret (mk_stop (py_str id) (if isna name then "" else py_str name) la lo).

Definition stops_list_of (trip_stops stops_df : DataFrame) : Exc (list Stop) :=
  ids <- column trip_stops "stop_id" ;;
  let stop_ids := unique ids in
  sids <- column stops_df "stop_id" ;;
  let route_stops := select stops_df (map (isin stop_ids) sids) in
  mapM (stop_record route_stops) (rows route_stops).

(** Lines 375-380: the fields of the route. *)
Definition route_info_of (routes_df : DataFrame) (route_id : string)
  : Exc (list (string * string)) :=
  ids <- column routes_df "route_id" ;;
  let found := select routes_df (map (fun v => py_eq v (VStr route_id)) ids) in
  match rows found with
  | [] => ret []
  | first :: _ =>
      mapM (fun col =>
              v <- row_get found first col ;;
              ret (col, if isna v then "" else py_str v))
        (columns routes_df)
  end.

(** Lines 323-389: what is built from the trips that remain. *)
Definition assemble (folder_path : string)
  (routes_df stop_times_df stops_df : DataFrame) (route_id : string)
  (route_trips : DataFrame) : Exc Payload :=
  trip_stops <- merge_inner route_trips stop_times_df "trip_id" ;;
  shape_points <- shape_points_of folder_path route_trips ;;
  stops_list <- stops_list_of trip_stops stops_df ;;
  route_info <- route_info_of routes_df route_id ;;
  ret (Details route_info shape_points stops_list).

(** Lines 217-389: from the four tables to the result. *)
Definition details_of_tables (folder_path : string) (date_time : datetime)
  (routes_df trips_df stop_times_df stops_df : DataFrame)
  (route_id date_time_str : string) : Exc Payload :=
  route_trips <- filter_route trips_df route_id ;;
  if is_empty route_trips then ret (NoTripsForRoute route_id) else
  service_ids <- calendar_service_ids folder_path date_time ;;
  service_ids <- calendar_dates_service_ids folder_path date_time service_ids ;;
  match service_ids with
  | Some ids =>
      if 0 <? Z.of_nat (length ids) then
        sids <- column route_trips "service_id" ;;
        let route_trips := select route_trips (map (isin ids) sids) in
        if is_empty route_trips
        then ret (NoTripsForDate route_id date_time_str)
        else assemble folder_path routes_df stop_times_df stops_df
               route_id route_trips
      else assemble folder_path routes_df stop_times_df stops_df
             route_id route_trips
  | None =>
      assemble folder_path routes_df stop_times_df stops_df route_id route_trips
  end.

(** The body of the [try] block. *)
Definition route_details_body (folder_id route_id date_time_str : string)
  : Exc Payload :=
  match split_slash folder_id with
  | [uuid_dir; timestamp_dir] =>
      let folder_path := path_join (path_join base_dir uuid_dir) timestamp_dir in
      if negb (path_exists fs folder_path) then ret FolderNotFound else
      date_time <- strptime date_time_str ;;
      let routes_file := path_join folder_path "routes.txt" in
      let trips_file := path_join folder_path "trips.txt" in
      let stop_times_file := path_join folder_path "stop_times.txt" in
      let stops_file := path_join folder_path "stops.txt" in
      match List.find (fun file_path => negb (path_exists fs file_path))
              [routes_file; trips_file; stop_times_file; stops_file] with
      | Some file_path => ret (RequiredFileMissing (basename file_path))
      | None =>
          routes_df <- read_csv fs routes_file ;;
          trips_df <- read_csv fs trips_file ;;
          stop_times_df <- read_csv fs stop_times_file ;;
          stops_df <- read_csv fs stops_file ;;
          details_of_tables folder_path date_time
            routes_df trips_df stop_times_df stops_df route_id date_time_str
      end
  | _ => raise (ValueError "not enough values to unpack, or too many")
  end.

(** The method: [except Exception as e: return {"error": str(e)}]. *)
Definition get_route_details (folder_id route_id date_time_str : string)
  : Payload :=
  payload_of (route_details_body folder_id route_id date_time_str).

End RouteDetails.

(** ** [GTFSViewer.get_routes] *)

Section Routes.
Context {rt : Runtime}.
Variable base_dir : string.
Variable fs : FileSystem.

(** One dictionary per row: [str(row[col]) if not pd.isna(row[col]) else ""]. *)
Definition row_dict (df : DataFrame) (row : Row) : Exc (list (string * string)) :=
  mapM (fun col =>
          v <- row_get df row col ;;
          ret (col, if isna v then "" else py_str v))
    (columns df).

(** Lines 134-160, once the three guards have passed. *)
Definition read_routes (folder_path : string)
  : Exc (list (list (string * string))) :=
  routes_df <- read_csv fs (path_join folder_path "routes.txt") ;;
  let agency_file := path_join folder_path "agency.txt" in
  routes_df <-
    (if path_exists fs agency_file then
       agency_df <- read_csv fs agency_file ;;
       if has_column routes_df "agency_id" && has_column agency_df "agency_id"
       then merge_left routes_df agency_df "agency_id"
       else ret routes_df
     else ret routes_df) ;;
  let routes_df := fillna_empty routes_df in
  mapM (row_dict routes_df) (rows routes_df).

(** The method.  A Python call either returns a value or raises; the
    result type keeps both possibilities, and every path of this method
    ends in [return]. *)
Definition get_routes (folder_id : string) : Exc (list (list (string * string))) :=
  match split_slash folder_id with
  | [uuid_dir; timestamp_dir] =>
      let folder_path := path_join (path_join base_dir uuid_dir) timestamp_dir in
      if negb (path_exists fs folder_path) then ret []
      else
        let routes_file := path_join folder_path "routes.txt" in
        if negb (path_exists fs routes_file) then ret []
        else
          match read_routes folder_path with
          | inr routes => ret routes
          | inl _ => ret []
          end
  | _ => ret []
  end.

End Routes.

(** ** [GTFSViewer.upload_gtfs]

    The method changes the storage, also when it fails: a computation
    takes the storage and returns the new storage with a value or an
    exception. *)

Definition IO (A : Type) : Type := FileSystem -> FileSystem * Exc A.

Definition io_ret {A} (a : A) : IO A := fun fs => (fs, inr a).
Definition io_raise {A} (e : exn) : IO A := fun fs => (fs, inl e).
Definition io_bind {A B} (m : IO A) (k : A -> IO B) : IO B :=
  fun fs =>
    match m fs with
    | (fs', inr a) => k a fs'
    | (fs', inl e) => (fs', inl e)
    end.

Notation "x <~ m ;; k" := (io_bind m (fun x => k))
  (at level 100, m at next level, right associativity).

Fixpoint io_iter {A} (f : A -> IO unit) (l : list A) : IO unit :=
  match l with
  | [] => io_ret tt
  | a :: l' => _ <~ f a ;; io_iter f l'
  end.

(** The non-empty prefixes of a list, shortest first. *)
Fixpoint inits {A} (l : list A) : list (list A) :=
  match l with
  | [] => []
  | a :: l' => [a] :: map (cons a) (inits l')
  end.

Definition join_slash (parts : list string) : string := String.concat "/" parts.

(** [os.mkdir(p)] that accepts an existing directory. *)
Definition mkdir_exist_ok (p : string) : IO unit :=
  fun fs =>
    match fs !! p with
    | None => (<[p := Dir]> fs, inr tt)
    | Some Dir => (fs, inr tt)
    | Some (File _) => (fs, inl (OSError p))
    end.

(** [os.makedirs(p, exist_ok=True)]: the directories above [p], then [p];
    the empty path is refused. *)
Definition makedirs (p : string) : IO unit :=
  if String.eqb p "" then io_raise (OSError p)
  else
    io_iter mkdir_exist_ok
      (List.filter (fun q => negb (String.eqb q ""))
         (map join_slash (inits (split_slash p)))).

(** [open(p, 'wb')] and the write: a directory cannot be opened. *)
Definition write_file (p : string) (parsed : Exc DataFrame) : IO unit :=
  fun fs =>
    match fs !! p with
    | Some Dir => (fs, inl (OSError p))
    | _ => (<[p := File parsed]> fs, inr tt)
    end.

(** [os.remove(p)]. *)
Definition remove (p : string) : IO unit :=
  fun fs =>
    match fs !! p with
    | Some (File _) => (delete p fs, inr tt)
    | _ => (fs, inl (OSError p))
    end.

(** [os.path.dirname(p)]. *)
Fixpoint rstrip_slash (s : string) : string :=
  match s with
  | EmptyString => EmptyString
  | String c r =>
      match rstrip_slash r with
      | EmptyString => if Ascii.eqb c "/" then EmptyString else String c EmptyString
      | r' => String c r'
      end
  end.

Definition dirname (p : string) : string :=
  match removelast (split_slash p) with
  | [] => ""
  | parts =>
      let head := (join_slash parts ++ "/")%string in
      match rstrip_slash head with
      | EmptyString => head
      | stripped => stripped
      end
  end.

(** What the uploaded file is: read as a zip archive, its members (a
    name with the table of a file, or nothing for a directory entry) or
    [BadZipFile]; and what [read_csv] would make of the saved file. *)
Record Upload : Type := mk_upload {
  zip_members : Exc (list (string * option (Exc DataFrame)));
  zip_as_csv : Exc DataFrame
}.

(** [ZipFile.extractall]: a member's name loses its empty, [.] and [..]
    components and is joined to the target directory. *)
Definition arcname (name : string) : string :=
  join_slash
    (List.filter
       (fun x => negb (String.eqb x "" || String.eqb x "." || String.eqb x ".."))
       (split_slash name)).

Definition extract_member (extract_dir : string)
  (member : string * option (Exc DataFrame)) : IO unit :=
  let targetpath :=
    match arcname (fst member) with
    | EmptyString => extract_dir
    | a => path_join extract_dir a
    end in
  let upperdirs := dirname targetpath in
  _ <~ (fun fs =>
          if negb (String.eqb upperdirs "") && negb (path_exists fs upperdirs)
          then makedirs upperdirs fs else (fs, inr tt)) ;;
  match snd member with
  | None =>
      fun fs =>
        match fs !! targetpath with
        | Some Dir => (fs, inr tt)
        | Some (File _) => (fs, inl (OSError targetpath))
        | None => (<[targetpath := Dir]> fs, inr tt)
        end
  | Some parsed => write_file targetpath parsed
  end.

Definition extractall (file_obj : Upload) (extract_dir : string) : IO unit :=
  fun fs =>
    match zip_members file_obj with
    | inl e => (fs, inl e)
    | inr members => io_iter (extract_member extract_dir) members fs
    end.

Section Upload.
Variable base_dir : string.
(** [str(uuid.uuid4())] and [datetime.now().strftime("%Y%m%d%H%M%S")]. *)
Variable folder_uuid : string.
Variable timestamp : string.

Definition uuid_dir : string := path_join base_dir folder_uuid.
Definition extract_dir : string := path_join uuid_dir timestamp.
Definition zip_path : string := path_join uuid_dir "gtfs.zip".

(** Lines 407-428: the directories, the saved file, the extraction. *)
Definition save_and_extract (file_obj : Upload) : IO unit :=
  _ <~ makedirs uuid_dir ;;
  _ <~ makedirs extract_dir ;;
  _ <~ write_file zip_path (zip_as_csv file_obj) ;;
  extractall file_obj extract_dir.

(** The method; its handler prints and re-raises. *)
Definition upload_gtfs (file_obj : Upload) : IO string :=
  _ <~ save_and_extract file_obj ;;
  _ <~ remove zip_path ;;
  fun fs =>
    if negb (_is_valid_gtfs fs extract_dir)
    then (fs, inl (ValueError "Uploaded file does not contain valid GTFS data"))
    else (fs, inr (folder_uuid ++ "/" ++ timestamp)%string).

End Upload.

(** ** A runtime for the examples

    It agrees with Python on what the examples below feed it: date strings
    written [YYYY-MM-DD HH:MM] with all digits present, floats that are
    whole numbers, strings that are integer literals or no number at all,
    and joins of two key columns of one dtype. *)

Definition two_digits (a b : ascii) : option Z :=
  match digit_of a, digit_of b with
  | Some x, Some y => Some (x * 10 + y)
  | _, _ => None
  end.

Definition strptime_padded (s : string) : Exc datetime :=
  match s with
  | String y1 (String y2 (String y3 (String y4 (String "-"
      (String m1 (String m2 (String "-" (String d1 (String d2 (String " "
      (String h1 (String h2 (String ":" (String n1 (String n2
      EmptyString))))))))))))))) =>
      match two_digits y1 y2, two_digits y3 y4, two_digits m1 m2,
            two_digits d1 d2, two_digits h1 h2, two_digits n1 n2 with
      | Some ya, Some yb, Some m, Some d, Some h, Some n =>
          let y := ya * 100 + yb in
          if (1 <=? y) && (1 <=? m) && (m <=? 12) && (1 <=? d)
             && (d <=? days_in_month y m) && (h <=? 23) && (n <=? 59)
          then ret (mk_datetime y m d h n)
          else raise (ValueError "time data does not match format")
      | _, _, _, _, _, _ => raise (ValueError "time data does not match format")
      end
  | _ => raise (ValueError "time data does not match format")
  end.

Definition example_runtime : Runtime := {|
  strptime := strptime_padded;
  float_repr q := (str_of_Z (Z.quot (Qnum q) (Z.pos (Qden q))) ++ ".0")%string;
  float_parse s :=
    match py_int s with
    | Some z => ret (VFloat (inject_Z z))
    | None => raise (ValueError "could not convert string to float")
    end;
  merge_keys_ok _ _ := true
|}.

(** ** Example data *)

Module Ex.

Definition trips : DataFrame :=
  mk_df [("route_id", Int64); ("service_id", Object); ("trip_id", Object);
         ("shape_id", Int64)]
    [[VInt 42; VStr "WK"; VStr "t1"; VInt 7];
     [VInt 42; VStr "SA"; VStr "t2"; VInt 8];
     [VInt 5; VStr "WK"; VStr "t3"; VInt 9]].

(** The same trips in a file whose route ids are not all numbers, so that
    the column holds strings. *)
Definition trips_str : DataFrame :=
  mk_df [("route_id", Object); ("service_id", Object); ("trip_id", Object);
         ("shape_id", Int64)]
    [[VStr "42"; VStr "WK"; VStr "t1"; VInt 7];
     [VStr "42"; VStr "SA"; VStr "t2"; VInt 8];
     [VStr "5A"; VStr "WK"; VStr "t3"; VInt 9]].

Definition routes : DataFrame :=
  mk_df [("route_id", Int64); ("route_long_name", Object)]
    [[VInt 42; VStr "Main"]; [VInt 5; VStr "Side"]].

Definition stop_times : DataFrame :=
  mk_df [("trip_id", Object); ("stop_id", Int64); ("stop_sequence", Int64)]
    [[VStr "t1"; VInt 2; VInt 1]; [VStr "t1"; VInt 1; VInt 2];
     [VStr "t2"; VInt 2; VInt 1]; [VStr "t3"; VInt 3; VInt 1]].

Definition stops : DataFrame :=
  mk_df [("stop_id", Int64); ("stop_name", Object); ("stop_lat", Float64);
         ("stop_lon", Float64)]
    [[VInt 1; VStr "A"; VFloat 10; VFloat 20];
     [VInt 2; VNaN; VFloat 11; VFloat 21];
     [VInt 3; VStr "C"; VFloat 12; VFloat 22]].

Definition shapes : DataFrame :=
  mk_df [("shape_id", Int64); ("shape_pt_lat", Float64);
         ("shape_pt_lon", Float64); ("shape_pt_sequence", Int64)]
    [[VInt 7; VFloat 3; VFloat 3; VInt 3];
     [VInt 8; VFloat 9; VFloat 9; VInt 1];
     [VInt 7; VFloat 1; VFloat 1; VInt 1];
     [VInt 7; VFloat 2; VFloat 2; VInt 2]].

(** One service, Mondays only, all of 2024. *)
Definition calendar_monday : DataFrame :=
  mk_df [("service_id", Object); ("monday", Int64); ("saturday", Int64);
         ("start_date", Int64); ("end_date", Int64)]
    [[VStr "WK"; VInt 1; VInt 0; VInt 20240101; VInt 20241231]].

(** Two services, weekdays and Saturdays. *)
Definition calendar_both : DataFrame :=
  mk_df [("service_id", Object); ("monday", Int64); ("saturday", Int64);
         ("start_date", Int64); ("end_date", Int64)]
    [[VStr "WK"; VInt 1; VInt 0; VInt 20240101; VInt 20241231];
     [VStr "SA"; VInt 0; VInt 1; VInt 20240101; VInt 20241231]].

(** On 2024-06-15 the service WK is removed, and nothing is added. *)
Definition dates_removed : DataFrame :=
  mk_df [("service_id", Object); ("date", Int64); ("exception_type", Int64)]
    [[VStr "WK"; VInt 20240615; VInt 2]].

(** On 2024-06-15 the service SA is removed and added, and WK is added. *)
Definition dates_mixed : DataFrame :=
  mk_df [("service_id", Object); ("date", Int64); ("exception_type", Int64)]
    [[VStr "SA"; VInt 20240615; VInt 2];
     [VStr "SA"; VInt 20240615; VInt 1];
     [VStr "WK"; VInt 20240615; VInt 1];
     [VStr "WK"; VInt 20240616; VInt 2]].

Definition folder : string := "./data/u/20240101120000".

(** The four required tables, and nothing else. *)
Definition fs_required : FileSystem :=
  list_to_map
    [("./data", Dir); ("./data/u", Dir); (folder, Dir);
     ("./data/u/20240101120000/routes.txt", File (inr routes));
     ("./data/u/20240101120000/trips.txt", File (inr trips));
     ("./data/u/20240101120000/stop_times.txt", File (inr stop_times));
     ("./data/u/20240101120000/stops.txt", File (inr stops))].

Definition fs_shapes : FileSystem :=
  <["./data/u/20240101120000/shapes.txt" := File (inr shapes)]> fs_required.

Definition fs_calendar_monday : FileSystem :=
  <["./data/u/20240101120000/calendar.txt" := File (inr calendar_monday)]>
    fs_required.

Definition fs_calendar_both : FileSystem :=
  <["./data/u/20240101120000/calendar.txt" := File (inr calendar_both)]>
    fs_required.

Definition fs_dates_removed : FileSystem :=
  <["./data/u/20240101120000/calendar_dates.txt" := File (inr dates_removed)]>
    fs_required.

Definition fs_dates_mixed : FileSystem :=
  <["./data/u/20240101120000/calendar_dates.txt" := File (inr dates_mixed)]>
    fs_required.

Definition fs_both_mixed : FileSystem :=
  <["./data/u/20240101120000/calendar_dates.txt" := File (inr dates_mixed)]>
    fs_calendar_both.

(** A storage whose snapshot directory has no [routes.txt]. *)
Definition fs_no_routes : FileSystem :=
  list_to_map [("./data", Dir); ("./data/u", Dir); (folder, Dir)].

(** A snapshot whose [routes.txt] has a header and no row. *)
Definition fs_empty_routes : FileSystem :=
  <["./data/u/20240101120000/routes.txt" :=
      File (inr (mk_df [("route_id", Object)] []))]> fs_required.

Definition id : string := "u/20240101120000".

(** Saturday, 15 June 2024. *)
Definition saturday : string := "2024-06-15 10:00".

(** An archive with [routes.txt] only. *)
Definition incomplete_zip : Upload :=
  mk_upload (inr [("routes.txt", Some (inr routes))]) (inl (ParserError "gtfs.zip")).

End Ex.

(** ** The rules of the specification, in its own words *)

Section SpecRules.
Context {rt : Runtime}.

(** Identifier matching (4.4): equal as raw values, or equal to the
    integer the target parses to, or equal to the target once coerced to a
    string. *)
Definition route_matches (route_id : string) (v : Value) : bool :=
  py_eq v (VStr route_id)
  || match py_int route_id with
     | Some n => py_eq v (VInt n)
     | None => false
     end
  || String.eqb (py_str v) route_id.

(** The filtering step of lines 312-315 taken alone: what it keeps of
    the trips of the route. *)
Definition service_filter (service_ids : option (list Value))
  (route_trips : DataFrame) : Exc DataFrame :=
  match service_ids with
  | Some ids =>
      if 0 <? Z.of_nat (length ids) then
        sids <- column route_trips "service_id" ;;
        ret (select route_trips (map (isin ids) sids))
      else ret route_trips
  | None => ret route_trips
  end.

(** The request reached line 217: the identifier has two parts, the
    directory and the four required files exist, the date and the four
    tables were read. *)
Definition loaded (base_dir : string) (fs : FileSystem)
  (folder_id date_time_str folder_path : string) (date_time : datetime)
  (routes_df trips_df stop_times_df stops_df : DataFrame) : Prop :=
  exists uuid_dir timestamp_dir,
    split_slash folder_id = [uuid_dir; timestamp_dir]
    /\ folder_path = path_join (path_join base_dir uuid_dir) timestamp_dir
    /\ path_exists fs folder_path = true
    /\ strptime date_time_str = inr date_time
    /\ path_exists fs (path_join folder_path "routes.txt") = true
    /\ path_exists fs (path_join folder_path "trips.txt") = true
    /\ path_exists fs (path_join folder_path "stop_times.txt") = true
    /\ path_exists fs (path_join folder_path "stops.txt") = true
    /\ read_csv fs (path_join folder_path "routes.txt") = inr routes_df
    /\ read_csv fs (path_join folder_path "trips.txt") = inr trips_df
    /\ read_csv fs (path_join folder_path "stop_times.txt") = inr stop_times_df
    /\ read_csv fs (path_join folder_path "stops.txt") = inr stops_df.

(** Step 1 of the resolver (4.3): the window of the entry contains the
    target date and the flag of the target's weekday is set. *)
Definition entry_active (calendar_df : DataFrame) (date_time : datetime)
  (entry : Row) : bool :=
  match index_of "start_date" (columns calendar_df),
        index_of "end_date" (columns calendar_df),
        index_of (weekday_mapping (weekday date_time)) (columns calendar_df) with
  | Some i, Some j, Some k =>
      match astype_int (cell i entry), astype_int (cell j entry) with
      | inr start_date, inr end_date =>
          (start_date <=? service_date_int date_time)
          && (service_date_int date_time <=? end_date)
          && py_eq (cell k entry) (VInt 1)
      | _, _ => false
      end
  | _, _, _ => false
  end.

(** A calendar table that can be used for a date: it has the two date
    columns, with values that convert to integers, and the column of the
    weekday. *)
Definition calendar_usable (calendar_df : DataFrame) (date_time : datetime)
  : Prop :=
  (exists i starts,
     index_of "start_date" (columns calendar_df) = Some i
     /\ mapM astype_int (map (cell i) (rows calendar_df)) = inr starts)
  /\ (exists j ends,
        index_of "end_date" (columns calendar_df) = Some j
        /\ mapM astype_int (map (cell j) (rows calendar_df)) = inr ends)
  /\ has_column calendar_df (weekday_mapping (weekday date_time)) = true.

(** Step 3 of the resolver (4.3): the rows of the exceptions table for
    the target date; and the service ids among them with one exception
    type (1 is Added, 2 is Removed), in the order of the file. *)
Definition exception_on (calendar_dates_df : DataFrame) (date_time : datetime)
  (row : Row) : bool :=
  match index_of "date" (columns calendar_dates_df) with
  | Some i =>
      match astype_int (cell i row) with
      | inr z => z =? service_date_int date_time
      | inl _ => false
      end
  | None => false
  end.

Definition exception_ids (calendar_dates_df : DataFrame) (date_time : datetime)
  (exception_type : Z) : list Value :=
  match index_of "exception_type" (columns calendar_dates_df),
        index_of "service_id" (columns calendar_dates_df) with
  | Some k, Some m =>
      map (cell m)
        (List.filter
           (fun row =>
              exception_on calendar_dates_df date_time row
              && py_eq (cell k row) (VInt exception_type))
           (rows calendar_dates_df))
  | _, _ => []
  end.

(** An exceptions table that can be used: it has the three columns, and
    its dates convert to integers. *)
Definition exceptions_usable (calendar_dates_df : DataFrame) : Prop :=
  (exists i dates,
     index_of "date" (columns calendar_dates_df) = Some i
     /\ mapM astype_int (map (cell i) (rows calendar_dates_df)) = inr dates)
  /\ has_column calendar_dates_df "exception_type" = true
  /\ has_column calendar_dates_df "service_id" = true.

(** The rows of the calendar that lie in the window, used in the proofs
    about the first step. *)
Definition in_window (i j : nat) (sdi : Z) (entry : Row) : bool :=
  match astype_int (cell i entry), astype_int (cell j entry) with
  | inr start_date, inr end_date => (start_date <=? sdi) && (sdi <=? end_date)
  | _, _ => false
  end.

End SpecRules.

(** The order of an emitted shape: a point comes before another when
    its sequence number is not greater, or when the other has none. *)
Definition seq_le (k : nat) (a b : Row) : Prop :=
  isna (cell k b) = true \/ row_leb k a b = true.

(** The sequence numbers can be ordered: all numbers or all strings,
    missing ones apart. *)
Definition comparable (k : nat) (points : list Row) : bool :=
  let keys :=
    map (cell k) (List.filter (fun r => negb (isna (cell k r))) points) in
  forallb is_num keys || forallb is_str keys.

(** One state of the storage keeps what another has: a directory is
    still a directory and a file is still a file (perhaps rewritten). *)
Definition keeps (fs fs' : FileSystem) : Prop :=
  forall p,
    match fs !! p with
    | Some Dir => fs' !! p = Some Dir
    | Some (File _) => exists parsed, fs' !! p = Some (File parsed)
    | None => True
    end.

(** Two scalars denote the same value: what [==] decides. *)
Definition same_value (v w : Value) : Prop :=
  match key_of v, key_of w with
  | Some (KNum p), Some (KNum q) => Qeq p q
  | Some (KStr s), Some (KStr t) => s = t
  | _, _ => False
  end.

(** A computation on the storage that keeps what the storage has. *)
Definition io_keeps {A} (m : IO A) : Prop := forall fs, keeps fs (fst (m fs)).

(** Case analysis on the next step of a computation that may raise. *)
Ltac exc_cases :=
  repeat match goal with
    | |- context [bind ?m _] =>
        let E := fresh "E" in destruct m eqn:E; unfold bind at 1
    end.

(** Values used by the examples of the properties. *)
Definition saturday_15_june : datetime := mk_datetime 2024 6 15 10 0.

Definition trips_of_42 : DataFrame :=
  mk_df (schema Ex.trips)
    [[VInt 42; VStr "WK"; VStr "t1"; VInt 7];
     [VInt 42; VStr "SA"; VStr "t2"; VInt 8]].

(** ** Directories

    [os.path.isdir] and [os.listdir] on the storage.  The entries of a
    directory [d] are the paths that [os.path.join(d, name)] gives for a
    name; [os.listdir] promises no order (here: the order of the keys of
    the map), and refuses the empty path and what is not a directory. *)

Definition isdir (fs : FileSystem) (p : string) : bool :=
  match fs !! p with Some Dir => true | _ => false end.

(** A string without a slash: the name of one entry of a directory, as
    [uuid.uuid4()] and [strftime("%Y%m%d%H%M%S")] produce them. *)
Definition slash_free (s : string) : bool :=
  match split_slash s with
  | [_] => true
  | _ => false
  end.

(** A name of an entry: not empty, no slash. *)
Definition is_name (s : string) : bool :=
  slash_free s && negb (String.eqb s "").

Fixpoint strip_prefix (pre s : string) : option string :=
  match pre with
  | EmptyString => Some s
  | String c pre' =>
      match s with
      | String c' s' => if Ascii.eqb c c' then strip_prefix pre' s' else None
      | EmptyString => None
      end
  end.

(** The name that the path [p] has in the directory [d], if it is one of
    its entries. *)
Definition child_name (d p : string) : option string :=
  match strip_prefix (if ends_with_slash d then d else (d ++ "/")%string) p with
  | Some name => if is_name name then Some name else None
  | None => None
  end.

Definition listdir (fs : FileSystem) (d : string) : Exc (list string) :=
  if String.eqb d "" then raise (OSError d)
  else
    match fs !! d with
    | Some Dir => ret (omap (child_name d) (map fst (map_to_list fs)))
    | _ => raise (OSError d)
    end.

(** ** [GTFSViewer.__init__] *)

Definition __init__ (base_dir : string) : IO unit := makedirs base_dir.

(** ** [GTFSViewer._get_agency_name] and [GTFSViewer.get_available_folders] *)

(** One dictionary of the list of folders: the keys ['path'], ['id'] and
    ['name'].  The name is a string, or the cell of [agency.txt]. *)
Record FolderEntry : Type := mk_entry {
  entry_path : string;
  entry_id : string;
  entry_name : Value
}.

(** [bool(v)] on a scalar: zero and the empty string are false, NaN is
    true. *)
Definition truthy (v : Value) : bool :=
  match v with
  | VInt z => negb (z =? 0)
  | VFloat q => negb (Qeq_bool q 0)
  | VStr s => negb (String.eqb s "")
  | VNaN => true
  end.

(** [agency_name or timestamp_dir] (line 54); [None] is Python's [None]. *)
Definition name_or (agency_name : option Value) (timestamp_dir : string)
  : Value :=
  match agency_name with
  | Some v => if truthy v then v else VStr timestamp_dir
  | None => VStr timestamp_dir
  end.

Section Folders.
Variable base_dir : string.
Variable fs : FileSystem.

(** The bare [except] swallows whatever the reading raises. *)
Definition _get_agency_name (folder_path : string) : option Value :=
  let agency_file := path_join folder_path "agency.txt" in
  if path_exists fs agency_file then
    match
      (agency_df <- read_csv fs agency_file ;;
       if has_column agency_df "agency_name" && negb (is_empty agency_df) then
         match rows agency_df with
         | first :: _ =>
             agency_name <- row_get agency_df first "agency_name" ;;
             ret (Some agency_name)
         | [] => ret None
         end
       else ret None)
    with
    | inr agency_name => agency_name
    | inl _ => None
    end
  else None.

(** Lines 42-57: the entries found under one directory of [base_dir]. *)
Definition timestamp_entries (uuid_dir : string) (timestamp_dirs : list string)
  : list FolderEntry :=
  let uuid_path := path_join base_dir uuid_dir in
  flat_map
    (fun timestamp_dir =>
       let timestamp_path := path_join uuid_path timestamp_dir in
       if isdir fs timestamp_path then
         if _is_valid_gtfs fs timestamp_path then
           let agency_name := _get_agency_name timestamp_path in
           [mk_entry timestamp_path (uuid_dir ++ "/" ++ timestamp_dir)%string
              (name_or agency_name timestamp_dir)]
         else []
       else [])
    timestamp_dirs.

(** The method has no handler of its own: what [os.listdir] raises
    leaves it. *)
Definition get_available_folders : Exc (list FolderEntry) :=
  if negb (path_exists fs base_dir) then ret []
  else
    uuid_dirs <- listdir fs base_dir ;;
    folders <-
      mapM (fun uuid_dir =>
              let uuid_path := path_join base_dir uuid_dir in
              if isdir fs uuid_path then
                timestamp_dirs <- listdir fs uuid_path ;;
                ret (timestamp_entries uuid_dir timestamp_dirs)
              else ret [])
        uuid_dirs ;;
    ret (concat folders).

(** What the loop adds for one entry of [base_dir] whose listing does not
    fail. *)
Definition uuid_entries (uuid_dir : string) : list FolderEntry :=
  if isdir fs (path_join base_dir uuid_dir) then
    match listdir fs (path_join base_dir uuid_dir) with
    | inr timestamp_dirs => timestamp_entries uuid_dir timestamp_dirs
    | inl _ => []
    end
  else [].

(** A folder of the storage that the list shows: a directory with the
    required files, in a directory of [base_dir]. *)
Definition is_listed (uuid_dir timestamp_dir : string) : Prop :=
  is_name uuid_dir = true
  /\ is_name timestamp_dir = true
  /\ isdir fs (path_join base_dir uuid_dir) = true
  /\ isdir fs (path_join (path_join base_dir uuid_dir) timestamp_dir) = true
  /\ _is_valid_gtfs fs (path_join (path_join base_dir uuid_dir) timestamp_dir)
     = true.

(** The dictionary that the list has for it (lines 51-55). *)
Definition entry_of (uuid_dir timestamp_dir : string) : FolderEntry :=
  mk_entry (path_join (path_join base_dir uuid_dir) timestamp_dir)
    (uuid_dir ++ "/" ++ timestamp_dir)%string
    (name_or
       (_get_agency_name (path_join (path_join base_dir uuid_dir) timestamp_dir))
       timestamp_dir).

End Folders.

(** ** [flaskapp.py]: the values that are sent as JSON

    A Python value as [_clean_value] tells them apart.  A numpy array and
    a data frame are what [tolist()] and [to_dict('records')] return for
    them, a series is the list of [tolist()]; floats are finite or NaN.
    Dictionaries have strings as keys; tuples, sets and other objects are
    left out. *)

#[local] Unset Elimination Schemes.

Inductive PyVal : Type :=
  | PNone
  | PBool (b : bool)
  | PInt (z : Z)
  | PFloat (q : Q)
  | PNaN
  | PStr (s : string)
  | PNpInteger (z : Z)
  | PNpFloating (q : Q)
  | PNpNaN
  | PNpBool (b : bool)
  | PDatetime (d : datetime)
  | PList (l : list PyVal)
  | PDict (items : list (string * PyVal))
  | PSeries (values : list PyVal)
  | PNdArray (tolist : PyVal)
  | PDataFrame (records : PyVal).

#[local] Set Elimination Schemes.

(** What [json] writes as JSON data: no numpy scalar, no date, no array,
    and no NaN (which it would write as the token [NaN]). *)
Fixpoint json_plain (value : PyVal) : bool :=
  match value with
  | PNone | PBool _ | PInt _ | PFloat _ | PStr _ => true
  | PList l => forallb json_plain l
  | PDict items => forallb (fun '(_, v) => json_plain v) items
  | _ => false
  end.

(** The arrays and frames inside a value hold JSON data. *)
Fixpoint arrays_plain (value : PyVal) : bool :=
  match value with
  | PNdArray tolist => json_plain tolist
  | PDataFrame records => json_plain records
  | PList l => forallb arrays_plain l
  | PSeries values => forallb arrays_plain values
  | PDict items => forallb (fun '(_, v) => arrays_plain v) items
  | _ => true
  end.

(** A cell of a table as a Python value: a numpy number, a string or
    NaN.  (A number taken from a row of mixed types is the Python number
    itself; [_clean_value] makes the same of both.) *)
Definition scalar_to_py (v : Value) : PyVal :=
  match v with
  | VInt z => PNpInteger z
  | VFloat q => PNpFloating q
  | VStr s => PStr s
  | VNaN => PNaN
  end.

(** The result of [float(x)], a Python float: finite or NaN (the other
    two cases do not arise). *)
Definition float_to_py (v : Value) : PyVal :=
  match v with
  | VFloat q => PFloat q
  | VNaN => PNaN
  | VInt z => PInt z
  | VStr s => PStr s
  end.

(** A dictionary of strings. *)
Definition texts_to_py (d : list (string * string)) : PyVal :=
  PDict (map (fun '(k, s) => (k, PStr s)) d).

(** Lines 51-55 of [gtfsviewer.py]. *)
Definition entry_to_py (e : FolderEntry) : PyVal :=
  PDict [("path", PStr (entry_path e)); ("id", PStr (entry_id e));
         ("name", scalar_to_py (entry_name e))].

(** Lines 347-350 and 367-372. *)
Definition point_to_py (p : Point) : PyVal :=
  PDict [("lat", float_to_py (lat p)); ("lng", float_to_py (lng p))].

Definition stop_to_py (s : Stop) : PyVal :=
  PDict [("id", PStr (stop_id s)); ("name", PStr (stop_name s));
         ("lat", float_to_py (stop_lat s)); ("lng", float_to_py (stop_lng s))].

Section Flask.
Context {rt : Runtime}.

(** Three more services taken as given: [flask.jsonify] (the text it
    writes, or what it raises), [str] on an exception and
    [datetime.isoformat]. *)
Variable jsonify : PyVal -> Exc string.
Variable exn_str : exn -> string.
Variable isoformat : datetime -> string.

(** The dictionaries that [get_route_details] returns (lines 188, 207,
    246, 319, 382-386 and 395). *)
Definition payload_to_py (p : Payload) : PyVal :=
  match p with
  | FolderNotFound => PDict [("error", PStr "Folder not found")]
  | RequiredFileMissing file =>
      PDict [("error", PStr ("Required GTFS file missing: " ++ file))]
  | NoTripsForRoute route_id =>
      PDict [("error",
              PStr ("No trips found for route ID: " ++ route_id
                    ++ ". This may be due to a data mismatch between routes.txt and trips.txt, or the route is not active on the selected date."))]
  | NoTripsForDate route_id date_time_str =>
      PDict [("error",
              PStr ("No trips scheduled for route ID " ++ route_id ++ " on "
                    ++ date_time_str))]
  | Failed e => PDict [("error", PStr (exn_str e))]
  | Details route shape stops =>
      PDict [("route", texts_to_py route);
             ("shape", PList (map point_to_py shape));
             ("stops", PList (map stop_to_py stops))]
  end.

(** [_clean_value] (lines 63-92). *)
Fixpoint _clean_value (value : PyVal) : PyVal :=
  match value with
  | PNdArray tolist => tolist
  | PDataFrame records => records
  | PSeries values => PList (map _clean_value values)
  | PList l => PList (map _clean_value l)
  | PNone | PNaN | PNpNaN => PNone
  | PNpInteger z => PInt z
  | PNpFloating q => PFloat q
  | PNpBool b => PBool b
  | PDatetime d => PStr (isoformat d)
  | PDict items => PDict (map (fun '(k, v) => (k, _clean_value v)) items)
  | PBool _ | PInt _ | PFloat _ | PStr _ => value
  end.

(** A response: the text of the body and the status. *)
Definition Response : Type := (string * Z)%type.

(** [safe_jsonify] (lines 50-61). *)
Definition safe_jsonify (data : PyVal) : Exc Response :=
  match jsonify (_clean_value data) with
  | inr body => ret (body, 200)
  | inl e =>
      body <- jsonify
                (PDict [("error",
                         PStr ("Data serialization error: " ++ exn_str e))]) ;;
      ret (body, 500)
  end.

(** What a handler returns from its [except Exception] clause. *)
Definition server_error (e : exn) : Exc Response :=
  body <- jsonify (PDict [("error", PStr (exn_str e))]) ;;
  ret (body, 500).

Definition bad_request (msg : string) : Exc Response :=
  body <- jsonify (PDict [("error", PStr msg)]) ;;
  ret (body, 400).

(** [not x] for a request parameter: absent, or empty. *)
Definition falsy (x : option string) : bool :=
  match x with
  | None => true
  | Some s => String.eqb s ""
  end.

(** [gtfs_viewer = GTFSViewer()]: the default [base_dir]. *)
Definition viewer_base_dir : string := "./data".

Definition arg (x : option string) : string :=
  match x with Some s => s | None => "" end.

(** [/api/gtfs-folders] (lines 94-104). *)
Definition get_gtfs_folders (fs : FileSystem) : Exc Response :=
  match
    (folders <- get_available_folders viewer_base_dir fs ;;
     safe_jsonify (PList (map entry_to_py folders)))
  with
  | inr response => ret response
  | inl e => server_error e
  end.

(** [/api/routes] (lines 106-125). *)
Definition api_get_routes (fs : FileSystem) (folder : option string)
  : Exc Response :=
  if falsy folder then bad_request "No folder specified"
  else
    match
      (routes <- get_routes viewer_base_dir fs (arg folder) ;;
       safe_jsonify (PList (map texts_to_py routes)))
    with
    | inr response => ret response
    | inl e => server_error e
    end.

(** [/api/route-details] (lines 127-144). *)
Definition api_get_route_details (fs : FileSystem)
  (folder route_id date_time : option string) : Exc Response :=
  if negb (forallb (fun x => negb (falsy x)) [folder; route_id; date_time])
  then bad_request "Missing required parameters"
  else
    match
      safe_jsonify
        (payload_to_py
           (get_route_details viewer_base_dir fs (arg folder) (arg route_id)
              (arg date_time)))
    with
    | inr response => ret response
    | inl e => server_error e
    end.

(** [s.endswith(suffix)]. *)
Definition endswith (s suffix : string) : bool :=
  let n := String.length s in
  let m := String.length suffix in
  Nat.leb m n && String.eqb (String.substring (n - m) m s) suffix.

(** [/api/upload] (lines 146-173): the file of the request, if any, is
    its name and its content; the handler works on the storage. *)
Definition api_upload_gtfs (folder_uuid timestamp : string)
  (file : option (string * Upload)) (fs : FileSystem)
  : FileSystem * Exc Response :=
  match file with
  | None => (fs, bad_request "No file provided")
  | Some (filename, file_obj) =>
      if String.eqb filename "" then (fs, bad_request "No file selected")
      else if negb (endswith filename ".zip")
      then (fs, bad_request "File must be a ZIP archive")
      else
        match upload_gtfs viewer_base_dir folder_uuid timestamp file_obj fs with
        | (fs', inr folder_id) =>
            (fs',
             match
               safe_jsonify
                 (PDict [("success", PBool true); ("folder_id", PStr folder_id)])
             with
             | inr response => ret response
             | inl e => server_error e
             end)
        | (fs', inl e) => (fs', server_error e)
        end
  end.

End Flask.

(** ** Notions used by the properties *)

(** The files that [get_route_details] looks for, in the order of the
    loop of line 204. *)
Definition details_files : list string :=
  ["routes.txt"; "trips.txt"; "stop_times.txt"; "stops.txt"].

Section Records.
Context {rt : Runtime}.

(** The text of a cell (line 156): [str(v) if not pd.isna(v) else ""]. *)
Definition render (v : Value) : string := if isna v then "" else py_str v.

End Records.

(** A dictionary agrees with a row of a table: its keys are the columns
    of the table, in order; under a column it has the empty string where
    the row has no value, and the text of the row where it has a text. *)
Definition agrees (cols : list string) (row : Row)
  (record : list (string * string)) : Prop :=
  map fst record = cols
  /\ forall c i,
       index_of c cols = Some i ->
       (isna (cell i row) = true -> In (c, "") record)
       /\ (forall s, cell i row = VStr s -> In (c, s) record).

(** The paths that [os.makedirs(p)] goes through: the directories above
    [p], and [p]. *)
Definition ancestors (p : string) : list string :=
  List.filter (fun q => negb (String.eqb q ""))
    (map join_slash (inits (split_slash p))).

(** [os.makedirs(p, exist_ok=True)] can make [p]: no file stands where a
    directory is needed. *)
Definition can_make (fs : FileSystem) (p : string) : Prop :=
  p <> "" /\ forall q, In q (ancestors p) -> forall c, fs !! q <> Some (File c).

Section UploadPlace.
Variable base_dir : string.
Variable folder_uuid : string.
Variable timestamp : string.

(** The storage accepts the upload: the two directories can be made, and
    the place of the saved file is free and is not one of them. *)
Definition accepts_upload (fs : FileSystem) : Prop :=
  can_make fs (uuid_dir base_dir folder_uuid)
  /\ can_make fs (extract_dir base_dir folder_uuid timestamp)
  /\ fs !! zip_path base_dir folder_uuid = None
  /\ ~ In (zip_path base_dir folder_uuid)
         (ancestors (uuid_dir base_dir folder_uuid)
          ++ ancestors (extract_dir base_dir folder_uuid timestamp)).

End UploadPlace.

(** What one state of the storage keeps of another, one path apart. *)
Definition keeps_except (q : string) (fs fs' : FileSystem) : Prop :=
  forall p, p <> q ->
    match fs !! p with
    | Some Dir => fs' !! p = Some Dir
    | Some (File _) => exists parsed, fs' !! p = Some (File parsed)
    | None => True
    end.

(** A member of an archive that is a file at the top of the archive:
    its name is a name, and it is neither [.] nor [..]. *)
Definition flat_member (member : string * option (Exc DataFrame)) : Prop :=
  is_name (fst member) = true
  /\ fst member <> "."
  /\ fst member <> ".."
  /\ snd member <> None.

(** The path where [extractall] puts a member, and the paths that
    extracting it can create or write: the directories above its place,
    and its place. *)
Definition member_target (extract_dir : string)
  (member : string * option (Exc DataFrame)) : string :=
  match arcname (fst member) with
  | EmptyString => extract_dir
  | a => path_join extract_dir a
  end.

Definition extraction_paths (extract_dir : string)
  (member : string * option (Exc DataFrame)) : list string :=
  member_target extract_dir member
  :: ancestors (dirname (member_target extract_dir member)).

(** A computation on the storage changes nothing outside some paths. *)
Definition io_touches {A} (m : IO A) (paths : string -> Prop) : Prop :=
  forall fs k, ~ paths k -> fst (m fs) !! k = fs !! k.


(** ** More example data *)

(** A [jsonify] for the examples: it writes JSON data (strings without escapes) and refuses the rest,
    as [json.dumps] refuses what it does not know. *)

Definition quoted (s : string) : string :=
  (String (ascii_of_nat 34) s ++ String (ascii_of_nat 34) "")%string.

Fixpoint dumps (value : PyVal) : string :=
  match value with
  | PNone => "null"
  | PBool b => if b then "true" else "false"
  | PInt z => str_of_Z z
  | PFloat q => float_repr (Runtime := example_runtime) q
  | PStr s => quoted s
  | PList l => ("[" ++ String.concat ", " (map dumps l) ++ "]")%string
  | PDict items =>
      ("{"
       ++ String.concat ", "
            (map (fun '(k, v) => (quoted k ++ ": " ++ dumps v)%string) items)
       ++ "}")%string
  | _ => ""
  end.

Definition example_jsonify (value : PyVal) : Exc string :=
  if json_plain value then ret (dumps value)
  else raise (TypeError "Object is not JSON serializable").

(** [str(e)] for the examples: the text that the exception carries. *)
Definition example_exn_str (e : exn) : string :=
  match e with
  | KeyError key => quoted key
  | ValueError msg => msg
  | TypeError msg => msg
  | OSError path => path
  | ParserError path => path
  | BadZipFile => "File is not a zip file"
  end.

(** [datetime.isoformat()] for the examples (years of four digits). *)
Definition zero_padded (z : Z) : string :=
  if z <? 10 then ("0" ++ str_of_Z z)%string else str_of_Z z.

Definition example_isoformat (d : datetime) : string :=
  (str_of_Z (year d) ++ "-" ++ zero_padded (month d) ++ "-"
   ++ zero_padded (day d) ++ "T" ++ zero_padded (hour d) ++ ":"
   ++ zero_padded (minute d) ++ ":00")%string.

(** A snapshot with agencies. *)
Module ExAgency.

Definition routes : DataFrame :=
  mk_df [("route_id", Int64); ("agency_id", Object); ("route_long_name", Object)]
    [[VInt 42; VStr "A1"; VStr "Main"]; [VInt 5; VStr "ZZ"; VNaN]].

Definition agency : DataFrame :=
  mk_df [("agency_id", Object); ("agency_name", Object)]
    [[VStr "A1"; VStr "Metro"]].

(** The snapshot of [Ex.fs_required] with these routes and agencies. *)
Definition fs_agency : FileSystem :=
  <["./data/u/20240101120000/agency.txt" := File (inr agency)]>
    (<["./data/u/20240101120000/routes.txt" := File (inr routes)]>
       Ex.fs_required).

(** The same with an [agency.txt] that cannot be parsed. *)
Definition fs_broken_agency : FileSystem :=
  <["./data/u/20240101120000/agency.txt" := File (inl (ParserError "agency.txt"))]>
    fs_agency.

(** The same with an agency that has no name. *)
Definition agency_unnamed : DataFrame :=
  mk_df [("agency_id", Object); ("agency_name", Float64)] [[VStr "A1"; VNaN]].

Definition fs_unnamed_agency : FileSystem :=
  <["./data/u/20240101120000/agency.txt" := File (inr agency_unnamed)]> fs_agency.

End ExAgency.

(** Archives, and the storage that a new viewer finds. *)
Module ExUpload.

(** An archive with the four required tables. *)
Definition complete_zip : Upload :=
  mk_upload
    (inr [("routes.txt", Some (inr Ex.routes));
          ("trips.txt", Some (inr Ex.trips));
          ("stop_times.txt", Some (inr Ex.stop_times));
          ("stops.txt", Some (inr Ex.stops))])
    (inl (ParserError "gtfs.zip")).

(** An archive that holds the four tables in a directory of its own. *)
Definition nested_zip : Upload :=
  mk_upload
    (inr [("feed/routes.txt", Some (inr Ex.routes));
          ("feed/trips.txt", Some (inr Ex.trips));
          ("feed/stop_times.txt", Some (inr Ex.stop_times));
          ("feed/stops.txt", Some (inr Ex.stops))])
    (inl (ParserError "gtfs.zip")).

(** A table sent under a name that ends in [.zip]. *)
Definition not_a_zip : Upload := mk_upload (inl BadZipFile) (inr Ex.routes).

(** The storage after [GTFSViewer()]. *)
Definition fs_new : FileSystem := list_to_map [(".", Dir); ("./data", Dir)].

End ExUpload.

(** Calendars that are not complete. *)
Module ExCalendar.

(** A calendar without the columns of the weekdays. *)
Definition windows_only : DataFrame :=
  mk_df [("service_id", Object); ("start_date", Int64); ("end_date", Int64)]
    [[VStr "WK"; VInt 20240101; VInt 20241231];
     [VStr "OLD"; VInt 20230101; VInt 20231231]].

Definition fs_windows_only : FileSystem :=
  <["./data/u/20240101120000/calendar.txt" := File (inr windows_only)]>
    Ex.fs_required.

(** A calendar whose second entry has no start date. *)
Definition missing_start : DataFrame :=
  mk_df [("service_id", Object); ("saturday", Int64); ("start_date", Float64);
         ("end_date", Int64)]
    [[VStr "WK"; VInt 1; VFloat 20240101; VInt 20241231];
     [VStr "SA"; VInt 1; VNaN; VInt 20241231]].

Definition fs_missing_start : FileSystem :=
  <["./data/u/20240101120000/calendar.txt" := File (inr missing_start)]>
    Ex.fs_required.

End ExCalendar.

(** An exceptions table without its columns. *)
Module ExExceptions.

(** An exceptions table whose date column has another name. *)
Definition misnamed : DataFrame :=
  mk_df [("service_id", Object); ("day", Int64); ("exception_type", Int64)]
    [[VStr "WK"; VInt 20240615; VInt 2]].

Definition fs_misnamed : FileSystem :=
  <["./data/u/20240101120000/calendar_dates.txt" := File (inr misnamed)]>
    Ex.fs_calendar_both.

End ExExceptions.

(** * Properties *)

(** ** The model at work *)

(** The example tables are frames that [read_csv] can return. *)
Example example_tables_well_typed :
  forallb well_typed
    [Ex.trips; Ex.trips_str; Ex.routes; Ex.stop_times; Ex.stops; Ex.shapes;
     Ex.calendar_monday; Ex.calendar_both; Ex.dates_removed; Ex.dates_mixed]
  = true.
Proof. reflexivity. Qed.

(** 15 June 2024 is a Saturday, and 1 January of year 1 a Monday. *)
Example weekday_examples :
  weekday saturday_15_june = 5
  /\ weekday_mapping (weekday saturday_15_june) = "saturday"
  /\ weekday (mk_datetime 1 1 1 0 0) = 0
  /\ service_date_int saturday_15_june = 20240615.
Proof. repeat split; reflexivity. Qed.

Example py_int_examples :
  py_int "42" = Some 42 /\ py_int " -4_2 " = Some (-42) /\ py_int "007" = Some 7
  /\ py_int "4__2" = None /\ py_int "42a" = None /\ py_int "" = None.
Proof. repeat split; reflexivity. Qed.

(** With both services in the calendar, a Saturday has the Saturday
    service; the exceptions of that day then remove it, add it again and
    add the weekday service. *)
Example resolver_examples :
  calendar_service_ids Ex.fs_calendar_both Ex.folder saturday_15_june
  = inr (Some [VStr "SA"])
  /\ calendar_dates_service_ids Ex.fs_both_mixed Ex.folder saturday_15_june
       (Some [VStr "SA"])
     = inr (Some [VStr "SA"; VStr "WK"])
  /\ calendar_dates_service_ids Ex.fs_dates_removed Ex.folder saturday_15_june
       (Some [VStr "WK"; VStr "SA"])
     = inr (Some [VStr "SA"]).
Proof. repeat split; reflexivity. Qed.

(** A Saturday request keeps the Saturday trip only. *)
Example saturday_trip_only :
  get_route_details (rt := example_runtime) "./data" Ex.fs_calendar_both Ex.id
    "42" Ex.saturday
  = Details [] [] [mk_stop "2" "" (VFloat 11) (VFloat 21)]
  /\ get_route_details (rt := example_runtime) "./data" Ex.fs_calendar_both
       Ex.id "5" Ex.saturday
     = NoTripsForDate "5" Ex.saturday
  /\ get_route_details (rt := example_runtime) "./data" Ex.fs_calendar_both
       Ex.id "43" Ex.saturday
     = NoTripsForRoute "43".
Proof. repeat split; vm_compute; reflexivity. Qed.

(** ** Masks and selections *)

Lemma select_rows_map (f : Row -> bool) (rs : list Row) :
  select_rows rs (map f rs) = List.filter f rs.
Proof.
  induction rs as [|r rs IH]; simpl; [reflexivity|].
  destruct (f r); rewrite IH; reflexivity.
Qed.

Lemma mask_or_map {A} (f g : A -> bool) (l : list A) :
  mask_or (map f l) (map g l) = map (fun a => f a || g a) l.
Proof. induction l; simpl; congruence. Qed.

Lemma mask_and_map {A} (f g : A -> bool) (l : list A) :
  mask_and (map f l) (map g l) = map (fun a => f a && g a) l.
Proof. induction l; simpl; congruence. Qed.

Lemma column_at (df : DataFrame) (c : string) (i : nat) :
  index_of c (columns df) = Some i ->
  column df c = inr (map (cell i) (rows df)).
Proof. unfold column. intros ->. reflexivity. Qed.

Lemma column_missing (df : DataFrame) (c : string) :
  index_of c (columns df) = None -> column df c = inl (KeyError c).
Proof. unfold column. intros ->. reflexivity. Qed.

Lemma select_by_cell (df : DataFrame) (i : nat) (f : Value -> bool) :
  select df (map f (map (cell i) (rows df)))
  = mk_df (schema df) (List.filter (fun r => f (cell i r)) (rows df)).
Proof. unfold select. rewrite map_map, select_rows_map. reflexivity. Qed.

Lemma select_mask (df : DataFrame) (f : Row -> bool) :
  select df (map f (rows df)) = mk_df (schema df) (List.filter f (rows df)).
Proof. unfold select. now rewrite select_rows_map. Qed.

Lemma has_column_index (df : DataFrame) (c : string) :
  has_column df c = true <-> exists i, index_of c (columns df) = Some i.
Proof.
  unfold has_column. destruct (index_of c (columns df)); split; eauto.
  - discriminate.
  - intros [i H]; discriminate.
Qed.

(** ** Route matching *)

Section RouteMatching.
Context {rt : Runtime}.

(** C6. A trip is kept by the route filter exactly when its route id
    equals the target as a raw value, or equals the integer the target
    parses to, or equals the target after coercion to a string; so the
    string ["42"] and the integer [42] both match the query ["42"]. *)
Theorem filter_route_tri_comparison (trips_df : DataFrame) (route_id : string)
  (i : nat) :
  index_of "route_id" (columns trips_df) = Some i ->
  filter_route trips_df route_id
  = inr (mk_df (schema trips_df)
           (List.filter (fun trip => route_matches route_id (cell i trip))
              (rows trips_df)))
  /\ (forall n, py_int route_id = Some n ->
        route_matches route_id (VStr route_id) = true
        /\ route_matches route_id (VInt n) = true)
  /\ route_matches "42" (VStr "42") = true
  /\ route_matches "42" (VInt 42) = true.
Proof.
  intros Hi. split; [|split; [|split]].
  - unfold filter_route, route_matches.
    destruct (py_int route_id) as [n|];
      rewrite (column_at _ _ _ Hi); unfold bind, ret;
      rewrite ?mask_or_map, select_by_cell; do 2 f_equal.
    apply filter_ext. intros r. now rewrite orb_false_r.
  - intros n Hn. unfold route_matches. rewrite Hn. simpl. split.
    + now rewrite String.eqb_refl.
    + now rewrite Z.eqb_refl.
  - reflexivity.
  - reflexivity.
Qed.

End RouteMatching.

Lemma filter_route_tri_comparison_witness :
  index_of "route_id" (columns Ex.trips) = Some 0%nat
  /\ filter_route (rt := example_runtime) Ex.trips "42"
     = inr (mk_df (schema Ex.trips)
              [[VInt 42; VStr "WK"; VStr "t1"; VInt 7];
               [VInt 42; VStr "SA"; VStr "t2"; VInt 8]])
  /\ filter_route (rt := example_runtime) Ex.trips_str "42"
     = inr (mk_df (schema Ex.trips_str)
              [[VStr "42"; VStr "WK"; VStr "t1"; VInt 7];
               [VStr "42"; VStr "SA"; VStr "t2"; VInt 8]]).
Proof.
  split; [reflexivity|]. split.
  - destruct (filter_route_tri_comparison (rt := example_runtime) Ex.trips "42"
                0 eq_refl) as [H _].
    rewrite H. reflexivity.
  - destruct (filter_route_tri_comparison (rt := example_runtime) Ex.trips_str
                "42" 0 eq_refl) as [H _].
    rewrite H. reflexivity.
Defined.

(** ** The stages of [get_route_details] *)

Section Stages.
Context {rt : Runtime}.
Variable base_dir : string.
Variable fs : FileSystem.

Lemma is_empty_rows (df : DataFrame) : is_empty df = true <-> rows df = [].
Proof. unfold is_empty. destruct (rows df); split; congruence. Qed.

Lemma is_empty_false (df : DataFrame) : is_empty df = false <-> rows df <> [].
Proof. unfold is_empty. destruct (rows df); split; congruence. Qed.

Lemma assemble_inv fp R ST S r trips p :
  assemble fs fp R ST S r trips = inr p ->
  exists route shape stops, p = Details route shape stops.
Proof.
  unfold assemble. exc_cases; try discriminate.
  intros [= <-]. eauto.
Qed.

(** The method filters, then tests for emptiness, then assembles. *)
Lemma details_of_tables_stages fp dt R T ST S r d :
  details_of_tables fs fp dt R T ST S r d
  = (route_trips <- filter_route T r ;;
     if is_empty route_trips then ret (NoTripsForRoute r) else
     s0 <- calendar_service_ids fs fp dt ;;
     s <- calendar_dates_service_ids fs fp dt s0 ;;
     remaining <- service_filter s route_trips ;;
     if is_empty remaining then ret (NoTripsForDate r d)
     else assemble fs fp R ST S r remaining).
Proof.
  unfold details_of_tables, service_filter.
  destruct (filter_route T r) as [e|trips]; [reflexivity|]. unfold bind at 1 5.
  destruct (is_empty trips) eqn:Hempty; [reflexivity|].
  destruct (calendar_service_ids fs fp dt) as [e|s0]; [reflexivity|].
  unfold bind at 1 4.
  destruct (calendar_dates_service_ids fs fp dt s0) as [e|[ids|]];
    [reflexivity| |]; unfold bind at 1 3.
  - destruct (0 <? Z.of_nat (length ids)).
    + destruct (column trips "service_id"); reflexivity.
    + unfold bind, ret. now rewrite Hempty.
  - unfold bind, ret. now rewrite Hempty.
Qed.

Lemma body_of_loaded f r d fp dt R T ST S :
  loaded base_dir fs f d fp dt R T ST S ->
  route_details_body base_dir fs f r d = details_of_tables fs fp dt R T ST S r d.
Proof.
  intros (u & t & Hsplit & -> & Hdir & Hdate & H1 & H2 & H3 & H4
          & HR & HT & HST & HS).
  unfold route_details_body. rewrite Hsplit, Hdir. cbn [negb].
  rewrite Hdate. unfold bind at 1. cbn [List.find].
  rewrite H1, H2, H3, H4. cbn [negb].
  rewrite HR, HT, HST, HS. reflexivity.
Qed.

Lemma body_inv f r d p :
  route_details_body base_dir fs f r d = inr p ->
  p = FolderNotFound
  \/ (exists file, p = RequiredFileMissing file)
  \/ exists fp dt R T ST S,
       loaded base_dir fs f d fp dt R T ST S
       /\ details_of_tables fs fp dt R T ST S r d = inr p.
Proof.
  unfold route_details_body.
  destruct (split_slash f) as [|u [|t [|x l]]] eqn:Hsplit; try discriminate.
  set (fp := path_join (path_join base_dir u) t).
  destruct (path_exists fs fp) eqn:Hdir; cbn [negb].
  2:{ intros [= <-]. now left. }
  destruct (strptime d) as [e|dt] eqn:Hdate; [discriminate|]. unfold bind at 1.
  cbn [List.find].
  destruct (path_exists fs (path_join fp "routes.txt")) eqn:H1; cbn [negb].
  2:{ intros [= <-]. right; left; eauto. }
  destruct (path_exists fs (path_join fp "trips.txt")) eqn:H2; cbn [negb].
  2:{ intros [= <-]. right; left; eauto. }
  destruct (path_exists fs (path_join fp "stop_times.txt")) eqn:H3; cbn [negb].
  2:{ intros [= <-]. right; left; eauto. }
  destruct (path_exists fs (path_join fp "stops.txt")) eqn:H4; cbn [negb].
  2:{ intros [= <-]. right; left; eauto. }
  destruct (read_csv fs (path_join fp "routes.txt")) as [e|R] eqn:HR;
    [discriminate|]. unfold bind at 1.
  destruct (read_csv fs (path_join fp "trips.txt")) as [e|T] eqn:HT;
    [discriminate|]. unfold bind at 1.
  destruct (read_csv fs (path_join fp "stop_times.txt")) as [e|ST] eqn:HST;
    [discriminate|]. unfold bind at 1.
  destruct (read_csv fs (path_join fp "stops.txt")) as [e|S] eqn:HS;
    [discriminate|]. unfold bind at 1.
  intros H. right; right. exists fp, dt, R, T, ST, S. split; [|exact H].
  exists u, t. repeat split; assumption.
Qed.

Lemma get_route_details_inv f r d p :
  get_route_details base_dir fs f r d = p ->
  (exists e, p = Failed e)
  \/ p = FolderNotFound
  \/ (exists file, p = RequiredFileMissing file)
  \/ exists fp dt R T ST S,
       loaded base_dir fs f d fp dt R T ST S
       /\ details_of_tables fs fp dt R T ST S r d = inr p.
Proof.
  unfold get_route_details, payload_of.
  destruct (route_details_body base_dir fs f r d) as [e|q] eqn:H.
  - intros <-. left; eauto.
  - intros <-. right. now apply body_inv.
Qed.


(** What is loaded is determined by the request. *)
Lemma loaded_unique f d fp dt R T ST S fp' dt' R' T' ST' S' :
  loaded base_dir fs f d fp dt R T ST S ->
  loaded base_dir fs f d fp' dt' R' T' ST' S' ->
  fp = fp' /\ dt = dt' /\ R = R' /\ T = T' /\ ST = ST' /\ S = S'.
Proof.
  intros (u & t & Hs & -> & _ & Hd & _ & _ & _ & _ & HR & HT & HST & HS)
         (u' & t' & Hs' & -> & _ & Hd' & _ & _ & _ & _ & HR' & HT' & HST' & HS').
  rewrite Hs in Hs'. injection Hs' as <- <-.
  rewrite Hd in Hd'. rewrite HR in HR'. rewrite HT in HT'.
  rewrite HST in HST'. rewrite HS in HS'.
  repeat split; congruence.
Qed.

End Stages.

(** ** The two empty-result errors *)

Section EmptyResults.
Context {rt : Runtime}.
Variable base_dir : string.
Variable fs : FileSystem.

Lemma details_of_tables_inv fp dt R T ST S r d p :
  details_of_tables fs fp dt R T ST S r d = inr p ->
  exists trips,
    filter_route T r = inr trips
    /\ ((rows trips = [] /\ p = NoTripsForRoute r)
        \/ (rows trips <> []
            /\ exists s0 s remaining,
                 calendar_service_ids fs fp dt = inr s0
                 /\ calendar_dates_service_ids fs fp dt s0 = inr s
                 /\ service_filter s trips = inr remaining
                 /\ ((rows remaining = [] /\ p = NoTripsForDate r d)
                     \/ (rows remaining <> []
                         /\ assemble fs fp R ST S r remaining = inr p)))).
Proof.
  rewrite details_of_tables_stages.
  destruct (filter_route T r) as [e|trips]; [discriminate|]. unfold bind at 1.
  intros H. exists trips. split; [reflexivity|].
  destruct (is_empty trips) eqn:Ht.
  - injection H as <-. left. split; [now apply is_empty_rows|reflexivity].
  - right. split; [now apply is_empty_false|].
    destruct (calendar_service_ids fs fp dt) as [e|s0] eqn:H0; [discriminate|].
    unfold bind at 1 in H.
    destruct (calendar_dates_service_ids fs fp dt s0) as [e|s] eqn:H1;
      [discriminate|].
    unfold bind at 1 in H.
    destruct (service_filter s trips) as [e|remaining] eqn:H2; [discriminate|].
    unfold bind at 1 in H.
    exists s0, s, remaining. do 3 (split; [assumption || reflexivity|]).
    destruct (is_empty remaining) eqn:Hr.
    + injection H as <-. left. split; [now apply is_empty_rows|reflexivity].
    + right. split; [now apply is_empty_false|exact H].
Qed.


End EmptyResults.

(** ** The route record *)

Section RouteRecord.
Context {rt : Runtime}.

(** The route record is looked up with the raw comparison alone. *)
Lemma route_info_of_raw (routes_df : DataFrame) (route_id : string) (i : nat) :
  index_of "route_id" (columns routes_df) = Some i ->
  route_info_of routes_df route_id
  = match List.filter (fun row => py_eq (cell i row) (VStr route_id))
            (rows routes_df) with
    | [] => inr []
    | first :: rest =>
        row_dict (mk_df (schema routes_df) (first :: rest)) first
    end.
Proof.
  intros Hi. unfold route_info_of. rewrite (column_at _ _ _ Hi).
  unfold bind at 1. rewrite select_by_cell. cbn [rows].
  destruct (List.filter _ _); reflexivity.
Qed.

End RouteRecord.

(** C2. In a routes file whose ids are numbers, the row of route 42
    matches the target ["42"] under the three-way rule, and the trips of
    route 42 are found by it; the route record is looked up by raw equality
    only and comes back empty. *)
Theorem route_record_of_numeric_id_is_empty :
  get_route_details (rt := example_runtime) "./data" Ex.fs_required Ex.id "42"
    Ex.saturday
  = Details []
      []
      [mk_stop "1" "A" (VFloat 10) (VFloat 20);
       mk_stop "2" "" (VFloat 11) (VFloat 21)]
  /\ List.filter (fun row => route_matches (rt := example_runtime) "42" (cell 0 row))
       (rows Ex.routes)
     = [[VInt 42; VStr "Main"]]
  /\ route_info_of (rt := example_runtime) Ex.routes "42" = inr []
  /\ filter_route (rt := example_runtime) Ex.trips "42"
     = inr (mk_df (schema Ex.trips)
              [[VInt 42; VStr "WK"; VStr "t1"; VInt 7];
               [VInt 42; VStr "SA"; VStr "t2"; VInt 8]]).
Proof. repeat split; vm_compute; reflexivity. Qed.

(** ** The service calendar *)

Lemma mapM_inr {A B} (f : A -> Exc B) (l : list A) (l' : list B) :
  mapM f l = inr l' -> Forall2 (fun a b => f a = inr b) l l'.
Proof.
  revert l'. induction l as [|a l IH]; simpl; intros l'.
  - intros [= <-]. constructor.
  - destruct (f a) as [e|b] eqn:Hb; [discriminate|]. unfold bind at 1.
    destruct (mapM f l) as [e|bs]; [discriminate|]. unfold bind, ret.
    intros [= <-]. constructor; auto.
Qed.

Lemma mapM_all_inr {A B} (f : A -> Exc B) (g : A -> B) (l : list A) :
  (forall a, In a l -> f a = inr (g a)) -> mapM f l = inr (map g l).
Proof.
  induction l as [|a l IH]; simpl; intros H; [reflexivity|].
  rewrite (H a (or_introl eq_refl)). unfold bind at 1.
  rewrite IH by auto. reflexivity.
Qed.

Lemma mapM_ext_in {A B} (f g : A -> Exc B) (l : list A) :
  (forall a, In a l -> f a = g a) -> mapM f l = mapM g l.
Proof.
  induction l as [|a l IH]; intros H; simpl; [reflexivity|].
  rewrite (H a (or_introl eq_refl)), IH; [reflexivity|].
  intros x Hx. apply H. now right.
Qed.

Lemma filter_filter_and {A} (f g : A -> bool) (l : list A) :
  List.filter g (List.filter f l) = List.filter (fun a => f a && g a) l.
Proof.
  induction l as [|a l IH]; simpl; [reflexivity|].
  destruct (f a); simpl; [destruct (g a)|]; now rewrite IH.
Qed.

Section Calendar.
Context {rt : Runtime}.
Variable fs : FileSystem.

Lemma window_mask (i j : nat) (sdi : Z) (rs : list Row) (starts ends : list Z) :
  mapM astype_int (map (cell i) rs) = inr starts ->
  mapM astype_int (map (cell j) rs) = inr ends ->
  mask_and (map (fun z => z <=? sdi) starts) (map (fun z => z >=? sdi) ends)
  = map (in_window i j sdi) rs.
Proof.
  revert starts ends. induction rs as [|r rs IH]; simpl; intros starts ends.
  - intros [= <-] [= <-]. reflexivity.
  - unfold in_window at 1.
    destruct (astype_int (cell i r)) as [e|s]; [discriminate|]. unfold bind at 1.
    destruct (mapM astype_int (map (cell i) rs)) as [e|ss]; [discriminate|].
    unfold bind at 1, ret. intros [= <-].
    destruct (astype_int (cell j r)) as [e|en]; [discriminate|]. unfold bind at 1.
    destruct (mapM astype_int (map (cell j) rs)) as [e|es]; [discriminate|].
    unfold bind at 1, ret. intros [= <-].
    simpl. rewrite (IH ss es eq_refl eq_refl). now rewrite Z.geb_leb.
Qed.

(** With a usable calendar table, the first step keeps the active
    entries; their service ids, if there is any, become [service_ids]. *)
Lemma calendar_service_ids_active fp dt cal :
  path_exists fs (path_join fp "calendar.txt") = true ->
  read_csv fs (path_join fp "calendar.txt") = inr cal ->
  calendar_usable cal dt ->
  calendar_service_ids fs fp dt
  = match List.filter (entry_active cal dt) (rows cal) with
    | [] => inr None
    | valid =>
        ids <- column (mk_df (schema cal) valid) "service_id" ;;
        ret (Some (unique ids))
    end.
Proof.
  intros He Hr ((i & starts & Hi & Hs) & (j & ends & Hj & Hen) & Hw).
  apply has_column_index in Hw as Hk. destruct Hk as [k Hk].
  unfold calendar_service_ids. rewrite He, Hr. unfold bind at 1.
  rewrite (column_at _ _ _ Hi). unfold bind at 1. rewrite Hs. unfold bind at 1.
  rewrite (column_at _ _ _ Hj). unfold bind at 1. rewrite Hen. unfold bind at 1.
  rewrite Hw.
  rewrite (window_mask i j _ _ _ _ Hs Hen).
  rewrite !select_mask.
  rewrite (column_at (mk_df (schema cal) _) _ k) by exact Hk.
  unfold bind at 2, ret at 1. rewrite select_by_cell. cbn [rows schema].
  unfold bind at 1. rewrite filter_filter_and.
  assert (Heq : forall r,
             in_window i j (service_date_int dt) r && py_eq (cell k r) (VInt 1)
             = entry_active cal dt r).
  { intros r. unfold entry_active, in_window. rewrite Hi, Hj, Hk.
    destruct (astype_int (cell i r)); [reflexivity|].
    destruct (astype_int (cell j r)); reflexivity. }
  rewrite (filter_ext _ _ Heq).
  unfold is_empty. cbn [rows].
  destruct (List.filter (entry_active cal dt) (rows cal)); reflexivity.
Qed.

End Calendar.

(** ** A calendar without an active entry *)

Section NoActiveEntry.
Context {rt : Runtime}.
Variable base_dir : string.
Variable fs : FileSystem.

Lemma service_filter_skipped (s : option (list Value)) (trips : DataFrame) :
  s = None \/ s = Some [] -> service_filter s trips = inr trips.
Proof. intros [-> | ->]; reflexivity. Qed.

(** When [service_ids] ends up unset or empty, every trip of the route
    goes on to the assembly. *)
Lemma details_without_filter f r d fp dt R T ST S trips s0 s :
  loaded base_dir fs f d fp dt R T ST S ->
  filter_route T r = inr trips ->
  rows trips <> [] ->
  calendar_service_ids fs fp dt = inr s0 ->
  calendar_dates_service_ids fs fp dt s0 = inr s ->
  s = None \/ s = Some [] ->
  get_route_details base_dir fs f r d
  = payload_of (assemble fs fp R ST S r trips).
Proof.
  intros Hl Hf Hn H0 H1 Hs. unfold get_route_details.
  rewrite (body_of_loaded _ _ _ r _ _ _ _ _ _ _ Hl), details_of_tables_stages.
  rewrite Hf. unfold bind at 1. apply is_empty_false in Hn. rewrite Hn.
  rewrite H0. unfold bind at 1. rewrite H1. unfold bind at 1.
  rewrite (service_filter_skipped _ _ Hs). unfold bind at 1. now rewrite Hn.
Qed.

(** C1, as the code has it.  When the calendar table is present and
    usable but has no active entry for the date, the calendar step leaves
    [service_ids] unset ([None], not an empty set); and unless the
    calendar-exceptions table then supplies a non-empty set, the method
    does not filter by service: all the trips of the route are kept. *)
Theorem calendar_without_active_entry f r d fp dt R T ST S trips cal :
  loaded base_dir fs f d fp dt R T ST S ->
  filter_route T r = inr trips ->
  rows trips <> [] ->
  path_exists fs (path_join fp "calendar.txt") = true ->
  read_csv fs (path_join fp "calendar.txt") = inr cal ->
  calendar_usable cal dt ->
  (forall entry, In entry (rows cal) -> entry_active cal dt entry = false) ->
  calendar_service_ids fs fp dt = inr None
  /\ (forall s,
        calendar_dates_service_ids fs fp dt None = inr s ->
        s = None \/ s = Some [] ->
        get_route_details base_dir fs f r d
        = payload_of (assemble fs fp R ST S r trips))
  /\ (path_exists fs (path_join fp "calendar_dates.txt") = false ->
      get_route_details base_dir fs f r d
      = payload_of (assemble fs fp R ST S r trips)).
Proof.
  intros Hl Hf Hn He Hr Hu Hnone.
  assert (H0 : calendar_service_ids fs fp dt = inr None).
  { rewrite (calendar_service_ids_active fs fp dt cal He Hr Hu).
    destruct (List.filter (entry_active cal dt) (rows cal)) as [|x l] eqn:Hfil;
      [reflexivity|].
    assert (Hx : In x (List.filter (entry_active cal dt) (rows cal)))
      by (rewrite Hfil; now left).
    apply filter_In in Hx as [Hin Hact].
    rewrite (Hnone x Hin) in Hact. discriminate. }
  split; [exact H0|split].
  - intros s H1 Hs. now apply (details_without_filter f r d fp dt R T ST S trips None s).
  - intros Hno.
    apply (details_without_filter f r d fp dt R T ST S trips None None); auto.
    unfold calendar_dates_service_ids. now rewrite Hno.
Qed.

End NoActiveEntry.

Lemma loaded_example (fs : FileSystem) :
  fs !! Ex.folder = Some Dir ->
  fs !! "./data/u/20240101120000/routes.txt" = Some (File (inr Ex.routes)) ->
  fs !! "./data/u/20240101120000/trips.txt" = Some (File (inr Ex.trips)) ->
  fs !! "./data/u/20240101120000/stop_times.txt"
  = Some (File (inr Ex.stop_times)) ->
  fs !! "./data/u/20240101120000/stops.txt" = Some (File (inr Ex.stops)) ->
  loaded (rt := example_runtime) "./data" fs Ex.id Ex.saturday Ex.folder
    saturday_15_june Ex.routes Ex.trips Ex.stop_times Ex.stops.
Proof.
  intros H0 H1 H2 H3 H4. exists "u", "20240101120000".
  unfold path_exists, read_csv. change (path_join Ex.folder "routes.txt")
    with "./data/u/20240101120000/routes.txt".
  change (path_join Ex.folder "trips.txt")
    with "./data/u/20240101120000/trips.txt".
  change (path_join Ex.folder "stop_times.txt")
    with "./data/u/20240101120000/stop_times.txt".
  change (path_join Ex.folder "stops.txt")
    with "./data/u/20240101120000/stops.txt".
  rewrite H0, H1, H2, H3, H4. repeat split; reflexivity.
Defined.

Lemma calendar_without_active_entry_witness :
  calendar_service_ids Ex.fs_calendar_monday Ex.folder saturday_15_june
  = inr None
  /\ get_route_details (rt := example_runtime) "./data" Ex.fs_calendar_monday
       Ex.id "42" Ex.saturday
     = payload_of
         (assemble (rt := example_runtime) Ex.fs_calendar_monday Ex.folder
            Ex.routes Ex.stop_times Ex.stops "42" trips_of_42).
Proof.
  destruct (calendar_without_active_entry (rt := example_runtime) "./data"
              Ex.fs_calendar_monday Ex.id "42" Ex.saturday Ex.folder
              saturday_15_june Ex.routes Ex.trips Ex.stop_times Ex.stops
              trips_of_42 Ex.calendar_monday) as (H0 & _ & H2).
  - apply loaded_example; reflexivity.
  - reflexivity.
  - discriminate.
  - reflexivity.
  - reflexivity.
  - split; [|split].
    + exists 3%nat, [20240101]. split; reflexivity.
    + exists 4%nat, [20241231]. split; reflexivity.
    + reflexivity.
  - intros entry [<- | []]. reflexivity.
  - split; [exact H0|]. apply H2. reflexivity.
Defined.

(** C1, as the specification states it, fails.  The calendar table is
    present, its only entry does not have the Saturday flag, and yet the
    active-service set is not a concrete empty set and the method does not
    answer that no trip runs on that date: it keeps both trips of the
    route. *)
Lemma calendar_without_active_entry_counterexample :
  read_csv Ex.fs_calendar_monday (path_join Ex.folder "calendar.txt")
  = inr Ex.calendar_monday
  /\ List.filter (entry_active Ex.calendar_monday saturday_15_june)
       (rows Ex.calendar_monday) = []
  /\ calendar_service_ids Ex.fs_calendar_monday Ex.folder saturday_15_june
     <> inr (Some [])
  /\ get_route_details (rt := example_runtime) "./data" Ex.fs_calendar_monday
       Ex.id "42" Ex.saturday
     <> NoTripsForDate "42" Ex.saturday
  /\ get_route_details (rt := example_runtime) "./data" Ex.fs_calendar_monday
       Ex.id "42" Ex.saturday
     = Details []
         []
         [mk_stop "1" "A" (VFloat 10) (VFloat 20);
          mk_stop "2" "" (VFloat 11) (VFloat 21)].
Proof.
  split; [reflexivity|]. split; [reflexivity|].
  split; [vm_compute; discriminate|].
  split; [vm_compute; discriminate|].
  vm_compute. reflexivity.
Qed.

(** ** Equality of scalars and membership *)

Lemma py_eq_same (v w : Value) : py_eq v w = true <-> same_value v w.
Proof.
  destruct v, w; unfold same_value; simpl;
    rewrite ?Qeq_bool_iff, ?String.eqb_eq, ?Z.eqb_eq;
    try tauto; try (split; [discriminate|tauto]).
  split.
  - intros ->. reflexivity.
  - apply inject_Z_injective.
Qed.

Lemma py_eq_sym (v w : Value) : py_eq v w = true -> py_eq w v = true.
Proof.
  rewrite !py_eq_same. unfold same_value.
  destruct (key_of v) as [[p|s]|], (key_of w) as [[q|t]|]; auto.
  intros H. now symmetry.
Qed.

Lemma py_eq_trans (u v w : Value) :
  py_eq u v = true -> py_eq v w = true -> py_eq u w = true.
Proof.
  rewrite !py_eq_same. unfold same_value.
  destruct (key_of u) as [[p|s]|], (key_of v) as [[q|t]|],
    (key_of w) as [[r|x]|]; try tauto.
  - intros H1 H2. now rewrite H1.
  - congruence.
Qed.

Lemma py_eq_not_nan (v w : Value) : py_eq v w = true -> isna v = false.
Proof. destruct v, w; simpl; congruence. Qed.

Lemma py_in_spec (x : Value) (l : list Value) :
  py_in x l = true <-> exists y, In y l /\ py_eq y x = true.
Proof. unfold py_in. apply existsb_exists. Qed.

Lemma py_in_eq (x y : Value) (l : list Value) :
  py_eq x y = true -> py_in x l = py_in y l.
Proof.
  intros H. apply eq_true_iff_eq. rewrite !py_in_spec.
  split; intros (z & Hz & Hzx); exists z; split; auto.
  - eapply py_eq_trans; eauto.
  - eapply py_eq_trans; eauto. now apply py_eq_sym.
Qed.

Lemma isin_py_in (seen : list Value) (y x : Value) :
  isin seen y = true -> py_eq y x = true -> py_in x seen = true.
Proof.
  unfold isin. rewrite existsb_exists. intros (s & Hs & Hys) Hyx.
  apply py_in_spec. exists s. split; [exact Hs|].
  unfold hash_eq in Hys. apply orb_true_iff in Hys as [Hys|Hnan].
  - apply py_eq_sym in Hys. eapply py_eq_trans; eauto.
  - rewrite (py_eq_not_nan _ _ Hyx) in Hnan. discriminate.
Qed.

Lemma py_in_cons (x y : Value) (l : list Value) :
  py_in x (y :: l) = py_eq y x || py_in x l.
Proof. reflexivity. Qed.

Lemma py_in_app (x : Value) (l l' : list Value) :
  py_in x (l ++ l') = py_in x l || py_in x l'.
Proof. unfold py_in. apply existsb_app. Qed.

Lemma py_in_unique_from (x : Value) (seen l : list Value) :
  py_in x (unique_from seen l) || py_in x seen = py_in x l || py_in x seen.
Proof.
  revert seen. induction l as [|y l IH]; intros seen; cbn [unique_from];
    [reflexivity|].
  destruct (isin seen y) eqn:Hy.
  - rewrite IH, py_in_cons.
    destruct (py_eq y x) eqn:Hyx; cbn [orb]; [|reflexivity].
    now rewrite (isin_py_in _ _ _ Hy Hyx), orb_true_r.
  - rewrite !py_in_cons. specialize (IH (y :: seen)).
    rewrite py_in_cons in IH.
    destruct (py_eq y x); cbn [orb] in *; [reflexivity|exact IH].
Qed.

Lemma py_in_unique (x : Value) (l : list Value) :
  py_in x (unique l) = py_in x l.
Proof.
  unfold unique. generalize (py_in_unique_from x [] l).
  change (py_in x []) with false. now rewrite !orb_false_r.
Qed.

Lemma py_in_set_list (x : Value) (seen l : list Value) :
  py_in x (set_list seen l) || py_in x seen = py_in x l || py_in x seen.
Proof.
  revert seen. induction l as [|y l IH]; intros seen; cbn [set_list];
    [reflexivity|].
  destruct (py_in y seen) eqn:Hy.
  - rewrite IH, py_in_cons.
    destruct (py_eq y x) eqn:Hyx; cbn [orb]; [|reflexivity].
    now rewrite <- (py_in_eq _ _ seen Hyx), Hy, orb_true_r.
  - rewrite !py_in_cons. specialize (IH (y :: seen)).
    rewrite py_in_cons in IH.
    destruct (py_eq y x); cbn [orb] in *; [reflexivity|exact IH].
Qed.

Lemma py_in_set_union (x : Value) (a b : list Value) :
  py_in x (set_union a b) = py_in x a || py_in x b.
Proof.
  unfold set_union. generalize (py_in_set_list x [] (a ++ b)).
  change (py_in x []) with false. rewrite !orb_false_r. intros ->.
  apply py_in_app.
Qed.

Lemma py_in_kept (x : Value) (removed ids : list Value) :
  py_in x (List.filter (fun sid => negb (py_in sid removed)) ids)
  = py_in x ids && negb (py_in x removed).
Proof.
  apply eq_true_iff_eq. rewrite andb_true_iff, !py_in_spec. split.
  - intros (y & Hy & Hyx). apply filter_In in Hy as [Hy Hn].
    split; [eauto|]. now rewrite <- (py_in_eq _ _ removed Hyx).
  - intros [(y & Hy & Hyx) Hn]. exists y. split; [|exact Hyx].
    apply filter_In. split; [exact Hy|]. now rewrite (py_in_eq _ _ removed Hyx).
Qed.

Lemma py_eq_comm (v w : Value) : py_eq v w = py_eq w v.
Proof.
  apply eq_true_iff_eq. split; apply py_eq_sym.
Qed.

(** For a value that is not NaN, [isin] and [in] agree; for NaN, [isin]
    finds any NaN and [in] finds none. *)
Lemma isin_not_nan (x : Value) (l : list Value) :
  isna x = false -> isin l x = py_in x l.
Proof.
  intros Hx. unfold isin, py_in.
  induction l as [|y l IH]; [reflexivity|]. cbn [existsb]. rewrite IH.
  f_equal. unfold hash_eq. rewrite Hx. cbn [andb]. rewrite orb_false_r.
  apply py_eq_comm.
Qed.

Lemma existsb_ext_isna (l : list Value) : isin l VNaN = existsb isna l.
Proof. reflexivity. Qed.

Lemma has_nan_unique_from (seen l : list Value) :
  existsb isna (unique_from seen l) || existsb isna seen
  = existsb isna l || existsb isna seen.
Proof.
  revert seen. induction l as [|y l IH]; intros seen; cbn [unique_from];
    [reflexivity|].
  destruct (isin seen y) eqn:Hy.
  - rewrite IH. cbn [existsb]. destruct (isna y) eqn:Hnan; [|reflexivity].
    destruct y; try discriminate.
    change (isin seen VNaN) with (existsb isna seen) in Hy.
    now rewrite Hy, !orb_true_r.
  - cbn [existsb]. specialize (IH (y :: seen)). cbn [existsb] in IH.
    destruct (isna y); cbn [orb] in *; [reflexivity|exact IH].
Qed.

Lemma has_nan_unique (l : list Value) :
  existsb isna (unique l) = existsb isna l.
Proof.
  unfold unique. generalize (has_nan_unique_from [] l).
  cbn [existsb]. now rewrite !orb_false_r.
Qed.

Lemma py_in_nan (l : list Value) : py_in VNaN l = false.
Proof.
  unfold py_in. induction l as [|y l IH]; [reflexivity|]. cbn [existsb].
  rewrite IH. now destruct y.
Qed.

Lemma has_nan_set_list (seen l : list Value) :
  existsb isna (set_list seen l) = existsb isna l.
Proof.
  revert seen. induction l as [|y l IH]; intros seen; cbn [set_list];
    [reflexivity|].
  destruct (py_in y seen) eqn:Hy.
  - rewrite IH. cbn [existsb]. destruct y; try reflexivity.
    now rewrite py_in_nan in Hy.
  - cbn [existsb]. now rewrite IH.
Qed.

Lemma has_nan_kept (removed ids : list Value) :
  existsb isna (List.filter (fun sid => negb (py_in sid removed)) ids)
  = existsb isna ids.
Proof.
  induction ids as [|y ids IH]; [reflexivity|]. cbn [List.filter].
  destruct (py_in y removed) eqn:Hy; cbn [negb existsb].
  - rewrite IH. destruct y; try reflexivity. now rewrite py_in_nan in Hy.
  - now rewrite IH.
Qed.

(** ** The calendar exceptions *)

Section Exceptions.
Context {rt : Runtime}.
Variable base_dir : string.
Variable fs : FileSystem.

Lemma date_mask (cd : DataFrame) (dt : datetime) (i : nat) (dates : list Z) :
  index_of "date" (columns cd) = Some i ->
  forall rs,
    mapM astype_int (map (cell i) rs) = inr dates ->
    map (fun z => z =? service_date_int dt) dates = map (exception_on cd dt) rs.
Proof.
  intros Hi rs. revert dates.
  induction rs as [|r rs IH]; simpl; intros dates.
  - intros [= <-]. reflexivity.
  - unfold exception_on at 1. rewrite Hi.
    destruct (astype_int (cell i r)) as [e|z]; [discriminate|]. unfold bind at 1.
    destruct (mapM astype_int (map (cell i) rs)) as [e|zs]; [discriminate|].
    unfold bind, ret. intros [= <-]. simpl. now rewrite (IH zs eq_refl).
Qed.

(** With a usable exceptions table: nothing changes when no row is for
    the date; otherwise the removed ids leave the base set and the added
    ids join it, or the added ids alone are the set when there is no base
    set. *)
Lemma calendar_dates_step fp dt cd s0 :
  path_exists fs (path_join fp "calendar_dates.txt") = true ->
  read_csv fs (path_join fp "calendar_dates.txt") = inr cd ->
  exceptions_usable cd ->
  calendar_dates_service_ids fs fp dt s0
  = inr match List.filter (exception_on cd dt) (rows cd) with
        | [] => s0
        | _ :: _ =>
            match s0 with
            | Some ids =>
                Some (set_union
                        (List.filter
                           (fun sid =>
                              negb (py_in sid (unique (exception_ids cd dt 2))))
                           ids)
                        (unique (exception_ids cd dt 1)))
            | None => Some (unique (exception_ids cd dt 1))
            end
        end.
Proof.
  intros He Hr ((i & dates & Hi & Hd) & Hk & Hm).
  apply has_column_index in Hk as Hk'. destruct Hk' as [k Hk'].
  apply has_column_index in Hm as Hm'. destruct Hm' as [m Hm'].
  assert (Hdate : has_column cd "date" = true)
    by (apply has_column_index; eauto).
  unfold calendar_dates_service_ids. rewrite He, Hr. unfold bind at 1.
  rewrite Hdate, Hk. cbn [andb].
  rewrite (column_at _ _ _ Hi). unfold bind at 1. rewrite Hd. unfold bind at 1.
  rewrite (date_mask cd dt i dates Hi _ Hd), select_mask.
  unfold is_empty at 1. cbn [rows].
  unfold exception_ids. rewrite Hk', Hm'.
  destruct (List.filter (exception_on cd dt) (rows cd)) as [|x l] eqn:Hfil;
    [reflexivity|]. cbn [negb].
  rewrite (column_at (mk_df (schema cd) (x :: l)) _ k) by exact Hk'.
  unfold bind. cbv beta iota. rewrite !select_by_cell.
  rewrite !(column_at (mk_df (schema cd) _) _ m) by exact Hm'.
  cbv beta iota. cbn [rows]. rewrite <- Hfil, !filter_filter_and.
  destruct s0; reflexivity.
Qed.

End Exceptions.

Section ExceptionClaims.
Context {rt : Runtime}.
Variable base_dir : string.
Variable fs : FileSystem.

Lemma filter_nil_and {A} (f g : A -> bool) (l : list A) :
  List.filter f l = [] -> List.filter (fun a => f a && g a) l = [].
Proof.
  induction l as [|a l IH]; simpl; [reflexivity|].
  destruct (f a); [discriminate|]. exact IH.
Qed.

Lemma exception_ids_none (cd : DataFrame) (dt : datetime) (ty : Z) :
  List.filter (exception_on cd dt) (rows cd) = [] -> exception_ids cd dt ty = [].
Proof.
  intros H. unfold exception_ids.
  destruct (index_of "exception_type" (columns cd)); [|reflexivity].
  destruct (index_of "service_id" (columns cd)); [|reflexivity].
  now rewrite (filter_nil_and _ _ _ H).
Qed.

(** When [service_ids] ends up a non-empty set, the trips whose service
    is in the set are kept, and none left is the no-trips-for-date error. *)
Lemma details_with_filter f r d fp dt R T ST S trips s0 ids m :
  loaded base_dir fs f d fp dt R T ST S ->
  filter_route T r = inr trips ->
  rows trips <> [] ->
  calendar_service_ids fs fp dt = inr s0 ->
  calendar_dates_service_ids fs fp dt s0 = inr (Some ids) ->
  ids <> [] ->
  index_of "service_id" (columns trips) = Some m ->
  get_route_details base_dir fs f r d
  = match List.filter (fun trip => isin ids (cell m trip)) (rows trips) with
    | [] => NoTripsForDate r d
    | kept => payload_of (assemble fs fp R ST S r (mk_df (schema trips) kept))
    end.
Proof.
  intros Hl Hf Hn H0 H1 Hids Hm. unfold get_route_details.
  rewrite (body_of_loaded _ _ _ r _ _ _ _ _ _ _ Hl). unfold details_of_tables.
  rewrite Hf. unfold bind at 1. apply is_empty_false in Hn. rewrite Hn.
  rewrite H0. unfold bind at 1. rewrite H1. unfold bind at 1.
  destruct ids as [|x ids]; [congruence|].
  change (0 <? Z.of_nat (length (x :: ids))) with true. cbv iota.
  rewrite (column_at _ _ _ Hm). unfold bind at 1. rewrite select_by_cell.
  unfold is_empty. cbn [rows].
  destruct (List.filter _ (rows trips)); reflexivity.
Qed.

(** C4, as the code has it.  Without a calendar table and with a usable
    exceptions table: when a row is for the target date the active-service
    set is the set of the Added service ids of that date, and the trips are
    filtered to it when it is not empty; when it is empty, or when no row
    is for the date (the set stays unset), no service filtering occurs. *)
Theorem exceptions_without_calendar f r d fp dt R T ST S trips cd :
  loaded base_dir fs f d fp dt R T ST S ->
  filter_route T r = inr trips ->
  rows trips <> [] ->
  path_exists fs (path_join fp "calendar.txt") = false ->
  path_exists fs (path_join fp "calendar_dates.txt") = true ->
  read_csv fs (path_join fp "calendar_dates.txt") = inr cd ->
  exceptions_usable cd ->
  calendar_service_ids fs fp dt = inr None
  /\ (List.filter (exception_on cd dt) (rows cd) <> [] ->
      calendar_dates_service_ids fs fp dt None
      = inr (Some (unique (exception_ids cd dt 1)))
      /\ (unique (exception_ids cd dt 1) <> [] ->
          forall m,
            index_of "service_id" (columns trips) = Some m ->
            get_route_details base_dir fs f r d
            = match List.filter
                      (fun trip =>
                         isin (unique (exception_ids cd dt 1)) (cell m trip))
                      (rows trips) with
              | [] => NoTripsForDate r d
              | kept =>
                  payload_of
                    (assemble fs fp R ST S r (mk_df (schema trips) kept))
              end)
      /\ (unique (exception_ids cd dt 1) = [] ->
          get_route_details base_dir fs f r d
          = payload_of (assemble fs fp R ST S r trips)))
  /\ (List.filter (exception_on cd dt) (rows cd) = [] ->
      calendar_dates_service_ids fs fp dt None = inr None
      /\ get_route_details base_dir fs f r d
         = payload_of (assemble fs fp R ST S r trips)).
Proof.
  intros Hl Hf Hn Hnocal He Hr Hu.
  assert (H0 : calendar_service_ids fs fp dt = inr None)
    by (unfold calendar_service_ids; now rewrite Hnocal).
  pose proof (calendar_dates_step fs fp dt cd None He Hr Hu) as Hstep.
  split; [exact H0|split].
  - intros Hsome.
    destruct (List.filter (exception_on cd dt) (rows cd)) as [|x l];
      [congruence|].
    split; [exact Hstep|split].
    + intros Hadded m Hm.
      now apply (details_with_filter f r d fp dt R T ST S trips None).
    + intros Hadded. rewrite Hadded in Hstep.
      apply (details_without_filter base_dir fs f r d fp dt R T ST S trips
               None (Some [])); auto.
  - intros Hnone. rewrite Hnone in Hstep. split; [exact Hstep|].
    apply (details_without_filter base_dir fs f r d fp dt R T ST S trips
             None None); auto.
Qed.

Lemma calendar_base_set_not_empty fp dt B :
  calendar_service_ids fs fp dt = inr (Some B) -> B <> [].
Proof.
  unfold calendar_service_ids.
  destruct (path_exists fs (path_join fp "calendar.txt")); [|discriminate].
  exc_cases; try discriminate;
    match goal with
    | |- context [negb (is_empty ?v)] =>
        destruct (is_empty v) eqn:Hempty; cbn [negb]; try discriminate
    end.
  unfold ret. intros [= <-].
  match goal with
  | H : column ?v "service_id" = inr ?ids |- _ =>
      unfold column in H; destruct (index_of "service_id" (columns v));
      [|discriminate]; injection H as <-;
      apply is_empty_false in Hempty; destruct (rows v); [congruence|]
  end.
  discriminate.
Qed.

(** C5. When the calendar table yields a base set [B] (then not empty)
    and the exceptions table contributes the Added ids [A] and the Removed
    ids [R] of the date, the active-service set is (B - R) ∪ A, with the
    membership of Python's [in]; so an id both added and removed on the
    date is active.  The same holds for the membership of [isin], which
    the trip filter uses, when no removed row lacks its service id. *)
Theorem exceptions_adjust_base_set fp dt cd B :
  calendar_service_ids fs fp dt = inr (Some B) ->
  path_exists fs (path_join fp "calendar_dates.txt") = true ->
  read_csv fs (path_join fp "calendar_dates.txt") = inr cd ->
  exceptions_usable cd ->
  B <> []
  /\ exists active,
       calendar_dates_service_ids fs fp dt (Some B) = inr (Some active)
       /\ (forall x,
             py_in x active
             = py_in x B && negb (py_in x (exception_ids cd dt 2))
               || py_in x (exception_ids cd dt 1))
       /\ (forall x,
             py_in x (exception_ids cd dt 1) = true ->
             py_in x (exception_ids cd dt 2) = true ->
             py_in x active = true)
       /\ (existsb isna (exception_ids cd dt 2) = false ->
           forall x,
             isin active x
             = isin B x && negb (isin (exception_ids cd dt 2) x)
               || isin (exception_ids cd dt 1) x).
Proof.
  intros HB He Hr Hu. split; [exact (calendar_base_set_not_empty _ _ _ HB)|].
  pose proof (calendar_dates_step fs fp dt cd (Some B) He Hr Hu) as Hstep.
  assert (Hmem : exists active,
             calendar_dates_service_ids fs fp dt (Some B) = inr (Some active)
             /\ (forall x,
                   py_in x active
                   = py_in x B && negb (py_in x (exception_ids cd dt 2))
                     || py_in x (exception_ids cd dt 1))
             /\ existsb isna active
                = existsb isna B || existsb isna (exception_ids cd dt 1)).
  { destruct (List.filter (exception_on cd dt) (rows cd)) as [|y l] eqn:Hfil.
    - exists B. split; [exact Hstep|]. split.
      + intros x. rewrite !(exception_ids_none cd dt _ Hfil).
        change (py_in x []) with false. cbn [negb].
        now rewrite andb_true_r, orb_false_r.
      + rewrite !(exception_ids_none cd dt _ Hfil). cbn [existsb].
        now rewrite orb_false_r.
    - eexists. split; [exact Hstep|]. split.
      + intros x.
        rewrite py_in_set_union, py_in_kept, !py_in_unique. reflexivity.
      + unfold set_union.
        now rewrite has_nan_set_list, existsb_app, has_nan_kept, has_nan_unique. }
  destruct Hmem as (active & Hact & Hin & Hnan). exists active.
  split; [exact Hact|split; [exact Hin|split]].
  - intros x HA _. rewrite Hin, HA. apply orb_true_r.
  - intros HR x. destruct (isna x) eqn:Hx.
    + destruct x; try discriminate. rewrite !existsb_ext_isna, Hnan, HR.
      cbn [negb]. now rewrite andb_true_r.
    + now rewrite !isin_not_nan, Hin by exact Hx.
Qed.

End ExceptionClaims.

Lemma exceptions_usable_example (cd : DataFrame) :
  schema cd
  = [("service_id", Object); ("date", Int64); ("exception_type", Int64)] ->
  forallb (fun row => match cell 1 row with VInt _ => true | _ => false end)
    (rows cd) = true ->
  exceptions_usable cd.
Proof.
  intros Hs Hd. unfold exceptions_usable, has_column, columns. rewrite Hs.
  split; [|split; reflexivity].
  exists 1%nat,
    (map (fun v => match v with VInt z => z | _ => 0 end)
       (map (cell 1) (rows cd))).
  split; [reflexivity|].
  apply mapM_all_inr. intros v Hv. apply in_map_iff in Hv as (row & <- & Hrow).
  rewrite forallb_forall in Hd. specialize (Hd row Hrow).
  destruct (cell 1 row); try discriminate. reflexivity.
Defined.

Lemma exceptions_without_calendar_witness :
  calendar_dates_service_ids Ex.fs_dates_mixed Ex.folder saturday_15_june None
  = inr (Some [VStr "SA"; VStr "WK"])
  /\ get_route_details (rt := example_runtime) "./data" Ex.fs_dates_mixed Ex.id
       "42" Ex.saturday
     = Details []
         []
         [mk_stop "1" "A" (VFloat 10) (VFloat 20);
          mk_stop "2" "" (VFloat 11) (VFloat 21)].
Proof.
  destruct (exceptions_without_calendar (rt := example_runtime) "./data"
              Ex.fs_dates_mixed Ex.id "42" Ex.saturday Ex.folder
              saturday_15_june Ex.routes Ex.trips Ex.stop_times Ex.stops
              trips_of_42 Ex.dates_mixed) as (_ & Hsome & _).
  - apply loaded_example; reflexivity.
  - reflexivity.
  - discriminate.
  - reflexivity.
  - reflexivity.
  - reflexivity.
  - apply exceptions_usable_example; reflexivity.
  - destruct Hsome as (Hset & Hfilter & _); [discriminate|].
    split; [exact Hset|].
    rewrite (Hfilter ltac:(discriminate) 1%nat eq_refl).
    vm_compute. reflexivity.
Defined.

(** C4, as the specification states it, fails.  There is no calendar
    table; the only exception row of the date removes a service, so the
    Added set of the date is empty; the trips are not filtered to that
    empty set: both trips of the route are kept and the method succeeds. *)
Lemma exceptions_without_calendar_counterexample :
  path_exists Ex.fs_dates_removed (path_join Ex.folder "calendar.txt") = false
  /\ List.filter (exception_on Ex.dates_removed saturday_15_june)
       (rows Ex.dates_removed)
     = [[VStr "WK"; VInt 20240615; VInt 2]]
  /\ exception_ids Ex.dates_removed saturday_15_june 1 = []
  /\ calendar_dates_service_ids Ex.fs_dates_removed Ex.folder saturday_15_june
       None = inr (Some [])
  /\ List.filter (fun trip => isin [] (cell 1 trip)) (rows trips_of_42) = []
  /\ get_route_details (rt := example_runtime) "./data" Ex.fs_dates_removed
       Ex.id "42" Ex.saturday
     <> NoTripsForDate "42" Ex.saturday
  /\ get_route_details (rt := example_runtime) "./data" Ex.fs_dates_removed
       Ex.id "42" Ex.saturday
     = Details []
         []
         [mk_stop "1" "A" (VFloat 10) (VFloat 20);
          mk_stop "2" "" (VFloat 11) (VFloat 21)].
Proof.
  repeat split; try (vm_compute; reflexivity); vm_compute; discriminate.
Qed.

Lemma exceptions_adjust_base_set_witness :
  calendar_service_ids Ex.fs_both_mixed Ex.folder saturday_15_june
  = inr (Some [VStr "SA"])
  /\ exception_ids Ex.dates_mixed saturday_15_june 1 = [VStr "SA"; VStr "WK"]
  /\ exception_ids Ex.dates_mixed saturday_15_june 2 = [VStr "SA"]
  /\ exists active,
       calendar_dates_service_ids Ex.fs_both_mixed Ex.folder saturday_15_june
         (Some [VStr "SA"]) = inr (Some active)
       /\ py_in (VStr "SA") active = true
       /\ py_in (VStr "WK") active = true.
Proof.
  split; [reflexivity|]. split; [reflexivity|]. split; [reflexivity|].
  destruct (exceptions_adjust_base_set Ex.fs_both_mixed Ex.folder
              saturday_15_june Ex.dates_mixed [VStr "SA"])
    as (_ & active & Hact & Hin & _ & _).
  - reflexivity.
  - reflexivity.
  - reflexivity.
  - apply exceptions_usable_example; reflexivity.
  - exists active. split; [exact Hact|]. rewrite !Hin. split; reflexivity.
Defined.

(** ** [get_routes] and the failures it meets *)

Section RoutesFailures.
Context {rt : Runtime}.
Variable base_dir : string.
Variable fs : FileSystem.

(** C3, as the code has it.  For an identifier that does not split into
    exactly two parts, for an absent directory and for a missing routes
    table, [get_routes] returns the empty list; and whatever happens, it
    returns a list: no exception leaves the method. *)
Theorem get_routes_returns_empty_list (folder_id : string) :
  length (split_slash folder_id) <> 2%nat
  \/ (exists uuid_dir timestamp_dir,
        split_slash folder_id = [uuid_dir; timestamp_dir]
        /\ (path_exists fs (path_join (path_join base_dir uuid_dir) timestamp_dir)
            = false
            \/ path_exists fs
                 (path_join
                    (path_join (path_join base_dir uuid_dir) timestamp_dir)
                    "routes.txt")
               = false)) ->
  get_routes base_dir fs folder_id = inr []
  /\ forall other_id, exists routes, get_routes base_dir fs other_id = inr routes.
Proof.
  intros H. split.
  - unfold get_routes. destruct H as [H | (u & t & -> & [H | H])].
    + destruct (split_slash folder_id) as [|u [|t [|x l]]] eqn:E;
        try reflexivity. now contradict H.
    + now rewrite H.
    + rewrite H. cbn [negb].
      destruct (path_exists fs (path_join (path_join base_dir u) t));
        reflexivity.
  - intros other_id. unfold get_routes.
    destruct (split_slash other_id) as [|u [|t [|x l]]]; eauto.
    destruct (path_exists fs (path_join (path_join base_dir u) t));
      cbn [negb]; eauto.
    destruct (path_exists fs _); cbn [negb]; eauto.
    destruct (read_routes _ _); eauto.
Qed.

End RoutesFailures.

Lemma get_routes_returns_empty_list_witness :
  get_routes (rt := example_runtime) "./data" Ex.fs_required "no-separator"
  = inr [].
Proof.
  apply (get_routes_returns_empty_list (rt := example_runtime) "./data"
           Ex.fs_required "no-separator").
  left. vm_compute. discriminate.
Defined.

(** C3, as the specification states it, fails.  A malformed identifier,
    an absent directory and a snapshot without [routes.txt] all give a
    returned empty list, not an exception; the caller gets the same value
    as for a snapshot whose routes table has no row. *)
Lemma get_routes_failures_counterexample :
  length (split_slash "no-separator") <> 2%nat
  /\ get_routes (rt := example_runtime) "./data" Ex.fs_required "no-separator"
     = inr []
  /\ path_exists Ex.fs_required "./data/u/absent" = false
  /\ get_routes (rt := example_runtime) "./data" Ex.fs_required "u/absent"
     = inr []
  /\ path_exists Ex.fs_no_routes Ex.folder = true
  /\ path_exists Ex.fs_no_routes (path_join Ex.folder "routes.txt") = false
  /\ get_routes (rt := example_runtime) "./data" Ex.fs_no_routes Ex.id = inr []
  /\ get_routes (rt := example_runtime) "./data" Ex.fs_empty_routes Ex.id
     = inr []
  /\ ~ (exists e,
          get_routes (rt := example_runtime) "./data" Ex.fs_required
            "no-separator" = inl e)
  /\ ~ (exists e,
          get_routes (rt := example_runtime) "./data" Ex.fs_required "u/absent"
          = inl e)
  /\ ~ (exists e,
          get_routes (rt := example_runtime) "./data" Ex.fs_no_routes Ex.id
          = inl e).
Proof.
  repeat split; try (vm_compute; reflexivity); try (vm_compute; discriminate);
    intros [e He]; vm_compute in He; discriminate.
Qed.

(** ** Uploads *)

Lemma keeps_refl (fs : FileSystem) : keeps fs fs.
Proof. intros p. destruct (fs !! p) as [[|c]|]; eauto. Qed.

Lemma keeps_trans (fs1 fs2 fs3 : FileSystem) :
  keeps fs1 fs2 -> keeps fs2 fs3 -> keeps fs1 fs3.
Proof.
  intros H12 H23 p. specialize (H12 p). specialize (H23 p).
  destruct (fs1 !! p) as [[|c]|]; [| |exact I].
  - now rewrite H12 in H23.
  - destruct H12 as [c' Hc']. now rewrite Hc' in H23.
Qed.

Lemma keeps_insert_new (fs : FileSystem) (p : string) (n : node) :
  fs !! p = None -> keeps fs (<[p := n]> fs).
Proof.
  intros Hp q. destruct (decide (p = q)) as [<-|Hne].
  - now rewrite Hp.
  - destruct (fs !! q) as [[|c]|] eqn:Hq; [| |exact I];
      rewrite lookup_insert_ne by exact Hne; eauto.
Qed.

Lemma keeps_rewrite (fs : FileSystem) (p : string) (c c' : Exc DataFrame) :
  fs !! p = Some (File c) -> keeps fs (<[p := File c']> fs).
Proof.
  intros Hp q. destruct (decide (p = q)) as [<-|Hne].
  - rewrite Hp, lookup_insert_eq. eauto.
  - destruct (fs !! q) as [[|c0]|] eqn:Hq; [| |exact I];
      rewrite lookup_insert_ne by exact Hne; eauto.
Qed.

Lemma io_bind_keeps {A B} (m : IO A) (k : A -> IO B) :
  io_keeps m -> (forall a, io_keeps (k a)) -> io_keeps (io_bind m k).
Proof.
  intros Hm Hk fs. unfold io_bind. specialize (Hm fs).
  destruct (m fs) as [fs' [e|a]]; [exact Hm|].
  eapply keeps_trans; [exact Hm|apply Hk].
Qed.

Lemma io_iter_keeps {A} (f : A -> IO unit) (l : list A) :
  (forall a, io_keeps (f a)) -> io_keeps (io_iter f l).
Proof.
  intros Hf. induction l as [|a l IH]; simpl.
  - intros fs. apply keeps_refl.
  - apply io_bind_keeps; auto.
Qed.

Lemma mkdir_exist_ok_keeps (p : string) : io_keeps (mkdir_exist_ok p).
Proof.
  intros fs. unfold mkdir_exist_ok.
  destruct (fs !! p) as [[|c]|] eqn:Hp; simpl;
    auto using keeps_refl, keeps_insert_new.
Qed.

Lemma makedirs_keeps (p : string) : io_keeps (makedirs p).
Proof.
  unfold makedirs. destruct (String.eqb p "").
  - intros fs. apply keeps_refl.
  - apply io_iter_keeps, mkdir_exist_ok_keeps.
Qed.

Lemma write_file_keeps (p : string) (c : Exc DataFrame) :
  io_keeps (write_file p c).
Proof.
  intros fs. unfold write_file.
  destruct (fs !! p) as [[|c0]|] eqn:Hp; simpl;
    eauto using keeps_refl, keeps_insert_new, keeps_rewrite.
Qed.

Lemma extract_member_keeps (dir : string) (member : string * option (Exc DataFrame)) :
  io_keeps (extract_member dir member).
Proof.
  unfold extract_member. apply io_bind_keeps.
  - intros fs. destruct (_ && _); [apply makedirs_keeps|apply keeps_refl].
  - intros _. destruct (snd member) as [c|]; [apply write_file_keeps|].
    intros fs.
    destruct (fs !! _) as [[|c]|] eqn:Hp; simpl;
      auto using keeps_refl, keeps_insert_new.
Qed.

Lemma extractall_keeps (file_obj : Upload) (dir : string) :
  io_keeps (extractall file_obj dir).
Proof.
  intros fs. unfold extractall. destruct (zip_members file_obj) as [e|members].
  - apply keeps_refl.
  - apply io_iter_keeps, extract_member_keeps.
Qed.

Lemma split_slash_not_nil (p : string) : split_slash p <> [].
Proof.
  destruct p as [|c r]; simpl; [discriminate|].
  destruct (Ascii.eqb c "/"); [discriminate|].
  destruct (split_slash r); discriminate.
Qed.

Lemma join_split_slash (p : string) : join_slash (split_slash p) = p.
Proof.
  unfold join_slash. induction p as [|c r IH]; simpl; [reflexivity|].
  pose proof (split_slash_not_nil r) as Hne. revert IH Hne.
  destruct (split_slash r) as [|x l]; [congruence|]. intros IH _.
  destruct (Ascii.eqb_spec c "/") as [->|Hc].
  - change (String.concat "/" ("" :: x :: l))
      with (String "/" (String.concat "/" (x :: l))).
    now rewrite IH.
  - destruct l; simpl in *; now rewrite <- IH.
Qed.

Lemma In_inits {A} (l : list A) : l <> [] -> In l (inits l).
Proof.
  induction l as [|a l IH]; [congruence|]. intros _. simpl.
  destruct l as [|b l]; [now left|]. right.
  apply in_map. apply IH. discriminate.
Qed.

Lemma mkdir_exist_ok_dir (p : string) (fs fs' : FileSystem) :
  mkdir_exist_ok p fs = (fs', inr tt) -> fs' !! p = Some Dir.
Proof.
  unfold mkdir_exist_ok. destruct (fs !! p) as [[|c]|] eqn:Hp; intros [= <-].
  - exact Hp.
  - apply lookup_insert_eq.
Qed.

Lemma io_iter_mkdir_dirs (l : list string) (fs fs' : FileSystem) :
  io_iter mkdir_exist_ok l fs = (fs', inr tt) ->
  forall q, In q l -> fs' !! q = Some Dir.
Proof.
  revert fs. induction l as [|a l IH]; intros fs; simpl; [contradiction|].
  unfold io_bind. destruct (mkdir_exist_ok a fs) as [fs1 [e|[]]] eqn:Ha;
    [discriminate|].
  intros Hrest q [<-|Hq].
  - pose proof (io_iter_keeps mkdir_exist_ok l mkdir_exist_ok_keeps fs1 a) as Hk.
    rewrite Hrest in Hk. simpl in Hk.
    now rewrite (mkdir_exist_ok_dir _ _ _ Ha) in Hk.
  - now apply (IH fs1).
Qed.

Lemma makedirs_dir (p : string) (fs fs' : FileSystem) :
  makedirs p fs = (fs', inr tt) -> fs' !! p = Some Dir.
Proof.
  unfold makedirs. destruct (String.eqb_spec p "") as [->|Hp]; [discriminate|].
  intros H. apply (io_iter_mkdir_dirs _ _ _ H).
  apply filter_In. split.
  - apply in_map_iff. exists (split_slash p).
    split; [apply join_split_slash|apply In_inits, split_slash_not_nil].
  - apply negb_true_iff. now apply String.eqb_neq.
Qed.

Lemma write_file_done (p : string) (c : Exc DataFrame) (fs fs' : FileSystem) :
  write_file p c fs = (fs', inr tt) ->
  fs !! p <> Some Dir /\ fs' = <[p := File c]> fs.
Proof.
  unfold write_file. destruct (fs !! p) as [[|c0]|]; intros [= <-];
    split; congruence.
Qed.

Lemma invalid_when_missing (fs : FileSystem) (folder_path file : string) :
  In file required_files ->
  path_exists fs (path_join folder_path file) = false ->
  _is_valid_gtfs fs folder_path = false.
Proof.
  intros Hin Hmiss. unfold _is_valid_gtfs.
  destruct (List.filter _ required_files) as [|x l] eqn:Hfil; [|reflexivity].
  assert (Hx : In file
                 (List.filter
                    (fun file => negb (path_exists fs (path_join folder_path file)))
                    required_files)).
  { apply filter_In. split; [exact Hin|]. now rewrite Hmiss. }
  rewrite Hfil in Hx. contradiction.
Qed.

Section UploadClaims.
Variable base_dir : string.
Variable folder_uuid : string.
Variable timestamp : string.

Let dir := extract_dir base_dir folder_uuid timestamp.
Let zip := zip_path base_dir folder_uuid.

(** C9. When the archive has been saved and extracted, the method
    removes the saved zip file and then validates: if a required table is
    missing under the extraction directory, it raises, and the directory
    and all that was extracted stay in the storage; the zip file is gone
    whether the validation succeeds or fails. *)
Theorem upload_of_invalid_archive (file_obj : Upload) (fs fs1 : FileSystem) :
  save_and_extract base_dir folder_uuid timestamp file_obj fs = (fs1, inr tt) ->
  exists fs2 result,
    upload_gtfs base_dir folder_uuid timestamp file_obj fs = (fs2, result)
    /\ fs2 = delete zip fs1
    /\ path_exists fs2 zip = false
    /\ fs2 !! dir = Some Dir
    /\ (forall p, p <> zip -> fs2 !! p = fs1 !! p)
    /\ ((exists file,
           In file required_files
           /\ path_exists fs2 (path_join dir file) = false) ->
        result = inl (ValueError "Uploaded file does not contain valid GTFS data"))
    /\ (_is_valid_gtfs fs2 dir = true ->
        result = inr (folder_uuid ++ "/" ++ timestamp)%string).
Proof.
  intros Hsave. subst dir zip.
  set (dir := extract_dir base_dir folder_uuid timestamp) in *.
  set (zip := zip_path base_dir folder_uuid) in *.
  assert (Hstate : (exists c, fs1 !! zip = Some (File c)) /\ fs1 !! dir = Some Dir
                   /\ dir <> zip).
  { revert Hsave. unfold save_and_extract, io_bind.
    destruct (makedirs (uuid_dir base_dir folder_uuid) fs) as [fa [e|[]]];
      [discriminate|].
    fold dir zip.
    destruct (makedirs dir fa) as [fb [e|[]]] eqn:Hmk; [discriminate|].
    destruct (write_file zip (zip_as_csv file_obj) fb)
      as [fc [e|[]]] eqn:Hw; [discriminate|].
    intros Hx.
    apply makedirs_dir in Hmk. apply write_file_done in Hw as [Hnd ->].
    assert (Hne : dir <> zip) by congruence.
    pose proof (extractall_keeps file_obj dir
                  (<[zip := File (zip_as_csv file_obj)]> fb)) as Hk.
    rewrite Hx in Hk. simpl in Hk.
    pose proof (Hk zip) as Hz. rewrite lookup_insert_eq in Hz.
    pose proof (Hk dir) as Hd.
    rewrite lookup_insert_ne, Hmk in Hd by congruence.
    auto. }
  destruct Hstate as ([c Hzip] & Hdir & Hne).
  unfold upload_gtfs, io_bind. rewrite Hsave.
  unfold remove. fold zip. rewrite Hzip.
  fold dir.
  exists (delete zip fs1),
    (if negb (_is_valid_gtfs (delete zip fs1) dir)
     then inl (ValueError "Uploaded file does not contain valid GTFS data")
     else inr (folder_uuid ++ "/" ++ timestamp)%string).
  split; [now destruct (_is_valid_gtfs (delete zip fs1) dir)|].
  split; [reflexivity|]. split; [|split; [|split; [|split]]].
  - unfold path_exists. now rewrite lookup_delete_eq.
  - rewrite lookup_delete_ne by congruence. exact Hdir.
  - intros p Hp. now rewrite lookup_delete_ne by congruence.
  - intros (file & Hin & Hmiss).
    now rewrite (invalid_when_missing _ _ _ Hin Hmiss).
  - intros ->. reflexivity.
Qed.

End UploadClaims.

Lemma upload_of_invalid_archive_witness :
  exists fs2,
    upload_gtfs "./data" "u" "20240101120000" Ex.incomplete_zip ∅
    = (fs2, inl (ValueError "Uploaded file does not contain valid GTFS data"))
    /\ path_exists fs2 "./data/u/gtfs.zip" = false
    /\ fs2 !! "./data/u/20240101120000" = Some Dir
    /\ fs2 !! "./data/u/20240101120000/routes.txt"
       = Some (File (inr Ex.routes)).
Proof.
  destruct (upload_of_invalid_archive "./data" "u" "20240101120000"
              Ex.incomplete_zip ∅
              (fst (save_and_extract "./data" "u" "20240101120000"
                      Ex.incomplete_zip ∅)))
    as (fs2 & result & Hup & Hfs2 & Hzip & Hdir & _ & Hinvalid & _).
  - vm_compute. reflexivity.
  - exists fs2. rewrite Hup. split; [|split; [exact Hzip|split; [exact Hdir|]]].
    + f_equal. apply Hinvalid. exists "stops.txt".
      split; [right; left; reflexivity|].
      rewrite Hfs2. vm_compute. reflexivity.
    + rewrite Hfs2. vm_compute. reflexivity.
Defined.

(** ** Sorting *)

Section InsertionSort.
Context {A : Type}.
Variable leb : A -> A -> bool.
Variable dom : A -> Prop.
Hypothesis leb_total : forall a b, dom a -> dom b -> leb a b = false -> leb b a = true.
Hypothesis leb_trans :
  forall a b c, dom a -> dom b -> dom c ->
    leb a b = true -> leb b c = true -> leb a c = true.

Let le (a b : A) : Prop := leb a b = true.

Lemma insert_by_perm (a : A) (l : list A) : Permutation (insert_by leb a l) (a :: l).
Proof.
  induction l as [|x l IH]; simpl; [reflexivity|].
  destruct (leb a x); [reflexivity|].
  rewrite IH. apply perm_swap.
Qed.

Lemma sort_by_perm (l : list A) : Permutation (sort_by leb l) l.
Proof.
  induction l as [|a l IH]; simpl; [reflexivity|].
  rewrite insert_by_perm. now constructor.
Qed.

Lemma insert_by_sorted (a : A) (l : list A) :
  dom a -> Forall dom l -> StronglySorted le l ->
  StronglySorted le (insert_by leb a l).
Proof.
  intros Ha Hl Hs. induction Hs as [|x l Hs IH Hx]; simpl.
  - repeat constructor.
  - apply Forall_cons_iff in Hl as [Hdx Hl].
    destruct (leb a x) eqn:Hax.
    + constructor; [now constructor|]. constructor; [exact Hax|].
      rewrite Forall_forall in *. intros y Hy.
      apply (leb_trans a x y); auto. exact (Hx y Hy).
    + constructor; [auto|].
      apply (Permutation_Forall (Permutation_sym (insert_by_perm a l))).
      constructor; [|exact Hx]. now apply leb_total.
Qed.

Lemma sort_by_sorted (l : list A) :
  Forall dom l -> StronglySorted le (sort_by leb l).
Proof.
  induction l as [|a l IH]; simpl; intros Hl; [constructor|].
  apply Forall_cons_iff in Hl as [Ha Hl].
  apply insert_by_sorted; auto.
  exact (Permutation_Forall (Permutation_sym (sort_by_perm l)) Hl).
Qed.

End InsertionSort.

Lemma ascii_compare_lt_trans (a b c : ascii) :
  Ascii.compare a b = Lt -> Ascii.compare b c = Lt -> Ascii.compare a c = Lt.
Proof.
  unfold Ascii.compare. rewrite !N.compare_lt_iff. apply N.lt_trans.
Qed.

Lemma string_compare_refl (s : string) : String.compare s s = Eq.
Proof.
  induction s as [|a s IH]; simpl; [reflexivity|].
  unfold Ascii.compare at 1. now rewrite N.compare_refl.
Qed.

Lemma string_leb_trans (s1 s2 s3 : string) :
  String.leb s1 s2 = true -> String.leb s2 s3 = true -> String.leb s1 s3 = true.
Proof.
  unfold String.leb. revert s2 s3.
  induction s1 as [|a s1 IH]; intros [|b s2] [|c s3]; simpl; try congruence.
  destruct (Ascii.compare a b) eqn:Hab; try congruence;
    destruct (Ascii.compare b c) eqn:Hbc; try congruence.
  - apply Ascii.compare_eq_iff in Hab, Hbc. subst.
    unfold Ascii.compare at 1. rewrite N.compare_refl. apply IH.
  - apply Ascii.compare_eq_iff in Hab. subst. now rewrite Hbc.
  - apply Ascii.compare_eq_iff in Hbc. subst. now rewrite Hab.
  - now rewrite (ascii_compare_lt_trans _ _ _ Hab Hbc).
Qed.

Lemma val_leb_total_num (a b : Value) :
  is_num a = true -> is_num b = true -> val_leb a b = false -> val_leb b a = true.
Proof.
  destruct a, b; simpl; try discriminate; intros _ _ H;
    apply Qle_bool_iff; apply Qlt_le_weak, Qnot_le_lt;
    intros Hle; apply Qle_bool_iff in Hle; unfold val_leb in H; simpl in H;
    congruence.
Qed.

Lemma val_leb_trans_num (a b c : Value) :
  is_num a = true -> is_num b = true -> is_num c = true ->
  val_leb a b = true -> val_leb b c = true -> val_leb a c = true.
Proof.
  destruct a, b, c; simpl; try discriminate; intros _ _ _;
    unfold val_leb; simpl; rewrite !Qle_bool_iff; apply Qle_trans.
Qed.

Lemma val_leb_total_str (a b : Value) :
  is_str a = true -> is_str b = true -> val_leb a b = false -> val_leb b a = true.
Proof.
  destruct a, b; simpl; try discriminate. intros _ _. unfold val_leb. simpl.
  destruct (String.leb_total s s0) as [H|H]; congruence.
Qed.

Lemma val_leb_trans_str (a b c : Value) :
  is_str a = true -> is_str b = true -> is_str c = true ->
  val_leb a b = true -> val_leb b c = true -> val_leb a c = true.
Proof.
  destruct a, b, c; simpl; try discriminate. intros _ _ _.
  unfold val_leb. simpl. apply string_leb_trans.
Qed.

Lemma StronglySorted_app {A} (R : A -> A -> Prop) (l1 l2 : list A) :
  StronglySorted R l1 -> StronglySorted R l2 ->
  (forall a b, In a l1 -> In b l2 -> R a b) ->
  StronglySorted R (l1 ++ l2).
Proof.
  intros H1 H2 H12. induction H1 as [|a l1 H1 IH Ha]; simpl; [exact H2|].
  constructor.
  - apply IH. intros x y Hx Hy. apply H12; [now right|exact Hy].
  - apply List.Forall_app. split; [exact Ha|].
    apply List.Forall_forall. intros y Hy. apply H12; [now left|exact Hy].
Qed.

Lemma StronglySorted_weaken {A} (R R' : A -> A -> Prop) (l : list A) :
  (forall a b, R a b -> R' a b) -> StronglySorted R l -> StronglySorted R' l.
Proof.
  intros HR H. induction H as [|a l H IH Ha]; constructor; [exact IH|].
  eapply List.Forall_impl; [|exact Ha]. auto.
Qed.

Lemma StronglySorted_all {A} (R : A -> A -> Prop) (l : list A) :
  (forall a b, In b l -> R a b) -> StronglySorted R l.
Proof.
  induction l as [|x l IH]; intros H; constructor.
  - apply IH. intros a b Hb. apply H. now right.
  - apply List.Forall_forall. intros y Hy. apply H. now right.
Qed.

(** A list sorted for an order that is antisymmetric on its elements is
    the only sorted arrangement of these elements. *)
Lemma sorted_perm_unique {A} (R : A -> A -> Prop) (l1 l2 : list A) :
  (forall a b, In a l1 -> In b l1 -> R a b -> R b a -> a = b) ->
  StronglySorted R l1 -> StronglySorted R l2 -> Permutation l1 l2 -> l1 = l2.
Proof.
  intros Hanti H1. revert l2.
  induction H1 as [|a l1 H1 IH Ha]; intros l2 H2 Hp.
  - apply Permutation_nil in Hp. now subst.
  - destruct H2 as [|b l2 H2 Hb].
    + apply Permutation_sym, Permutation_nil in Hp. discriminate.
    + assert (Hab : a = b).
      { rewrite List.Forall_forall in Ha, Hb.
        assert (Hina : In a (b :: l2))
          by (apply (Permutation_in _ Hp); now left).
        assert (Hinb : In b (a :: l1))
          by (apply (Permutation_in _ (Permutation_sym Hp)); now left).
        destruct Hina as [->|Hina]; [reflexivity|].
        destruct Hinb as [->|Hinb]; [reflexivity|].
        apply Hanti; [now left|now right|now apply Ha|now apply Hb]. }
      subst b. f_equal. apply IH; auto.
      * intros x y Hx Hy. apply Hanti; now right.
      * now apply Permutation_cons_inv in Hp.
Qed.

Lemma filter_perm {A} (f : A -> bool) (l l' : list A) :
  Permutation l l' -> Permutation (List.filter f l) (List.filter f l').
Proof.
  induction 1 as [|x l l' Hp IH|x y l|l l' l'' H1 IH1 H2 IH2]; simpl.
  - constructor.
  - destruct (f x); [now constructor|exact IH].
  - destruct (f x), (f y); try reflexivity. apply perm_swap.
  - now transitivity (List.filter f l').
Qed.

Lemma filter_split_perm {A} (f : A -> bool) (l : list A) :
  Permutation (List.filter (fun a => negb (f a)) l ++ List.filter f l) l.
Proof.
  induction l as [|a l IH]; simpl; [constructor|].
  destruct (f a); simpl.
  - rewrite <- Permutation_middle. now constructor.
  - now constructor.
Qed.

Lemma sort_values_ordered (df : DataFrame) (by_ : string) (k : nat) :
  index_of by_ (columns df) = Some k ->
  comparable k (rows df) = true ->
  exists ordered,
    sort_values df by_ = inr (mk_df (schema df) ordered)
    /\ Permutation ordered (rows df)
    /\ StronglySorted (seq_le k) ordered.
Proof.
  intros Hk Hc. unfold sort_values. rewrite Hk.
  unfold comparable in Hc. rewrite Hc.
  set (present := List.filter (fun r => negb (isna (cell k r))) (rows df)) in *.
  set (missing := List.filter (fun r => isna (cell k r)) (rows df)).
  exists (sort_rows k present ++ missing). split; [reflexivity|]. split.
  - rewrite <- (filter_split_perm (fun r => isna (cell k r)) (rows df)).
    apply Permutation_app_tail. apply sort_by_perm.
  - apply StronglySorted_app.
    + apply StronglySorted_weaken
        with (R := fun a b => row_leb k a b = true); [now right|].
      apply orb_true_iff in Hc as [Hnum|Hstr].
      * apply (sort_by_sorted (row_leb k)
                 (fun r => is_num (cell k r) = true)).
        -- intros a b. apply val_leb_total_num.
        -- intros a b c. apply val_leb_trans_num.
        -- apply List.Forall_forall. intros r Hr.
           rewrite forallb_forall in Hnum. apply Hnum. now apply in_map.
      * apply (sort_by_sorted (row_leb k)
                 (fun r => is_str (cell k r) = true)).
        -- intros a b. apply val_leb_total_str.
        -- intros a b c. apply val_leb_trans_str.
        -- apply List.Forall_forall. intros r Hr.
           rewrite forallb_forall in Hstr. apply Hstr. now apply in_map.
    + apply StronglySorted_all. intros a b Hb. left.
      now apply filter_In in Hb as [_ Hb].
    + intros a b _ Hb. left. now apply filter_In in Hb as [_ Hb].
Qed.

Lemma mapM_total {A B} (f : A -> Exc B) (l : list A) :
  (forall a, In a l -> exists b, f a = inr b) ->
  exists bs, mapM f l = inr bs /\ Forall2 (fun a b => f a = inr b) l bs.
Proof.
  induction l as [|a l IH]; intros H; simpl.
  - exists []. split; [reflexivity|constructor].
  - destruct (H a (or_introl eq_refl)) as [b Hb].
    destruct IH as (bs & Hbs & Hall); [intros x Hx; apply H; now right|].
    exists (b :: bs). rewrite Hb, Hbs. split; [reflexivity|now constructor].
Qed.

(** ** The shape *)

Lemma forallb_perm {A} (f : A -> bool) (l l' : list A) :
  Permutation l l' -> forallb f l = forallb f l'.
Proof.
  intros Hp. apply eq_true_iff_eq. rewrite !forallb_forall. split; intros H x Hx.
  - apply H. now apply (Permutation_in _ (Permutation_sym Hp)).
  - apply H. now apply (Permutation_in _ Hp).
Qed.

Lemma comparable_perm (k : nat) (l l' : list Row) :
  Permutation l l' -> comparable k l = comparable k l'.
Proof.
  intros Hp. unfold comparable.
  assert (Hkeys : Permutation
                    (map (cell k)
                       (List.filter (fun r => negb (isna (cell k r))) l))
                    (map (cell k)
                       (List.filter (fun r => negb (isna (cell k r))) l')))
    by (apply Permutation_map, filter_perm, Hp).
  now rewrite (forallb_perm is_num _ _ Hkeys), (forallb_perm is_str _ _ Hkeys).
Qed.

Section ShapeSteps.
Context {rt : Runtime}.

Lemma shape_point_schema (df df' : DataFrame) (row : Row) :
  schema df = schema df' -> shape_point df row = shape_point df' row.
Proof.
  intros H. unfold shape_point, row_get, row_series, columns. now rewrite H.
Qed.

(** With a shapes table, the shape is made of the points of the first
    trip's shape id, sorted by sequence number. *)
Lemma shape_points_of_sorted (fs : FileSystem) (fp : string)
  (route_trips shapes_df : DataFrame) (first : Row) (rest : list Row)
  (shape_id : Value) (i : nat) :
  rows route_trips = first :: rest ->
  path_exists fs (path_join fp "shapes.txt") = true ->
  read_csv fs (path_join fp "shapes.txt") = inr shapes_df ->
  row_get route_trips first "shape_id" = inr shape_id ->
  index_of "shape_id" (columns shapes_df) = Some i ->
  shape_points_of fs fp route_trips
  = (shape_df <-
       sort_values
         (mk_df (schema shapes_df)
            (List.filter (fun row => py_eq (cell i row) shape_id)
               (rows shapes_df)))
         "shape_pt_sequence" ;;
     mapM (shape_point shape_df) (rows shape_df)).
Proof.
  intros Hrows He Hr Hid Hi.
  assert (Hcol : has_column route_trips "shape_id" = true).
  { unfold has_column. unfold row_get in Hid.
    destruct (index_of "shape_id" (columns route_trips)); [reflexivity|].
    discriminate. }
  unfold shape_points_of. rewrite Hcol, He, Hr. unfold bind at 1.
  rewrite Hrows, Hid. unfold bind at 1.
  rewrite (column_at _ _ _ Hi). unfold bind at 1.
  now rewrite select_by_cell.
Qed.

Lemma shape_points_of_ordered (fs : FileSystem) (fp : string)
  (route_trips shapes_df : DataFrame) (first : Row) (rest : list Row)
  (shape_id : Value) (i k : nat) :
  rows route_trips = first :: rest ->
  path_exists fs (path_join fp "shapes.txt") = true ->
  read_csv fs (path_join fp "shapes.txt") = inr shapes_df ->
  row_get route_trips first "shape_id" = inr shape_id ->
  index_of "shape_id" (columns shapes_df) = Some i ->
  index_of "shape_pt_sequence" (columns shapes_df) = Some k ->
  comparable k
    (List.filter (fun row => py_eq (cell i row) shape_id) (rows shapes_df))
  = true ->
  exists ordered,
    Permutation ordered
      (List.filter (fun row => py_eq (cell i row) shape_id) (rows shapes_df))
    /\ StronglySorted (seq_le k) ordered
    /\ shape_points_of fs fp route_trips = mapM (shape_point shapes_df) ordered.
Proof.
  intros Hrows He Hr Hid Hi Hk Hcmp.
  destruct (sort_values_ordered
              (mk_df (schema shapes_df)
                 (List.filter (fun row => py_eq (cell i row) shape_id)
                    (rows shapes_df)))
              "shape_pt_sequence" k Hk Hcmp)
    as (ordered & Hsort & Hperm & Hsorted).
  exists ordered. split; [exact Hperm|]. split; [exact Hsorted|].
  rewrite (shape_points_of_sorted fs fp route_trips shapes_df first rest
             shape_id i Hrows He Hr Hid Hi), Hsort.
  reflexivity.
Qed.

End ShapeSteps.

Section Shape.
Context {rt : Runtime}.
Variable fs : FileSystem.

(** C8. The shape is built from the shape id of the first remaining
    trip.  Without a shapes table, or when no point of the table has that
    id, the shape is empty and the step does not fail.  Otherwise the
    points of that id are emitted in ascending order of their sequence
    number (those without one last); when the sequence numbers differ,
    this order is the only sorted arrangement of these points, and a
    shapes file with the same rows in another order gives the same
    shape. *)
Theorem shape_of_first_trip (fp : string) (route_trips : DataFrame)
  (first : Row) (rest : list Row) :
  rows route_trips = first :: rest ->
  (path_exists fs (path_join fp "shapes.txt") = false ->
   shape_points_of fs fp route_trips = inr [])
  /\ (has_column route_trips "shape_id" = false ->
      shape_points_of fs fp route_trips = inr [])
  /\ (forall shapes_df shape_id i k,
       path_exists fs (path_join fp "shapes.txt") = true ->
       read_csv fs (path_join fp "shapes.txt") = inr shapes_df ->
       row_get route_trips first "shape_id" = inr shape_id ->
       index_of "shape_id" (columns shapes_df) = Some i ->
       index_of "shape_pt_sequence" (columns shapes_df) = Some k ->
       let points :=
         List.filter (fun row => py_eq (cell i row) shape_id) (rows shapes_df) in
       (points = [] -> shape_points_of fs fp route_trips = inr [])
       /\ (comparable k points = true ->
           exists ordered,
             Permutation ordered points
             /\ StronglySorted (seq_le k) ordered
             /\ shape_points_of fs fp route_trips
                = mapM (shape_point shapes_df) ordered
             /\ ((forall row, In row points ->
                    exists point, shape_point shapes_df row = inr point) ->
                 exists shape,
                   shape_points_of fs fp route_trips = inr shape
                   /\ Forall2
                        (fun row point => shape_point shapes_df row = inr point)
                        ordered shape)
             /\ ((forall a b, In a points -> In b points ->
                    seq_le k a b -> seq_le k b a -> a = b) ->
                 (forall ordered',
                    Permutation ordered' points ->
                    StronglySorted (seq_le k) ordered' ->
                    ordered' = ordered)
                 /\ forall (fs' : FileSystem) shapes_df',
                      path_exists fs' (path_join fp "shapes.txt") = true ->
                      read_csv fs' (path_join fp "shapes.txt") = inr shapes_df' ->
                      schema shapes_df' = schema shapes_df ->
                      Permutation (rows shapes_df') (rows shapes_df) ->
                      shape_points_of fs' fp route_trips
                      = shape_points_of fs fp route_trips)))
  /\ forall R ST S r route shape stops,
       assemble fs fp R ST S r route_trips = inr (Details route shape stops) ->
       shape_points_of fs fp route_trips = inr shape.
Proof.
  intros Hrows.
  assert (Hlink : forall R ST S r route shape stops,
             assemble fs fp R ST S r route_trips
             = inr (Details route shape stops) ->
             shape_points_of fs fp route_trips = inr shape).
  { intros R ST S r route shape stops. unfold assemble.
    destruct (merge_inner route_trips ST "trip_id"); [discriminate|].
    unfold bind at 1.
    destruct (shape_points_of fs fp route_trips); [discriminate|].
    unfold bind at 1.
    destruct (stops_list_of _ S); [discriminate|]. unfold bind at 1.
    destruct (route_info_of R r); [discriminate|]. unfold bind, ret.
    now intros [= _ <- _]. }
  split; [|split; [|split; [|exact Hlink]]].
  - intros Hno. unfold shape_points_of. rewrite Hno.
    now destruct (has_column route_trips "shape_id").
  - intros Hno. unfold shape_points_of. now rewrite Hno.
  - intros shapes_df shape_id i k He Hr Hid Hi Hk points. split.
    + intros Hnil.
      rewrite (shape_points_of_sorted fs fp route_trips shapes_df first rest
                 shape_id i Hrows He Hr Hid Hi).
      fold points. rewrite Hnil. unfold sort_values.
      change (columns (mk_df (schema shapes_df) [])) with (columns shapes_df).
      rewrite Hk. reflexivity.
    + intros Hcmp.
      destruct (shape_points_of_ordered fs fp route_trips shapes_df first rest
                  shape_id i k Hrows He Hr Hid Hi Hk Hcmp)
        as (ordered & Hperm & Hsorted & Hout).
      fold points in Hperm.
      exists ordered. split; [exact Hperm|]. split; [exact Hsorted|].
      split; [exact Hout|]. split.
      * intros Hall. rewrite Hout. apply mapM_total.
        intros row Hrow. apply Hall. now apply (Permutation_in _ Hperm).
      * intros Hanti.
        assert (Hunique : forall ordered',
                   Permutation ordered' points ->
                   StronglySorted (seq_le k) ordered' ->
                   ordered' = ordered).
        { intros ordered' Hperm' Hsorted'.
          apply (sorted_perm_unique (seq_le k)); auto.
          - intros a b Ha Hb.
            apply Hanti; now apply (Permutation_in _ Hperm').
          - now rewrite Hperm. }
        split; [exact Hunique|].
        intros fs' shapes_df' He' Hr' Hschema Hrows'.
        assert (Hi' : index_of "shape_id" (columns shapes_df') = Some i)
          by (unfold columns; now rewrite Hschema).
        assert (Hk' : index_of "shape_pt_sequence" (columns shapes_df') = Some k)
          by (unfold columns; now rewrite Hschema).
        assert (Hpts : Permutation
                         (List.filter (fun row => py_eq (cell i row) shape_id)
                            (rows shapes_df'))
                         points)
          by (apply filter_perm, Hrows').
        destruct (shape_points_of_ordered fs' fp route_trips shapes_df' first
                    rest shape_id i k Hrows He' Hr' Hid Hi' Hk')
          as (ordered' & Hperm' & Hsorted' & Hout').
        { now rewrite (comparable_perm k _ _ Hpts). }
        rewrite Hout', Hout.
        rewrite (Hunique ordered') by (auto; now rewrite Hperm').
        apply mapM_ext_in. intros row _. now apply shape_point_schema.
Qed.

End Shape.

Lemma shape_of_first_trip_witness :
  shape_points_of (rt := example_runtime) Ex.fs_shapes Ex.folder trips_of_42
  = inr [mk_point (VFloat 1) (VFloat 1); mk_point (VFloat 2) (VFloat 2);
         mk_point (VFloat 3) (VFloat 3)]
  /\ (exists ordered,
        Permutation ordered
          [[VInt 7; VFloat 3; VFloat 3; VInt 3];
           [VInt 7; VFloat 1; VFloat 1; VInt 1];
           [VInt 7; VFloat 2; VFloat 2; VInt 2]]
        /\ StronglySorted (seq_le 3) ordered
        /\ shape_points_of (rt := example_runtime) Ex.fs_shapes Ex.folder
             trips_of_42
           = mapM (shape_point (rt := example_runtime) Ex.shapes) ordered)
  /\ shape_points_of (rt := example_runtime) Ex.fs_required Ex.folder trips_of_42
     = inr [].
Proof.
  split; [vm_compute; reflexivity|]. split.
  - destruct (shape_of_first_trip (rt := example_runtime) Ex.fs_shapes Ex.folder
                trips_of_42 [VInt 42; VStr "WK"; VStr "t1"; VInt 7]
                [[VInt 42; VStr "SA"; VStr "t2"; VInt 8]] eq_refl)
      as (_ & _ & Hshape & _).
    destruct (Hshape Ex.shapes (VInt 7) 0%nat 3%nat)
      as (_ & ordered & Hperm & Hsorted & Hout & _); try reflexivity.
    exists ordered. auto.
  - destruct (shape_of_first_trip (rt := example_runtime) Ex.fs_required
                Ex.folder trips_of_42 [VInt 42; VStr "WK"; VStr "t1"; VInt 7]
                [[VInt 42; VStr "SA"; VStr "t2"; VInt 8]] eq_refl)
      as (Hno & _).
    apply Hno. reflexivity.
Defined.

(** ** The join of trips and stop times *)

Lemma hash_eq_refl (v : Value) : hash_eq v v = true.
Proof.
  unfold hash_eq. destruct v; simpl;
    rewrite ?Z.eqb_refl, ?Qeq_bool_refl, ?String.eqb_refl; reflexivity.
Qed.

Lemma hash_eq_sym (v w : Value) : hash_eq v w = true -> hash_eq w v = true.
Proof.
  unfold hash_eq. rewrite !orb_true_iff, !andb_true_iff.
  intros [H|[H1 H2]]; [left; now apply py_eq_sym|right; auto].
Qed.

Lemma hash_eq_trans (u v w : Value) :
  hash_eq u v = true -> hash_eq v w = true -> hash_eq u w = true.
Proof.
  unfold hash_eq. rewrite !orb_true_iff, !andb_true_iff.
  intros [H1|[H1 H1']] [H2|[H2 H2']].
  - left. eapply py_eq_trans; eauto.
  - apply py_eq_sym, py_eq_not_nan in H1. congruence.
  - apply py_eq_not_nan in H2. congruence.
  - right. auto.
Qed.

Lemma isin_spec (values : list Value) (x : Value) :
  isin values x = true <-> exists y, In y values /\ hash_eq x y = true.
Proof. unfold isin. apply existsb_exists. Qed.

Lemma isin_unique_from (x : Value) (seen l : list Value) :
  isin (unique_from seen l) x || isin seen x = isin l x || isin seen x.
Proof.
  revert seen. induction l as [|y l IH]; intros seen; cbn [unique_from];
    [reflexivity|].
  change (isin (y :: l) x) with (hash_eq x y || isin l x).
  destruct (isin seen y) eqn:Hy.
  - rewrite IH. destruct (hash_eq x y) eqn:Hxy; cbn [orb]; [|reflexivity].
    apply isin_spec in Hy as (s & Hs & Hys).
    assert (Hx : isin seen x = true).
    { apply isin_spec. exists s. split; [exact Hs|].
      eapply hash_eq_trans; eauto. }
    now rewrite Hx, orb_true_r.
  - change (isin (y :: unique_from (y :: seen) l) x)
      with (hash_eq x y || isin (unique_from (y :: seen) l) x).
    specialize (IH (y :: seen)).
    change (isin (y :: seen) x) with (hash_eq x y || isin seen x) in IH.
    destruct (hash_eq x y); cbn [orb] in *; [reflexivity|exact IH].
Qed.

Lemma isin_unique (x : Value) (l : list Value) :
  isin (unique l) x = isin l x.
Proof.
  unfold unique. generalize (isin_unique_from x [] l).
  change (isin [] x) with false. now rewrite !orb_false_r.
Qed.

Lemma index_of_lt (c : string) (l : list string) (i : nat) :
  index_of c l = Some i -> (i < length l)%nat.
Proof.
  revert i. induction l as [|x l IH]; simpl; intros i; [discriminate|].
  destruct (String.eqb c x).
  - intros [= <-]. lia.
  - destruct (index_of c l) as [j|]; [|discriminate].
    intros [= <-]. specialize (IH j eq_refl). lia.
Qed.

Lemma index_of_app (c : string) (l1 l2 : list string) :
  index_of c (l1 ++ l2)
  = match index_of c l1 with
    | Some i => Some i
    | None => option_map (fun j => (length l1 + j)%nat) (index_of c l2)
    end.
Proof.
  induction l1 as [|x l1 IH]; simpl.
  - now destruct (index_of c l2).
  - destruct (String.eqb c x); [reflexivity|]. rewrite IH.
    destruct (index_of c l1); [reflexivity|].
    now destruct (index_of c l2).
Qed.

Lemma index_of_none (c : string) (l : list string) :
  (forall x, In x l -> x <> c) -> index_of c l = None.
Proof.
  induction l as [|x l IH]; intros H; simpl; [reflexivity|].
  destruct (String.eqb_spec c x) as [->|Hne].
  - now destruct (H x (or_introl eq_refl)).
  - rewrite IH; [reflexivity|]. intros y Hy. apply H. now right.
Qed.

Lemma index_of_map_fst {B} (f : string * B -> string * B) (c : string)
  (l : list (string * B)) :
  (forall col, In col l -> (fst (f col) = c <-> fst col = c)) ->
  index_of c (map fst (map f l)) = index_of c (map fst l).
Proof.
  induction l as [|col l IH]; intros H; simpl; [reflexivity|].
  rewrite IH by (intros x Hx; apply H; now right).
  destruct (String.eqb_spec c (fst (f col))) as [Heq|Hne];
    destruct (String.eqb_spec c (fst col)) as [Heq'|Hne']; try reflexivity.
  - symmetry in Heq. apply (H col (or_introl eq_refl)) in Heq. congruence.
  - symmetry in Heq'. apply (H col (or_introl eq_refl)) in Heq'. congruence.
Qed.

Lemma not_suffixed_stop_id (c suffix : string) :
  suffix = "_x" \/ suffix = "_y" -> (c ++ suffix)%string <> "stop_id".
Proof.
  intros Hs H.
  do 8 (destruct c as [|? c]; simpl in H;
        [destruct Hs as [-> | ->]; discriminate|];
        try discriminate; injection H as _ H).
Qed.

Lemma cell_pad (n i : nat) (r : Row) : (i < n)%nat -> cell i (pad n r) = cell i r.
Proof.
  intros Hi. unfold pad, cell.
  rewrite (nth_indep _ VNaN (nth 0 r VNaN)) by (now rewrite length_map, length_seq).
  rewrite (map_nth (fun i => nth i r VNaN)), seq_nth by exact Hi.
  reflexivity.
Qed.

Lemma length_pad (n : nat) (r : Row) : length (pad n r) = n.
Proof. unfold pad. now rewrite length_map, length_seq. Qed.

Lemma cell_after_pad (n j : nat) (l : Row) (tail : Row) :
  cell (n + j) (pad n l ++ tail) = cell j tail.
Proof.
  unfold cell. rewrite app_nth2 by (rewrite length_pad; lia).
  rewrite length_pad. f_equal. lia.
Qed.

(** Dropping the key column moves the other columns of the schema and
    the cells of a row alike. *)
Lemma index_of_drop_nth (c key : string) (names : list string) (i ri : nat) :
  index_of c names = Some i ->
  index_of key names = Some ri ->
  c <> key ->
  exists j,
    index_of c (drop_nth ri names) = Some j
    /\ forall row : Row, cell j (drop_nth ri row) = cell i row.
Proof.
  revert i ri. induction names as [|x names IH]; simpl; intros i ri;
    [discriminate|].
  destruct (String.eqb_spec c x) as [->|Hcx];
    destruct (String.eqb_spec key x) as [Hkx|Hkx].
  - congruence.
  - intros [= <-] Hri Hne.
    destruct (index_of key names) as [r|]; [|discriminate].
    injection Hri as <-. exists 0%nat. simpl. rewrite String.eqb_refl.
    split; [reflexivity|]. intros [|v row]; reflexivity.
  - intros Hi [= <-] Hne.
    destruct (index_of c names) as [i'|] eqn:Hi'; [|discriminate].
    injection Hi as <-. exists i'. simpl. split; [exact Hi'|].
    intros [|v row]; [now destruct i'|reflexivity].
  - intros Hi Hri Hne.
    destruct (index_of c names) as [i'|] eqn:Hi'; [|discriminate].
    destruct (index_of key names) as [r|] eqn:Hr; [|discriminate].
    injection Hi as <-. injection Hri as <-.
    destruct (IH i' r eq_refl eq_refl Hne) as (j & Hj & Hcell).
    exists (S j). simpl.
    destruct (String.eqb_spec c x) as [|_]; [congruence|].
    rewrite Hj. split; [reflexivity|].
    intros [|v row]; [|apply Hcell].
    specialize (Hcell []). unfold cell in *. simpl in *.
    now destruct j, i'.
Qed.

Lemma mem_string_index (c : string) (l : list string) (i : nat) :
  index_of c l = Some i -> mem_string c l = true.
Proof.
  revert i. induction l as [|x l IH]; simpl; intros i; [discriminate|].
  destruct (String.eqb c x); [reflexivity|].
  destruct (index_of c l) as [j|]; [|discriminate]. intros _. now apply (IH j).
Qed.

Lemma map_drop_nth {A B} (f : A -> B) (i : nat) (l : list A) :
  map f (drop_nth i l) = drop_nth i (map f l).
Proof.
  revert i. induction l as [|a l IH]; intros [|i]; simpl; try reflexivity.
  now rewrite IH.
Qed.

Lemma map_flat_map {A B C} (f : B -> C) (g : A -> list B) (l : list A) :
  map f (flat_map g l) = flat_map (fun a => map f (g a)) l.
Proof.
  induction l as [|a l IH]; simpl; [reflexivity|].
  now rewrite map_app, IH.
Qed.

Section Join.
Context {rt : Runtime}.

(** The stop ids of the joined frame are those of the stop-time rows
    that have the trip id of a trip, trip after trip. *)
Lemma merge_inner_stop_ids (left right merged : DataFrame) (tl tr sr : nat)
  (ids : list Value) :
  index_of "trip_id" (columns left) = Some tl ->
  index_of "trip_id" (columns right) = Some tr ->
  index_of "stop_id" (columns right) = Some sr ->
  merge_inner left right "trip_id" = inr merged ->
  column merged "stop_id" = inr ids ->
  ids = flat_map
          (fun trip =>
             map (cell sr)
               (List.filter (fun st => hash_eq (cell tl trip) (cell tr st))
                  (rows right)))
          (rows left).
Proof.
  intros Htl Htr Hsr. unfold merge_inner. rewrite Htl, Htr.
  destruct (merge_keys_ok _ _); [|discriminate]. intros [= <-].
  unfold column, columns at 1. cbn [schema rows]. unfold merged_schema.
  fold (columns left) (columns right). rewrite Htr.
  rewrite map_app, index_of_app.
  assert (Hleft : index_of "stop_id"
                    (map fst (map (suffix_x "trip_id" (columns right))
                                (schema left))) = None).
  { apply index_of_none. intros x Hx.
    apply in_map_iff in Hx as (col' & <- & Hx).
    apply in_map_iff in Hx as (col & <- & Hcol).
    unfold suffix_x.
    destruct (negb (String.eqb (fst col) "trip_id")
              && mem_string (fst col) (columns right)) eqn:Hren; cbn [fst].
    - apply not_suffixed_stop_id. now left.
    - intros Heq. rewrite Heq in Hren.
      now rewrite (mem_string_index _ _ _ Hsr) in Hren. }
  rewrite Hleft.
  destruct (index_of_drop_nth "stop_id" "trip_id" (columns right) sr tr Hsr Htr)
    as (j & Hj & Hcell); [discriminate|].
  destruct (mem_string "stop_id" (columns left)) eqn:Hmem.
  - rewrite index_of_none; [discriminate|]. intros x Hx.
    apply in_map_iff in Hx as (col' & <- & Hx).
    apply in_map_iff in Hx as (col & <- & Hcol).
    unfold suffix_y.
    destruct (mem_string (fst col) (columns left)) eqn:Hren; cbn [fst].
    + apply not_suffixed_stop_id. now right.
    + intros Heq. congruence.
  - rewrite index_of_map_fst.
    2:{ intros col Hcol. unfold suffix_y.
        destruct (mem_string (fst col) (columns left)) eqn:Hren; cbn [fst];
          [|tauto].
        split; [intros Heq; now apply not_suffixed_stop_id in Heq; auto|].
        intros Heq. congruence. }
    rewrite map_drop_nth. fold (columns right). rewrite Hj.
    cbn [option_map]. intros [= <-].
    rewrite !length_map, map_flat_map. apply flat_map_ext. intros trip.
    rewrite map_map. apply map_ext. intros st.
    rewrite cell_after_pad, Hcell. apply cell_pad.
    apply index_of_lt in Hsr. unfold columns in Hsr.
    now rewrite length_map in Hsr.
Qed.

End Join.

(** ** The stops *)

Section Stops.
Context {rt : Runtime}.
Variable base_dir : string.
Variable fs : FileSystem.

Lemma stop_record_schema (df df' : DataFrame) (stop : Row) :
  schema df = schema df' -> stop_record df stop = stop_record df' stop.
Proof.
  intros H. unfold stop_record, row_get, row_series, columns. now rewrite H.
Qed.

(** The stops of an assembled result: the rows of the stops table, in
    their order, whose stop id is the stop id of a stop-time row of one of
    the trips. *)
Lemma assemble_stops fp R ST S r remaining route shape stops sr :
  assemble fs fp R ST S r remaining = inr (Details route shape stops) ->
  index_of "stop_id" (columns ST) = Some sr ->
  exists tl tr ss,
    index_of "trip_id" (columns remaining) = Some tl
    /\ index_of "trip_id" (columns ST) = Some tr
    /\ index_of "stop_id" (columns S) = Some ss
    /\ exists keep : Row -> bool,
         (forall stop,
            keep stop = true
            <-> exists trip st,
                  In trip (rows remaining) /\ In st (rows ST)
                  /\ hash_eq (cell tl trip) (cell tr st) = true
                  /\ hash_eq (cell ss stop) (cell sr st) = true)
         /\ Forall2 (fun stop record => stop_record S stop = inr record)
              (List.filter keep (rows S)) stops.
Proof.
  unfold assemble. intros H Hsr.
  destruct (merge_inner remaining ST "trip_id") as [e|trip_stops] eqn:Hmerge;
    [discriminate|]. unfold bind at 1 in H.
  destruct (shape_points_of fs fp remaining) as [e|pts]; [discriminate|].
  unfold bind at 1 in H.
  destruct (stops_list_of trip_stops S) as [e|stops_list] eqn:Hstops;
    [discriminate|]. unfold bind at 1 in H.
  destruct (route_info_of R r) as [e|info]; [discriminate|].
  unfold bind, ret in H. injection H as <- <- <-.
  assert (Hidx : exists tl tr,
             index_of "trip_id" (columns remaining) = Some tl
             /\ index_of "trip_id" (columns ST) = Some tr).
  { unfold merge_inner in Hmerge.
    destruct (index_of "trip_id" (columns remaining)) as [tl|]; [|discriminate].
    destruct (index_of "trip_id" (columns ST)) as [tr|]; [|discriminate].
    eauto. }
  destruct Hidx as (tl & tr & Htl & Htr).
  unfold stops_list_of in Hstops.
  destruct (column trip_stops "stop_id") as [e|ids] eqn:Hids; [discriminate|].
  unfold bind at 1 in Hstops.
  destruct (index_of "stop_id" (columns S)) as [ss|] eqn:Hss.
  2:{ rewrite (column_missing _ _ Hss) in Hstops. discriminate. }
  rewrite (column_at _ _ _ Hss) in Hstops. unfold bind at 1 in Hstops.
  rewrite select_by_cell in Hstops. cbn [rows] in Hstops.
  exists tl, tr, ss. do 3 (split; [assumption||reflexivity|]).
  exists (fun stop => isin (unique ids) (cell ss stop)). split.
  - intros stop. rewrite isin_unique, isin_spec.
    rewrite (merge_inner_stop_ids remaining ST trip_stops tl tr sr ids
               Htl Htr Hsr Hmerge Hids).
    split.
    + intros (y & Hy & Hxy).
      apply in_flat_map in Hy as (trip & Htrip & Hy).
      apply in_map_iff in Hy as (st & <- & Hst).
      apply filter_In in Hst as [Hst Hkey]. eauto 10.
    + intros (trip & st & Htrip & Hst & Hkey & Hstop).
      exists (cell sr st). split; [|exact Hstop].
      apply in_flat_map. exists trip. split; [exact Htrip|].
      apply in_map. apply filter_In. auto.
  - apply mapM_inr in Hstops.
    eapply Forall2_impl; [exact Hstops|].
    intros stop record <-. now apply stop_record_schema.
Qed.

(** C10. In a successful result, the stops are the rows of the stops
    table whose stop id occurs in a stop-time row of a remaining trip,
    one record for each such row and in the order of the stops table. *)
Theorem stops_of_remaining_trips f r d route shape stops :
  get_route_details base_dir fs f r d = Details route shape stops ->
  exists fp dt R T ST S trips s0 s remaining,
    loaded base_dir fs f d fp dt R T ST S
    /\ filter_route T r = inr trips
    /\ calendar_service_ids fs fp dt = inr s0
    /\ calendar_dates_service_ids fs fp dt s0 = inr s
    /\ service_filter s trips = inr remaining
    /\ rows remaining <> []
    /\ forall sr,
         index_of "stop_id" (columns ST) = Some sr ->
         exists tl tr ss,
           index_of "trip_id" (columns remaining) = Some tl
           /\ index_of "trip_id" (columns ST) = Some tr
           /\ index_of "stop_id" (columns S) = Some ss
           /\ exists keep : Row -> bool,
                (forall stop,
                   keep stop = true
                   <-> exists trip st,
                         In trip (rows remaining) /\ In st (rows ST)
                         /\ hash_eq (cell tl trip) (cell tr st) = true
                         /\ hash_eq (cell ss stop) (cell sr st) = true)
                /\ Forall2 (fun stop record => stop_record S stop = inr record)
                     (List.filter keep (rows S)) stops
                /\ length stops = length (List.filter keep (rows S))
                /\ (length stops <= length (rows S))%nat.
Proof.
  intros H.
  destruct (get_route_details_inv _ _ _ _ _ _ H)
    as [[e He]|[He|[[file He]|(fp & dt & R & T & ST & S & Hl & Hd)]]];
    try discriminate.
  destruct (details_of_tables_inv _ _ _ _ _ _ _ _ _ _ Hd)
    as (trips & Hf & [[Hn Hp]|(Hn & s0 & s & rem & H0 & H1 & H2 & Hrest)]);
    [discriminate|].
  destruct Hrest as [[Hr Hp]|[Hr Ha]]; [discriminate|].
  exists fp, dt, R, T, ST, S, trips, s0, s, rem.
  do 6 (split; [assumption|]).
  intros sr Hsr.
  destruct (assemble_stops _ _ _ _ _ _ _ _ _ _ Ha Hsr)
    as (tl & tr & ss & Htl & Htr & Hss & keep & Hkeep & Hall).
  exists tl, tr, ss. do 3 (split; [assumption|]).
  exists keep. split; [exact Hkeep|]. split; [exact Hall|].
  assert (Hlen : length stops = length (List.filter keep (rows S)))
    by (symmetry; eapply List.Forall2_length; exact Hall).
  split; [exact Hlen|]. rewrite Hlen. apply filter_length_le.
Qed.

End Stops.

Lemma stops_of_remaining_trips_witness :
  exists keep : Row -> bool,
    Forall2
      (fun stop record =>
         stop_record (rt := example_runtime) Ex.stops stop = inr record)
      (List.filter keep (rows Ex.stops))
      [mk_stop "1" "A" (VFloat 10) (VFloat 20);
       mk_stop "2" "" (VFloat 11) (VFloat 21)].
Proof.
  destruct (stops_of_remaining_trips (rt := example_runtime) "./data"
              Ex.fs_required Ex.id "42" Ex.saturday []
              []
              [mk_stop "1" "A" (VFloat 10) (VFloat 20);
               mk_stop "2" "" (VFloat 11) (VFloat 21)])
    as (fp & dt & R & T & ST & S & trips & s0 & s & remaining
        & Hl & _ & _ & _ & _ & _ & Hstops).
  - vm_compute. reflexivity.
  - assert (Hex : loaded (rt := example_runtime) "./data" Ex.fs_required Ex.id
                    Ex.saturday Ex.folder saturday_15_june Ex.routes Ex.trips
                    Ex.stop_times Ex.stops)
      by (apply loaded_example; reflexivity).
    destruct (loaded_unique (rt := example_runtime) _ _ _ _ _ _ _ _ _ _ _ _ _
                _ _ _ Hl Hex) as (_ & _ & _ & _ & -> & ->).
    destruct (Hstops 1%nat eq_refl)
      as (tl & tr & ss & _ & _ & _ & keep & _ & Hall & _).
    exists keep. exact Hall.
Defined.

(** * Further properties of the code *)

(** ** Paths *)

Lemma string_app_assoc (a b c : string) :
  ((a ++ b) ++ c = a ++ (b ++ c))%string.
Proof.
  induction a as [|x a IH]; [reflexivity|].
  change (String x ((a ++ b) ++ c) = String x (a ++ (b ++ c)))%string.
  now rewrite IH.
Qed.

Lemma split_slash_app (a b : string) :
  split_slash (a ++ String "/" b) = split_slash a ++ split_slash b.
Proof.
  induction a as [|c r IH]; [reflexivity|].
  change ((String c r ++ String "/" b)%string)
    with (String c (r ++ String "/" b)%string).
  cbn [split_slash]. rewrite IH.
  destruct (Ascii.eqb c "/"); [reflexivity|].
  pose proof (split_slash_not_nil r) as Hne.
  destruct (split_slash r) as [|p ps]; [congruence|reflexivity].
Qed.

Lemma slash_free_split (s : string) :
  slash_free s = true -> split_slash s = [s].
Proof.
  unfold slash_free. intros H. pose proof (join_split_slash s) as J.
  destruct (split_slash s) as [|x [|y l]]; try discriminate.
  unfold join_slash in J. simpl in J. now subst.
Qed.

Lemma ends_with_slash_app (a : string) :
  ends_with_slash a = true -> exists a', a = (a' ++ "/")%string.
Proof.
  induction a as [|c r IH]; [discriminate|].
  destruct r as [|c' r'].
  - simpl. intros H. apply Ascii.eqb_eq in H as ->. now exists "".
  - intros H. destruct IH as [a' Ha']; [exact H|].
    exists (String c a').
    change ((String c a' ++ "/")%string) with (String c (a' ++ "/")%string).
    now rewrite <- Ha'.
Qed.

(** [os.path.join(a, b)] for a name [b]. *)
Lemma path_join_name (a b : string) :
  slash_free b = true ->
  path_join a b
  = match a with
    | EmptyString => b
    | _ => if ends_with_slash a then (a ++ b)%string
           else (a ++ String "/" b)%string
    end.
Proof.
  intros Hb. unfold path_join. destruct b as [|c b']; [reflexivity|].
  destruct (Ascii.eqb_spec c "/") as [->|Hc].
  - apply slash_free_split in Hb. simpl in Hb. discriminate.
  - destruct c as [[] [] [] [] [] [] [] []]; try reflexivity.
    now contradict Hc.
Qed.

(** The parts of [os.path.join(a, b)] for a name [b]: those of [a], a
    trailing empty part dropped, and then [b]. *)
Lemma split_path_join (a b : string) :
  slash_free b = true ->
  exists front, split_slash (path_join a b) = front ++ [b].
Proof.
  intros Hb. rewrite (path_join_name a b Hb).
  apply slash_free_split in Hb as Sb.
  destruct a as [|c r] eqn:Ea; [exists []; exact Sb|]. rewrite <- Ea.
  destruct (ends_with_slash a) eqn:Hs.
  - apply ends_with_slash_app in Hs as [a' ->].
    rewrite string_app_assoc.
    change (("/" ++ b)%string) with (String "/" b).
    rewrite split_slash_app, Sb. now exists (split_slash a').
  - rewrite split_slash_app, Sb. now exists (split_slash a).
Qed.

(** [os.path.basename] gives back the name that [os.path.join] added. *)
Lemma basename_path_join (a b : string) :
  slash_free b = true -> basename (path_join a b) = b.
Proof.
  intros Hb. unfold basename.
  destruct (split_path_join a b Hb) as [front ->]. apply List.last_last.
Qed.

Lemma is_name_slash_free (name : string) :
  is_name name = true -> slash_free name = true /\ name <> "".
Proof.
  unfold is_name. intros H. apply andb_prop in H as [H1 H2]. split; [exact H1|].
  apply negb_true_iff in H2. now apply String.eqb_neq.
Qed.

Lemma path_join_not_empty (a b : string) : a <> "" -> path_join a b <> "".
Proof.
  intros Ha. unfold path_join.
  assert (H : match a with
              | "" => b
              | String _ _ =>
                  if ends_with_slash a then (a ++ b)%string
                  else (a ++ "/" ++ b)%string
              end <> "").
  { destruct a as [|c r]; [congruence|]. destruct (ends_with_slash _);
      discriminate. }
  destruct b as [|c b']; [exact H|].
  destruct c as [[] [] [] [] [] [] [] []]; try exact H; discriminate.
Qed.

Lemma ends_with_slash_app_name (a b : string) :
  b <> "" -> ends_with_slash (a ++ b) = ends_with_slash b.
Proof.
  intros Hb. induction a as [|c r IH]; [reflexivity|].
  change ((String c r ++ b)%string) with (String c (r ++ b)%string).
  cbn [ends_with_slash]. rewrite IH.
  destruct (r ++ b)%string eqn:E; [|reflexivity].
  destruct r; [|discriminate]. simpl in E. contradiction.
Qed.

Lemma name_no_trailing_slash (name : string) :
  is_name name = true -> ends_with_slash name = false.
Proof.
  intros Hn. apply is_name_slash_free in Hn as [Hs _].
  destruct (ends_with_slash name) eqn:E; [|reflexivity].
  apply ends_with_slash_app in E as [a' ->].
  apply slash_free_split in Hs.
  change ((a' ++ "/")%string) with ((a' ++ String "/" "")%string) in Hs.
  rewrite split_slash_app in Hs.
  pose proof (split_slash_not_nil a') as Hne.
  destruct (split_slash a') as [|x l]; [congruence|].
  destruct l; discriminate.
Qed.

Lemma path_join_no_trailing_slash (a name : string) :
  is_name name = true -> ends_with_slash (path_join a name) = false.
Proof.
  intros Hn. pose proof (name_no_trailing_slash name Hn) as He.
  apply is_name_slash_free in Hn as [Hs Hne].
  rewrite (path_join_name a name Hs). destruct a as [|c r]; [exact He|].
  destruct (ends_with_slash (String c r)).
  - now rewrite ends_with_slash_app_name.
  - rewrite ends_with_slash_app_name by discriminate.
    destruct name; [congruence|exact He].
Qed.

Lemma path_join_plain (a name : string) :
  a <> "" -> ends_with_slash a = false -> slash_free name = true ->
  path_join a name = (a ++ String "/" name)%string.
Proof.
  intros Ha He Hs. rewrite (path_join_name a name Hs).
  destruct a; [congruence|]. now rewrite He.
Qed.

Lemma rstrip_slash_dir (a : string) :
  a <> "" -> ends_with_slash a = false -> rstrip_slash (a ++ "/") = a.
Proof.
  induction a as [|c r IH]; [congruence|]. intros _ He.
  change ((String c r ++ "/")%string) with (String c (r ++ "/")%string).
  cbn [rstrip_slash]. destruct r as [|c' r'].
  - change (rstrip_slash ("" ++ "/")) with "". cbn [ends_with_slash] in He.
    now rewrite He.
  - rewrite IH by (try discriminate; exact He). reflexivity.
Qed.

(** [os.path.dirname] gives back the directory that [os.path.join]
    was given. *)
Lemma dirname_path_join (a name : string) :
  a <> "" -> ends_with_slash a = false -> is_name name = true ->
  dirname (path_join a name) = a.
Proof.
  intros Ha He Hn. apply is_name_slash_free in Hn as [Hs _].
  rewrite (path_join_name a name Hs). destruct a as [|c r] eqn:Ea;
    [congruence|]. rewrite <- Ea in *. rewrite He.
  unfold dirname. rewrite split_slash_app, (slash_free_split _ Hs).
  rewrite removelast_last.
  pose proof (split_slash_not_nil a) as Hne.
  destruct (split_slash a) as [|x l] eqn:Es; [congruence|]. rewrite <- Es.
  rewrite join_split_slash, (rstrip_slash_dir a Ha He).
  subst a. reflexivity.
Qed.

Lemma path_join_inj (a n1 n2 : string) :
  a <> "" -> is_name n1 = true -> is_name n2 = true ->
  path_join a n1 = path_join a n2 -> n1 = n2.
Proof.
  intros Ha H1 H2. apply is_name_slash_free in H1 as [H1 _].
  apply is_name_slash_free in H2 as [H2 _].
  rewrite (path_join_name a n1 H1), (path_join_name a n2 H2).
  destruct a as [|c r]; [congruence|].
  destruct (ends_with_slash (String c r)); intros E; apply String.app_inj in E;
    congruence.
Qed.

Lemma path_join_name_inj (a n1 n2 : string) :
  is_name n1 = true -> is_name n2 = true ->
  path_join a n1 = path_join a n2 -> n1 = n2.
Proof.
  intros H1 H2. destruct a as [|c r] eqn:Ea.
  - apply is_name_slash_free in H1 as [H1 _].
    apply is_name_slash_free in H2 as [H2 _].
    now rewrite (path_join_name "" n1 H1), (path_join_name "" n2 H2).
  - rewrite <- Ea. apply path_join_inj; [subst a; discriminate|exact H1|exact H2].
Qed.

Lemma string_length_app (a b : string) :
  String.length (a ++ b) = (String.length a + String.length b)%nat.
Proof.
  induction a as [|c r IH]; [reflexivity|].
  change ((String c r ++ b)%string) with (String c (r ++ b)%string).
  cbn [String.length]. now rewrite IH.
Qed.

Lemma path_join_longer (a name : string) :
  is_name name = true ->
  (String.length a < String.length (path_join a name))%nat.
Proof.
  intros Hn. apply is_name_slash_free in Hn as [Hs Hne].
  rewrite (path_join_name a name Hs).
  assert (0 < String.length name)%nat by (destruct name; [congruence|cbn; lia]).
  destruct a as [|c r]; [exact H|].
  destruct (ends_with_slash (String c r)); rewrite string_length_app;
    cbn [String.length]; lia.
Qed.

Lemma split_folder_id (uuid_dir timestamp_dir : string) :
  is_name uuid_dir = true -> is_name timestamp_dir = true ->
  split_slash (uuid_dir ++ "/" ++ timestamp_dir) = [uuid_dir; timestamp_dir].
Proof.
  intros Hu Ht. apply is_name_slash_free in Hu as [Hu _].
  apply is_name_slash_free in Ht as [Ht _].
  change ((uuid_dir ++ "/" ++ timestamp_dir)%string)
    with ((uuid_dir ++ String "/" timestamp_dir)%string).
  now rewrite split_slash_app, (slash_free_split _ Hu), (slash_free_split _ Ht).
Qed.

Lemma inits_prefix {A} (l pre : list A) :
  In pre (inits l) -> exists rest, l = pre ++ rest.
Proof.
  revert pre. induction l as [|a l IH]; intros pre; [contradiction|].
  cbn [inits]. intros [<-|Hin]; [now exists l|].
  apply in_map_iff in Hin as (pre' & <- & Hin).
  destruct (IH pre' Hin) as [rest ->]. now exists rest.
Qed.

Lemma join_slash_prefix_length (pre rest : list string) :
  (String.length (join_slash pre) <= String.length (join_slash (pre ++ rest)))%nat.
Proof.
  unfold join_slash. induction pre as [|x pre IH]; [cbn; lia|].
  destruct pre as [|y pre].
  - destruct rest as [|z rest]; [reflexivity|].
    change (String.concat "/" ([x] ++ z :: rest))
      with ((x ++ "/" ++ String.concat "/" (z :: rest))%string).
    change (String.concat "/" [x]) with x.
    rewrite string_length_app. lia.
  - change (String.concat "/" ((x :: y :: pre) ++ rest))
      with ((x ++ "/" ++ String.concat "/" ((y :: pre) ++ rest))%string).
    change (String.concat "/" (x :: y :: pre))
      with ((x ++ "/" ++ String.concat "/" (y :: pre))%string).
    rewrite !string_length_app. lia.
Qed.

(** [os.makedirs(p)] goes through no path longer than [p]. *)
Lemma ancestors_length (p q : string) :
  In q (ancestors p) -> (String.length q <= String.length p)%nat.
Proof.
  unfold ancestors. intros Hq. apply filter_In in Hq as [Hq _].
  apply in_map_iff in Hq as (pre & <- & Hpre).
  apply inits_prefix in Hpre as [rest Hrest].
  rewrite <- (join_split_slash p), Hrest.
  apply join_slash_prefix_length.
Qed.

(** ** Reading, failing, keeping *)

Lemma read_csv_exists (fs : FileSystem) (p : string) (df : DataFrame) :
  read_csv fs p = inr df -> path_exists fs p = true.
Proof.
  unfold read_csv, path_exists. destruct (fs !! p) as [[|c]|]; try discriminate.
  reflexivity.
Qed.

Lemma bind_ext {A B} (m : Exc A) (k1 k2 : A -> Exc B) :
  (forall a, k1 a = k2 a) -> bind m k1 = bind m k2.
Proof. intros H. destruct m as [e|a]; [reflexivity|apply H]. Qed.

Lemma mapM_fails {A B} (f : A -> Exc B) (l : list A) (a : A) (e : exn) :
  In a l -> f a = inl e ->
  exists a' e', In a' l /\ f a' = inl e' /\ mapM f l = inl e'.
Proof.
  induction l as [|x l IH]; [contradiction|]. intros Hin Hfail. cbn [mapM].
  destruct (f x) as [ex|b] eqn:Hx.
  - exists x, ex. repeat split; [now left|exact Hx].
  - unfold bind at 1. destruct Hin as [->|Hin]; [congruence|].
    destruct (IH Hin Hfail) as (a' & e' & Hin' & Hf' & ->).
    exists a', e'. repeat split; [now right|exact Hf'].
Qed.

Lemma astype_int_error (v : Value) (e : exn) :
  astype_int v = inl e -> exists msg, e = ValueError msg.
Proof.
  destruct v as [z|q|s|]; cbn [astype_int]; try discriminate.
  - destruct (py_int s); [discriminate|]. intros [= <-]. eauto.
  - intros [= <-]. eauto.
Qed.

Lemma keeps_file (fs fs' : FileSystem) (p : string) (c : Exc DataFrame) :
  keeps fs fs' -> fs !! p = Some (File c) -> exists c', fs' !! p = Some (File c').
Proof. intros Hk Hp. specialize (Hk p). now rewrite Hp in Hk. Qed.

Lemma keeps_dir (fs fs' : FileSystem) (p : string) :
  keeps fs fs' -> fs !! p = Some Dir -> fs' !! p = Some Dir.
Proof. intros Hk Hp. specialize (Hk p). now rewrite Hp in Hk. Qed.

(** ** The order of the checks of [get_route_details] *)

Lemma valid_gtfs_iff (fs : FileSystem) (folder_path : string) :
  _is_valid_gtfs fs folder_path = true
  <-> forall file, In file required_files ->
        path_exists fs (path_join folder_path file) = true.
Proof.
  unfold _is_valid_gtfs. split.
  - intros H file Hin.
    destruct (path_exists fs (path_join folder_path file)) eqn:E; [reflexivity|].
    assert (Hx : In file
                   (List.filter
                      (fun file => negb (path_exists fs (path_join folder_path file)))
                      required_files)).
    { apply filter_In. split; [exact Hin|]. now rewrite E. }
    destruct (List.filter _ required_files); [contradiction|discriminate].
  - intros H.
    destruct (List.filter _ required_files) as [|x l] eqn:E; [reflexivity|].
    assert (Hx : In x (x :: l)) by now left.
    rewrite <- E in Hx. apply filter_In in Hx as [Hin Hx].
    rewrite (H x Hin) in Hx. discriminate.
Qed.

Section ErrorOrder.
Context {rt : Runtime}.
Variable base_dir : string.
Variable fs : FileSystem.

Lemma missing_file_reported
  (folder_id route_id date_time_str uuid_dir timestamp_dir : string)
  (date_time : datetime) (present rest : list string) (file : string) :
  split_slash folder_id = [uuid_dir; timestamp_dir] ->
  path_exists fs (path_join (path_join base_dir uuid_dir) timestamp_dir) = true ->
  strptime date_time_str = inr date_time ->
  details_files = present ++ file :: rest ->
  (forall f, In f present ->
     path_exists fs
       (path_join (path_join (path_join base_dir uuid_dir) timestamp_dir) f)
     = true) ->
  path_exists fs
    (path_join (path_join (path_join base_dir uuid_dir) timestamp_dir) file)
  = false ->
  get_route_details base_dir fs folder_id route_id date_time_str
  = RequiredFileMissing file.
Proof.
  intros Hsplit Hdir Hdate Hfiles Hpresent Hmissing.
  unfold get_route_details, route_details_body.
  rewrite Hsplit, Hdir. cbn [negb]. rewrite Hdate. unfold bind at 1.
  set (fp := path_join (path_join base_dir uuid_dir) timestamp_dir) in *.
  assert (Hname : forall f, In f details_files -> basename (path_join fp f) = f).
  { intros f Hf. apply basename_path_join.
    repeat destruct Hf as [<-|Hf]; try reflexivity. contradiction. }
  unfold details_files in Hfiles.
  destruct present as [|a [|b [|c [|d present]]]]; cbn [app] in Hfiles;
    inversion Hfiles; subst; cbn [List.find].
  - rewrite Hmissing. cbn [negb payload_of].
    rewrite Hname by (simpl; auto). reflexivity.
  - rewrite (Hpresent "routes.txt"), Hmissing by (simpl; auto). cbn [negb payload_of].
    rewrite Hname by (simpl; auto). reflexivity.
  - rewrite (Hpresent "routes.txt"), (Hpresent "trips.txt"), Hmissing by (simpl; auto).
    cbn [negb payload_of]. rewrite Hname by (simpl; auto). reflexivity.
  - rewrite (Hpresent "routes.txt"), (Hpresent "trips.txt"),
      (Hpresent "stop_times.txt"), Hmissing by (simpl; auto).
    cbn [negb payload_of]. rewrite Hname by (simpl; auto). reflexivity.
  - destruct present; discriminate.
Qed.

(** X1. When the folder exists and the date parses, the files are
    looked for in the order routes, trips, stop_times, stops: the first
    one that is missing is the one reported (whatever the later ones
    are), and it is reported under its bare name, which is what
    [os.path.basename] makes of the joined path. *)
Theorem first_missing_file_is_reported
  (folder_id route_id date_time_str uuid_dir timestamp_dir : string)
  (date_time : datetime) (present rest : list string) (file : string) :
  split_slash folder_id = [uuid_dir; timestamp_dir] ->
  path_exists fs (path_join (path_join base_dir uuid_dir) timestamp_dir) = true ->
  strptime date_time_str = inr date_time ->
  details_files = present ++ file :: rest ->
  (forall f, In f present ->
     path_exists fs
       (path_join (path_join (path_join base_dir uuid_dir) timestamp_dir) f)
     = true) ->
  path_exists fs
    (path_join (path_join (path_join base_dir uuid_dir) timestamp_dir) file)
  = false ->
  get_route_details base_dir fs folder_id route_id date_time_str
  = RequiredFileMissing file
  /\ basename
       (path_join (path_join (path_join base_dir uuid_dir) timestamp_dir) file)
     = file.
Proof.
  intros Hsplit Hdir Hdate Hfiles Hpresent Hmissing. split.
  - now apply (missing_file_reported folder_id route_id date_time_str uuid_dir
                 timestamp_dir date_time present rest file).
  - apply basename_path_join.
    assert (Hin : In file details_files) by (rewrite Hfiles; apply in_elt).
    repeat destruct Hin as [<-|Hin]; try reflexivity. contradiction.
Qed.

(** X2. A date that does not parse is reported before any file is
    looked for, and after the folder: the answer is the error of the
    parser when the folder exists, and "Folder not found" when it does
    not. *)
Theorem bad_date_is_reported_after_the_folder
  (folder_id route_id date_time_str uuid_dir timestamp_dir : string) (e : exn) :
  split_slash folder_id = [uuid_dir; timestamp_dir] ->
  strptime date_time_str = inl e ->
  get_route_details base_dir fs folder_id route_id date_time_str
  = if path_exists fs (path_join (path_join base_dir uuid_dir) timestamp_dir)
    then Failed e else FolderNotFound.
Proof.
  intros Hsplit Hdate. unfold get_route_details, route_details_body.
  rewrite Hsplit.
  destruct (path_exists fs _); cbn [negb]; [|reflexivity].
  now rewrite Hdate.
Qed.

(** Once the tables are read, neither the folder nor a file is reported
    missing any more. *)
Lemma details_of_tables_found fp dt R T ST S r d :
  forall file,
    payload_of (details_of_tables fs fp dt R T ST S r d) <> FolderNotFound
    /\ payload_of (details_of_tables fs fp dt R T ST S r d)
       <> RequiredFileMissing file.
Proof.
  intros file.
  destruct (details_of_tables fs fp dt R T ST S r d) as [e|p] eqn:H;
    [split; discriminate|].
  apply details_of_tables_inv in H
    as (trips & _ & [[_ ->]|(_ & s0 & s & rem & _ & _ & _ & [[_ ->]|[_ H]])]);
    try (split; discriminate).
  apply assemble_inv in H as (route & shape & stops & ->). split; discriminate.
Qed.

Lemma body_all_present f r d u t :
  split_slash f = [u; t] ->
  path_exists fs (path_join (path_join base_dir u) t) = true ->
  (forall file, In file details_files ->
     path_exists fs (path_join (path_join (path_join base_dir u) t) file) = true) ->
  forall file,
    get_route_details base_dir fs f r d <> FolderNotFound
    /\ get_route_details base_dir fs f r d <> RequiredFileMissing file.
Proof.
  intros Hsplit Hdir Hall file.
  unfold get_route_details, route_details_body.
  rewrite Hsplit, Hdir. cbn [negb].
  destruct (strptime d) as [e|dt]; [split; discriminate|]. unfold bind at 1.
  cbn [List.find].
  rewrite !Hall by (simpl; auto 6). cbn [negb].
  set (fp := path_join (path_join base_dir u) t).
  destruct (read_csv fs (path_join fp "routes.txt")) as [e|R];
    [split; discriminate|]. unfold bind at 1.
  destruct (read_csv fs (path_join fp "trips.txt")) as [e|T];
    [split; discriminate|]. unfold bind at 1.
  destruct (read_csv fs (path_join fp "stop_times.txt")) as [e|ST];
    [split; discriminate|]. unfold bind at 1.
  destruct (read_csv fs (path_join fp "stops.txt")) as [e|S];
    [split; discriminate|]. unfold bind at 1.
  apply details_of_tables_found.
Qed.

(** X3. The check of [_is_valid_gtfs] and the loop of [get_route_details]
    agree, although they go through the files in different orders: a
    request on an existing folder is answered with a missing file exactly
    when the folder is not valid. *)
Theorem invalid_folder_iff_missing_file
  (folder_id route_id date_time_str uuid_dir timestamp_dir : string)
  (date_time : datetime) :
  split_slash folder_id = [uuid_dir; timestamp_dir] ->
  path_exists fs (path_join (path_join base_dir uuid_dir) timestamp_dir) = true ->
  strptime date_time_str = inr date_time ->
  (_is_valid_gtfs fs (path_join (path_join base_dir uuid_dir) timestamp_dir)
   = false
   <-> exists file,
         In file required_files
         /\ get_route_details base_dir fs folder_id route_id date_time_str
            = RequiredFileMissing file).
Proof.
  intros Hsplit Hdir Hdate.
  set (fp := path_join (path_join base_dir uuid_dir) timestamp_dir) in *.
  destruct (_is_valid_gtfs fs fp) eqn:Hvalid.
  - split; [discriminate|]. intros (file & _ & H). exfalso.
    rewrite valid_gtfs_iff in Hvalid.
    destruct (body_all_present folder_id route_id date_time_str uuid_dir
                timestamp_dir Hsplit Hdir) with (file := file)
      as [_ Hno]; [|contradiction].
    intros f Hf. apply Hvalid. simpl in Hf |- *. tauto.
  - split; [intros _|reflexivity].
    assert (Hmiss : exists present file rest,
               details_files = present ++ file :: rest
               /\ (forall f, In f present ->
                     path_exists fs (path_join fp f) = true)
               /\ path_exists fs (path_join fp file) = false).
    { destruct (path_exists fs (path_join fp "routes.txt")) eqn:H1.
      2:{ exists [], "routes.txt", ["trips.txt"; "stop_times.txt"; "stops.txt"].
          repeat split; [contradiction|exact H1]. }
      destruct (path_exists fs (path_join fp "trips.txt")) eqn:H2.
      2:{ exists ["routes.txt"], "trips.txt", ["stop_times.txt"; "stops.txt"].
          repeat split; [|exact H2]. intros f [<-|[]]. exact H1. }
      destruct (path_exists fs (path_join fp "stop_times.txt")) eqn:H3.
      2:{ exists ["routes.txt"; "trips.txt"], "stop_times.txt", ["stops.txt"].
          repeat split; [|exact H3]. intros f [<-|[<-|[]]]; assumption. }
      destruct (path_exists fs (path_join fp "stops.txt")) eqn:H4.
      2:{ exists ["routes.txt"; "trips.txt"; "stop_times.txt"], "stops.txt", [].
          repeat split; [|exact H4]. intros f [<-|[<-|[<-|[]]]]; assumption. }
      exfalso. assert (Hv : _is_valid_gtfs fs fp = true); [|congruence].
      apply valid_gtfs_iff. intros f [<-|[<-|[<-|[<-|[]]]]]; assumption. }
    destruct Hmiss as (present & file & rest & Hfiles & Hpresent & Hmissing).
    exists file. split.
    + assert (Hin : In file details_files)
        by (rewrite Hfiles; apply in_elt).
      simpl in Hin |- *. tauto.
    + now apply (missing_file_reported folder_id route_id date_time_str
                   uuid_dir timestamp_dir date_time present rest file).
Qed.

End ErrorOrder.

Lemma first_missing_file_is_reported_witness :
  get_route_details (rt := example_runtime) "./data"
    (delete "./data/u/20240101120000/stop_times.txt" Ex.fs_required)
    Ex.id "42" Ex.saturday
  = RequiredFileMissing "stop_times.txt".
Proof.
  apply (first_missing_file_is_reported (rt := example_runtime) "./data"
           (delete "./data/u/20240101120000/stop_times.txt" Ex.fs_required)
           Ex.id "42" Ex.saturday "u" "20240101120000" saturday_15_june
           ["routes.txt"; "trips.txt"] ["stops.txt"] "stop_times.txt").
  - reflexivity.
  - vm_compute. reflexivity.
  - reflexivity.
  - reflexivity.
  - intros f [<-|[<-|[]]]; vm_compute; reflexivity.
  - vm_compute. reflexivity.
Defined.

Lemma bad_date_is_reported_after_the_folder_witness :
  get_route_details (rt := example_runtime) "./data" Ex.fs_no_routes Ex.id "42"
    "15/06/2024"
  = Failed (ValueError "time data does not match format")
  /\ get_route_details (rt := example_runtime) "./data" Ex.fs_no_routes
       "u/absent" "42" "15/06/2024"
     = FolderNotFound.
Proof.
  split.
  - apply (bad_date_is_reported_after_the_folder (rt := example_runtime)
             "./data" Ex.fs_no_routes Ex.id "42" "15/06/2024" "u"
             "20240101120000"
             (ValueError "time data does not match format"));
      reflexivity.
  - apply (bad_date_is_reported_after_the_folder (rt := example_runtime)
             "./data" Ex.fs_no_routes "u/absent" "42" "15/06/2024" "u"
             "absent" (ValueError "time data does not match format"));
      reflexivity.
Defined.

Lemma invalid_folder_iff_missing_file_witness :
  _is_valid_gtfs Ex.fs_no_routes Ex.folder = false
  /\ exists file,
       In file required_files
       /\ get_route_details (rt := example_runtime) "./data" Ex.fs_no_routes
            Ex.id "42" Ex.saturday
          = RequiredFileMissing file.
Proof.
  split; [reflexivity|].
  apply (invalid_folder_iff_missing_file (rt := example_runtime) "./data"
           Ex.fs_no_routes Ex.id "42" Ex.saturday "u" "20240101120000"
           saturday_15_june); reflexivity.
Defined.

(** ** Calendars that are not complete *)

Section IncompleteCalendar.
Context {rt : Runtime}.
Variable fs : FileSystem.

(** X4. A calendar without the column of the weekday of the date is
    not filtered by weekday: every service whose window contains the date
    is active, whatever the weekday. *)
Theorem calendar_without_the_weekday_column (folder_path : string)
  (date_time : datetime) (calendar_df : DataFrame) (i j m : nat)
  (starts ends : list Z) :
  read_csv fs (path_join folder_path "calendar.txt") = inr calendar_df ->
  index_of "start_date" (columns calendar_df) = Some i ->
  mapM astype_int (map (cell i) (rows calendar_df)) = inr starts ->
  index_of "end_date" (columns calendar_df) = Some j ->
  mapM astype_int (map (cell j) (rows calendar_df)) = inr ends ->
  index_of "service_id" (columns calendar_df) = Some m ->
  has_column calendar_df (weekday_mapping (weekday date_time)) = false ->
  calendar_service_ids fs folder_path date_time
  = inr match
          List.filter (in_window i j (service_date_int date_time))
            (rows calendar_df)
        with
        | [] => None
        | valid => Some (unique (map (cell m) valid))
        end.
Proof.
  intros Hr Hi Hs Hj Hen Hm Hw.
  unfold calendar_service_ids.
  rewrite (read_csv_exists _ _ _ Hr), Hr. unfold bind at 1.
  rewrite (column_at _ _ _ Hi). unfold bind at 1. rewrite Hs. unfold bind at 1.
  rewrite (column_at _ _ _ Hj). unfold bind at 1. rewrite Hen. unfold bind at 1.
  rewrite Hw. unfold bind at 1, ret at 1.
  rewrite (window_mask i j _ _ _ _ Hs Hen), select_mask.
  unfold is_empty. cbn [rows].
  destruct (List.filter _ (rows calendar_df)) as [|r valid] eqn:Hf;
    [reflexivity|]. cbn [negb].
  rewrite (column_at (mk_df (schema calendar_df) (r :: valid)) _ m)
    by exact Hm.
  reflexivity.
Qed.

Lemma unreadable_start_date_raises (folder_path : string)
  (date_time : datetime) (calendar_df : DataFrame) (i : nat) (entry : Row)
  (e : exn) :
  read_csv fs (path_join folder_path "calendar.txt") = inr calendar_df ->
  index_of "start_date" (columns calendar_df) = Some i ->
  In entry (rows calendar_df) ->
  astype_int (cell i entry) = inl e ->
  exists msg,
    calendar_service_ids fs folder_path date_time = inl (ValueError msg).
Proof.
  intros Hr Hi Hin Hfail.
  destruct (mapM_fails astype_int (map (cell i) (rows calendar_df))
              (cell i entry) e (in_map _ _ _ Hin) Hfail)
    as (v & e' & _ & Hv & Hm).
  destruct (astype_int_error v e' Hv) as [msg ->]. exists msg.
  unfold calendar_service_ids.
  rewrite (read_csv_exists _ _ _ Hr), Hr. unfold bind at 1.
  rewrite (column_at _ _ _ Hi). unfold bind at 1. now rewrite Hm.
Qed.

(** X5. A calendar entry whose start date is missing, or is no
    integer, makes the conversion of the column fail for every date: the
    request for any route that has trips is answered with the
    [ValueError] of the conversion, whatever the other entries and the
    date are. *)
Theorem calendar_with_an_unreadable_start_date (base_dir : string)
  (folder_id route_id date_time_str folder_path : string)
  (date_time : datetime)
  (routes_df trips_df stop_times_df stops_df route_trips : DataFrame)
  (calendar_df : DataFrame) (i : nat) (entry : Row) (e : exn) :
  loaded base_dir fs folder_id date_time_str folder_path date_time
    routes_df trips_df stop_times_df stops_df ->
  filter_route trips_df route_id = inr route_trips ->
  rows route_trips <> [] ->
  read_csv fs (path_join folder_path "calendar.txt") = inr calendar_df ->
  index_of "start_date" (columns calendar_df) = Some i ->
  In entry (rows calendar_df) ->
  astype_int (cell i entry) = inl e ->
  exists msg,
    calendar_service_ids fs folder_path date_time = inl (ValueError msg)
    /\ get_route_details base_dir fs folder_id route_id date_time_str
       = Failed (ValueError msg).
Proof.
  intros Hl Hf Hne Hr Hi Hin Hfail.
  destruct (unreadable_start_date_raises folder_path date_time calendar_df i
              entry e Hr Hi Hin Hfail) as [msg Hmsg].
  exists msg. split; [exact Hmsg|].
  unfold get_route_details.
  rewrite (body_of_loaded base_dir fs _ route_id _ _ _ _ _ _ _ Hl).
  rewrite details_of_tables_stages, Hf. unfold bind at 1.
  apply is_empty_false in Hne. rewrite Hne, Hmsg. reflexivity.
Qed.

End IncompleteCalendar.

Lemma calendar_without_the_weekday_column_witness :
  calendar_service_ids ExCalendar.fs_windows_only Ex.folder saturday_15_june
  = inr (Some [VStr "WK"]).
Proof.
  apply (calendar_without_the_weekday_column ExCalendar.fs_windows_only
           Ex.folder saturday_15_june ExCalendar.windows_only 1 2 0
           [20240101; 20230101] [20241231; 20231231]);
    reflexivity.
Defined.

Lemma calendar_with_an_unreadable_start_date_witness :
  exists msg,
    get_route_details (rt := example_runtime) "./data"
      ExCalendar.fs_missing_start Ex.id "42" Ex.saturday
    = Failed (ValueError msg).
Proof.
  destruct (calendar_with_an_unreadable_start_date (rt := example_runtime)
              ExCalendar.fs_missing_start "./data" Ex.id "42" Ex.saturday
              Ex.folder saturday_15_june Ex.routes Ex.trips Ex.stop_times
              Ex.stops trips_of_42 ExCalendar.missing_start 2
              [VStr "SA"; VInt 1; VNaN; VInt 20241231]
              (ValueError "cannot convert float NaN to integer"))
    as (msg & _ & Hmsg).
  - apply loaded_example; reflexivity.
  - reflexivity.
  - discriminate.
  - reflexivity.
  - reflexivity.
  - right. now left.
  - reflexivity.
  - exists msg. exact Hmsg.
Defined.

(** ** An exceptions table that is not used *)

Section IgnoredExceptions.
Context {rt : Runtime}.
Variable base_dir : string.
Variable fs : FileSystem.
Variable folder_path : string.

Let exceptions_file : string := path_join folder_path "calendar_dates.txt".
Let fs' : FileSystem := delete exceptions_file fs.

Lemma other_file (name : string) :
  is_name name = true -> name <> "calendar_dates.txt" ->
  fs' !! path_join folder_path name = fs !! path_join folder_path name.
Proof.
  intros Hn Hne. unfold fs'. apply lookup_delete_ne. unfold exceptions_file.
  intros E. apply path_join_name_inj in E; [congruence|reflexivity|exact Hn].
Qed.

Lemma other_file_exists (name : string) :
  is_name name = true -> name <> "calendar_dates.txt" ->
  path_exists fs' (path_join folder_path name)
  = path_exists fs (path_join folder_path name).
Proof. intros Hn Hne. unfold path_exists. now rewrite other_file. Qed.

Lemma other_file_read (name : string) :
  is_name name = true -> name <> "calendar_dates.txt" ->
  read_csv fs' (path_join folder_path name)
  = read_csv fs (path_join folder_path name).
Proof. intros Hn Hne. unfold read_csv. now rewrite other_file. Qed.

Lemma folder_itself :
  path_exists fs' folder_path = path_exists fs folder_path.
Proof.
  unfold path_exists, fs'. rewrite lookup_delete_ne; [reflexivity|].
  unfold exceptions_file. intros E.
  pose proof (path_join_longer folder_path "calendar_dates.txt" eq_refl) as Hl.
  rewrite E in Hl. lia.
Qed.

Lemma details_without_exceptions (date_time : datetime)
  (routes_df trips_df stop_times_df stops_df calendar_dates_df : DataFrame)
  (route_id date_time_str : string) :
  read_csv fs exceptions_file = inr calendar_dates_df ->
  has_column calendar_dates_df "date"
  && has_column calendar_dates_df "exception_type" = false ->
  details_of_tables fs' folder_path date_time routes_df trips_df stop_times_df
    stops_df route_id date_time_str
  = details_of_tables fs folder_path date_time routes_df trips_df stop_times_df
      stops_df route_id date_time_str.
Proof.
  intros Hread Hcols.
  assert (Hcal : calendar_service_ids fs' folder_path date_time
                 = calendar_service_ids fs folder_path date_time).
  { unfold calendar_service_ids.
    now rewrite other_file_exists, other_file_read by (reflexivity || discriminate). }
  assert (Hdates : forall s,
             calendar_dates_service_ids fs' folder_path date_time s = inr s
             /\ calendar_dates_service_ids fs folder_path date_time s = inr s).
  { intros s. unfold calendar_dates_service_ids. fold exceptions_file. split.
    - unfold path_exists, fs'. now rewrite lookup_delete_eq.
    - rewrite (read_csv_exists _ _ _ Hread), Hread. unfold bind at 1.
      now rewrite Hcols. }
  assert (Hshape : forall trips,
             shape_points_of fs' folder_path trips
             = shape_points_of fs folder_path trips).
  { intros trips. unfold shape_points_of.
    now rewrite other_file_exists, other_file_read by (reflexivity || discriminate). }
  assert (Hassemble : forall trips,
             assemble fs' folder_path routes_df stop_times_df stops_df
               route_id trips
             = assemble fs folder_path routes_df stop_times_df stops_df
                 route_id trips).
  { intros trips. unfold assemble. now rewrite Hshape. }
  rewrite !details_of_tables_stages, Hcal.
  apply bind_ext. intros trips. cbv beta.
  destruct (is_empty trips); [reflexivity|].
  apply bind_ext. intros s0. cbv beta. destruct (Hdates s0) as [-> ->].
  apply bind_ext. intros s. cbv beta.
  apply bind_ext. intros remaining. cbv beta. now rewrite Hassemble.
Qed.

End IgnoredExceptions.

Section IgnoredExceptionsRequest.
Context {rt : Runtime}.
Variable base_dir : string.
Variable fs : FileSystem.

(** X6. An exceptions table that lacks its [date] column or its
    [exception_type] column is not used at all: every request is answered
    as if [calendar_dates.txt] were not there. *)
Theorem exceptions_without_their_columns_are_ignored
  (folder_id route_id date_time_str uuid_dir timestamp_dir : string)
  (calendar_dates_df : DataFrame) :
  split_slash folder_id = [uuid_dir; timestamp_dir] ->
  read_csv fs
    (path_join (path_join (path_join base_dir uuid_dir) timestamp_dir)
       "calendar_dates.txt")
  = inr calendar_dates_df ->
  has_column calendar_dates_df "date"
  && has_column calendar_dates_df "exception_type" = false ->
  get_route_details base_dir fs folder_id route_id date_time_str
  = get_route_details base_dir
      (delete
         (path_join (path_join (path_join base_dir uuid_dir) timestamp_dir)
            "calendar_dates.txt")
         fs)
      folder_id route_id date_time_str.
Proof.
  intros Hsplit Hread Hcols.
  set (fp := path_join (path_join base_dir uuid_dir) timestamp_dir) in *.
  unfold get_route_details, route_details_body. rewrite Hsplit. fold fp.
  rewrite (folder_itself fs fp).
  destruct (path_exists fs fp); cbn [negb]; [|reflexivity].
  f_equal. apply bind_ext. intros date_time. cbv beta. cbn [List.find].
  rewrite !(other_file_exists fs fp) by (reflexivity || discriminate).
  rewrite !(other_file_read fs fp) by (reflexivity || discriminate).
  destruct (negb (path_exists fs (path_join fp "routes.txt"))); [reflexivity|].
  destruct (negb (path_exists fs (path_join fp "trips.txt"))); [reflexivity|].
  destruct (negb (path_exists fs (path_join fp "stop_times.txt")));
    [reflexivity|].
  destruct (negb (path_exists fs (path_join fp "stops.txt"))); [reflexivity|].
  apply bind_ext. intros R. cbv beta.
  apply bind_ext. intros T. cbv beta.
  apply bind_ext. intros ST. cbv beta.
  apply bind_ext. intros S. cbv beta.
  symmetry. now apply (details_without_exceptions fs fp) with calendar_dates_df.
Qed.

End IgnoredExceptionsRequest.

Lemma exceptions_without_their_columns_are_ignored_witness :
  get_route_details (rt := example_runtime) "./data" ExExceptions.fs_misnamed
    Ex.id "42" Ex.saturday
  = get_route_details (rt := example_runtime) "./data"
      (delete "./data/u/20240101120000/calendar_dates.txt"
         ExExceptions.fs_misnamed)
      Ex.id "42" Ex.saturday.
Proof.
  apply (exceptions_without_their_columns_are_ignored (rt := example_runtime)
           "./data" ExExceptions.fs_misnamed Ex.id "42" Ex.saturday "u"
           "20240101120000" ExExceptions.misnamed);
    reflexivity.
Defined.

(** ** Integers and their decimal text *)











Section PrintedIds.
Context {rt : Runtime}.


End PrintedIds.


(** ** The routes of a snapshot *)

Lemma index_of_In (c : string) (l : list string) :
  In c l -> exists i, index_of c l = Some i.
Proof.
  induction l as [|x l IH]; [contradiction|]. intros Hin. simpl.
  destruct (String.eqb_spec c x) as [->|Hne]; [now exists 0%nat|].
  destruct Hin as [->|Hin]; [congruence|].
  destruct (IH Hin) as [i ->]. now exists (S i).
Qed.

Lemma columns_fillna_empty (df : DataFrame) :
  columns (fillna_empty df) = columns df.
Proof.
  unfold fillna_empty, columns. cbn [schema].
  generalize 0%nat. induction (schema df) as [|[c d] l IH];
    intros k; [reflexivity|].
  cbn [length seq combine map fst]. rewrite IH.
  now destruct (existsb _ (rows df)).
Qed.

Lemma cell_map (f : Value -> Value) (i : nat) (r : Row) :
  f VNaN = VNaN -> cell i (map f r) = f (cell i r).
Proof.
  intros Hf. unfold cell. rewrite <- Hf at 1. apply map_nth.
Qed.

Lemma cell_row_series (df : DataFrame) (i : nat) (r : Row) :
  cell i (row_series df r) = cell i r \/ cell i (row_series df r) = upcast (cell i r).
Proof.
  unfold row_series. destruct (_ && _); [right|now left].
  now apply cell_map.
Qed.

Lemma Forall2_map_same {A B} (P : A -> B -> Prop) (g : A -> B) (l : list A) :
  (forall a, In a l -> P a (g a)) -> Forall2 P l (map g l).
Proof.
  induction l as [|a l IH]; intros H; simpl; constructor; auto.
  - apply H. now left.
  - apply IH. intros x Hx. apply H. now right.
Qed.

Section Records.
Context {rt : Runtime}.

Lemma row_dict_total (df : DataFrame) (row : Row) :
  exists record,
    row_dict df row = inr record
    /\ map fst record = columns df
    /\ forall c i,
         index_of c (columns df) = Some i ->
         In (c, render (cell i (row_series df row))) record.
Proof.
  set (g := fun col =>
         match index_of col (columns df) with
         | Some i => (col, render (cell i (row_series df row)))
         | None => (col, "")
         end).
  exists (map g (columns df)). split; [|split].
  - unfold row_dict. apply mapM_all_inr. intros col Hin.
    destruct (index_of_In col (columns df) Hin) as [i Hi].
    unfold row_get, g. rewrite Hi. reflexivity.
  - rewrite map_map. rewrite <- (map_id (columns df)) at 2.
    apply map_ext. intros col. unfold g. now destruct (index_of col _).
  - intros c i Hi. apply in_map_iff. exists c. split.
    + unfold g. now rewrite Hi.
    + clear g. revert i Hi. generalize (columns df). intros l.
      induction l as [|x l IH]; [discriminate|]. intros i. simpl.
      destruct (String.eqb_spec c x) as [->|Hne]; [now left|].
      destruct (index_of c l) as [j|]; [|discriminate]. intros _.
      right. now apply (IH j).
Qed.

(** Lines 148-157 on any table: one dictionary per row. *)
Lemma records_of_table (df : DataFrame) :
  exists records,
    mapM (row_dict (fillna_empty df)) (rows (fillna_empty df)) = inr records
    /\ Forall2 (agrees (columns df)) (rows df) records.
Proof.
  set (df' := fillna_empty df).
  assert (Htot : forall r, In r (rows df') -> exists b, row_dict df' r = inr b).
  { intros r _. destruct (row_dict_total df' r) as (b & Hb & _). eauto. }
  destruct (mapM_total (row_dict df') (rows df') Htot) as (records & Hm & Hall).
  exists records. split; [exact Hm|].
  clear Hm Htot. revert records Hall.
  unfold df' at 2. unfold fillna_empty at 1. cbn [rows].
  induction (rows df) as [|row l IH]; intros records Hall.
  - inversion Hall. constructor.
  - cbn [map] in Hall. inversion Hall as [|r' record l' records' Hrec Hrest];
      subst. constructor; [|now apply IH].
    destruct (row_dict_total df' (map (fun v => if isna v then VStr "" else v)
                                   (pad (length (schema df)) row)))
      as (record' & Hrec' & Hkeys & Hcells).
    rewrite Hrec in Hrec'. injection Hrec' as <-.
    unfold df' in Hkeys, Hcells. rewrite columns_fillna_empty in Hkeys, Hcells.
    split; [exact Hkeys|]. intros c i Hi.
    specialize (Hcells c i Hi).
    assert (Hlt : (i < length (schema df))%nat).
    { apply index_of_lt in Hi. unfold columns in Hi.
      now rewrite length_map in Hi. }
    set (filled := map (fun v => if isna v then VStr "" else v)
                     (pad (length (schema df)) row)) in *.
    assert (Hcell : cell i filled
                    = if isna (cell i row) then VStr "" else cell i row).
    { unfold filled, cell.
      rewrite (nth_indep _ VNaN (if isna VNaN then VStr "" else VNaN))
        by (rewrite length_map, length_pad; exact Hlt).
      rewrite (map_nth (fun v => if isna v then VStr "" else v)).
      fold (cell i (pad (length (schema df)) row)).
      now rewrite cell_pad. }
    split.
    + intros Hna. rewrite Hna in Hcell.
      destruct (cell_row_series (fillna_empty df) i filled) as [E|E];
        rewrite E, Hcell in Hcells; exact Hcells.
    + intros s Hs. rewrite Hs in Hcell. cbn [isna] in Hcell.
      destruct (cell_row_series (fillna_empty df) i filled) as [E|E];
        rewrite E, Hcell in Hcells; exact Hcells.
Qed.

End Records.

Lemma length_flat_map_ge {A B} (f : A -> list B) (l : list A) :
  (forall a, In a l -> f a <> []) -> (length l <= length (flat_map f l))%nat.
Proof.
  induction l as [|a l IH]; intros H; simpl; [lia|].
  rewrite length_app. specialize (IH (fun x Hx => H x (or_intror Hx))).
  specialize (H a (or_introl eq_refl)). destruct (f a); [congruence|].
  simpl. lia.
Qed.

Section RoutesOfSnapshot.
Context {rt : Runtime}.
Variable base_dir : string.
Variable fs : FileSystem.

Lemma get_routes_reads (folder_id uuid_dir timestamp_dir : string)
  (routes_df : DataFrame) :
  split_slash folder_id = [uuid_dir; timestamp_dir] ->
  path_exists fs (path_join (path_join base_dir uuid_dir) timestamp_dir) = true ->
  read_csv fs
    (path_join (path_join (path_join base_dir uuid_dir) timestamp_dir)
       "routes.txt")
  = inr routes_df ->
  get_routes base_dir fs folder_id
  = match read_routes fs (path_join (path_join base_dir uuid_dir) timestamp_dir) with
    | inr routes => inr routes
    | inl _ => inr []
    end.
Proof.
  intros Hsplit Hdir Hread. unfold get_routes. rewrite Hsplit, Hdir.
  cbn [negb]. now rewrite (read_csv_exists _ _ _ Hread).
Qed.

(** X8. For a snapshot without [agency.txt], [get_routes] returns one
    dictionary per row of [routes.txt], in the order of the file; each has
    the columns of the table as its keys, the empty string where the row
    has no value, and the text of the row where it has one. *)
Theorem get_routes_one_record_per_route
  (folder_id uuid_dir timestamp_dir : string) (routes_df : DataFrame) :
  split_slash folder_id = [uuid_dir; timestamp_dir] ->
  path_exists fs (path_join (path_join base_dir uuid_dir) timestamp_dir) = true ->
  read_csv fs
    (path_join (path_join (path_join base_dir uuid_dir) timestamp_dir)
       "routes.txt")
  = inr routes_df ->
  path_exists fs
    (path_join (path_join (path_join base_dir uuid_dir) timestamp_dir)
       "agency.txt")
  = false ->
  exists routes,
    get_routes base_dir fs folder_id = inr routes
    /\ Forall2 (agrees (columns routes_df)) (rows routes_df) routes.
Proof.
  intros Hsplit Hdir Hread Hagency.
  rewrite (get_routes_reads _ _ _ _ Hsplit Hdir Hread).
  unfold read_routes. rewrite Hread. unfold bind at 1. rewrite Hagency.
  unfold bind at 1, ret.
  destruct (records_of_table routes_df) as (records & -> & Hall). eauto.
Qed.

(** X9. When [agency.txt] is there and both tables have an [agency_id]
    column, the routes are joined to the agencies; if the join is
    accepted, no route is lost by it: there are at least as many
    dictionaries as [routes.txt] has rows. *)
Theorem routes_survive_the_agency_join
  (folder_id uuid_dir timestamp_dir : string) (routes_df agency_df : DataFrame)
  (route_keys agency_keys : list Value) :
  split_slash folder_id = [uuid_dir; timestamp_dir] ->
  path_exists fs (path_join (path_join base_dir uuid_dir) timestamp_dir) = true ->
  read_csv fs
    (path_join (path_join (path_join base_dir uuid_dir) timestamp_dir)
       "routes.txt")
  = inr routes_df ->
  read_csv fs
    (path_join (path_join (path_join base_dir uuid_dir) timestamp_dir)
       "agency.txt")
  = inr agency_df ->
  column routes_df "agency_id" = inr route_keys ->
  column agency_df "agency_id" = inr agency_keys ->
  merge_keys_ok route_keys agency_keys = true ->
  exists routes,
    get_routes base_dir fs folder_id = inr routes
    /\ (length (rows routes_df) <= length routes)%nat.
Proof.
  intros Hsplit Hdir Hread Hagency Hrk Hak Hok.
  rewrite (get_routes_reads _ _ _ _ Hsplit Hdir Hread).
  unfold read_routes. rewrite Hread. unfold bind at 1.
  rewrite (read_csv_exists _ _ _ Hagency), Hagency. unfold bind at 2.
  unfold column in Hrk, Hak. unfold has_column, merge_left.
  destruct (index_of "agency_id" (columns routes_df)) as [li|];
    [|discriminate].
  destruct (index_of "agency_id" (columns agency_df)) as [ri|];
    [|discriminate].
  injection Hrk as <-. injection Hak as <-. cbn [andb]. rewrite Hok.
  unfold bind at 1, ret.
  match goal with
  | |- context [fillna_empty ?m] => set (merged := m)
  end.
  destruct (records_of_table merged) as (records & -> & Hall).
  exists records. split; [reflexivity|].
  apply List.Forall2_length in Hall. rewrite <- Hall.
  unfold merged. cbn [rows]. apply length_flat_map_ge.
  intros l _. destruct (List.filter _ (rows agency_df)); discriminate.
Qed.

(** X10. When [agency.txt] is there but cannot be used (it cannot be
    read, or the join on [agency_id] is refused), the failure is caught
    and the routes are lost with it: the method returns the empty list,
    whatever [routes.txt] holds. *)
Theorem agency_failure_hides_routes
  (folder_id uuid_dir timestamp_dir : string) (routes_df : DataFrame) :
  split_slash folder_id = [uuid_dir; timestamp_dir] ->
  path_exists fs (path_join (path_join base_dir uuid_dir) timestamp_dir) = true ->
  read_csv fs
    (path_join (path_join (path_join base_dir uuid_dir) timestamp_dir)
       "routes.txt")
  = inr routes_df ->
  path_exists fs
    (path_join (path_join (path_join base_dir uuid_dir) timestamp_dir)
       "agency.txt")
  = true ->
  (exists e,
     read_csv fs
       (path_join (path_join (path_join base_dir uuid_dir) timestamp_dir)
          "agency.txt")
     = inl e)
  \/ (exists agency_df route_keys agency_keys,
        read_csv fs
          (path_join (path_join (path_join base_dir uuid_dir) timestamp_dir)
             "agency.txt")
        = inr agency_df
        /\ column routes_df "agency_id" = inr route_keys
        /\ column agency_df "agency_id" = inr agency_keys
        /\ merge_keys_ok route_keys agency_keys = false) ->
  get_routes base_dir fs folder_id = inr [].
Proof.
  intros Hsplit Hdir Hread Hexists Hfail.
  rewrite (get_routes_reads _ _ _ _ Hsplit Hdir Hread).
  unfold read_routes. rewrite Hread. unfold bind at 1. rewrite Hexists.
  destruct Hfail as [[e ->]|(agency_df & rk & ak & -> & Hrk & Hak & Hok)];
    [reflexivity|].
  unfold bind at 2. unfold column in Hrk, Hak. unfold has_column, merge_left.
  destruct (index_of "agency_id" (columns routes_df)) as [li|];
    [|discriminate].
  destruct (index_of "agency_id" (columns agency_df)) as [ri|];
    [|discriminate].
  injection Hrk as <-. injection Hak as <-. cbn [andb]. rewrite Hok.
  reflexivity.
Qed.

End RoutesOfSnapshot.

Lemma get_routes_one_record_per_route_witness :
  exists routes,
    get_routes (rt := example_runtime) "./data" Ex.fs_required Ex.id = inr routes
    /\ Forall2 (agrees (columns Ex.routes)) (rows Ex.routes) routes.
Proof.
  apply (get_routes_one_record_per_route (rt := example_runtime) "./data"
           Ex.fs_required Ex.id "u" "20240101120000" Ex.routes);
    reflexivity.
Defined.

Lemma routes_survive_the_agency_join_witness :
  exists routes,
    get_routes (rt := example_runtime) "./data" ExAgency.fs_agency Ex.id
    = inr routes
    /\ (2 <= length routes)%nat.
Proof.
  apply (routes_survive_the_agency_join (rt := example_runtime) "./data"
           ExAgency.fs_agency Ex.id "u" "20240101120000" ExAgency.routes
           ExAgency.agency [VStr "A1"; VStr "ZZ"] [VStr "A1"]);
    reflexivity.
Defined.

Lemma agency_failure_hides_routes_witness :
  get_routes (rt := example_runtime) "./data" ExAgency.fs_broken_agency Ex.id
  = inr [].
Proof.
  apply (agency_failure_hides_routes (rt := example_runtime) "./data"
           ExAgency.fs_broken_agency Ex.id "u" "20240101120000"
           ExAgency.routes); try reflexivity.
  left. exists (ParserError "agency.txt"). reflexivity.
Defined.

(** ** Directories *)

Lemma strip_prefix_spec (pre s name : string) :
  strip_prefix pre s = Some name <-> s = (pre ++ name)%string.
Proof.
  revert s. induction pre as [|c pre IH]; intros s.
  - change (("" ++ name)%string) with name. simpl. split; congruence.
  - change ((String c pre ++ name)%string) with (String c (pre ++ name)%string).
    destruct s as [|c' s]; simpl; [split; discriminate|].
    destruct (Ascii.eqb_spec c c') as [->|Hne].
    + rewrite IH. split; congruence.
    + split; [discriminate|congruence].
Qed.

Lemma child_name_spec (d p name : string) :
  d <> "" ->
  child_name d p = Some name <-> is_name name = true /\ p = path_join d name.
Proof.
  intros Hd. unfold child_name.
  assert (Hjoin : forall n, is_name n = true ->
            path_join d n
            = ((if ends_with_slash d then d else (d ++ "/")%string) ++ n)%string).
  { intros n Hn. apply is_name_slash_free in Hn as [Hn _].
    rewrite (path_join_name d n Hn). destruct d as [|c r]; [congruence|].
    destruct (ends_with_slash (String c r)); [reflexivity|].
    now rewrite string_app_assoc. }
  destruct (strip_prefix _ p) as [n|] eqn:Hs.
  - apply strip_prefix_spec in Hs.
    destruct (is_name n) eqn:Hn.
    + split.
      * intros [= <-]. split; [exact Hn|]. now rewrite Hjoin.
      * intros [Hname ->]. rewrite Hjoin in Hs by exact Hname.
        apply String.app_inj in Hs. now subst.
    + split; [discriminate|]. intros [Hname ->].
      rewrite Hjoin in Hs by exact Hname.
      apply String.app_inj in Hs. congruence.
  - split; [discriminate|]. intros [Hname ->].
    rewrite Hjoin in Hs by exact Hname.
    assert (H : strip_prefix
                  (if ends_with_slash d then d else (d ++ "/")%string)
                  ((if ends_with_slash d then d else (d ++ "/")%string) ++ name)
                = Some name) by now apply strip_prefix_spec.
    congruence.
Qed.

(** [os.listdir] on a directory: the names of its entries. *)
Lemma listdir_spec (fs : FileSystem) (d : string) :
  d <> "" -> fs !! d = Some Dir ->
  exists names,
    listdir fs d = inr names
    /\ forall name,
         In name names
         <-> is_name name = true /\ path_exists fs (path_join d name) = true.
Proof.
  intros Hd Hdir. unfold listdir.
  destruct (String.eqb_spec d "") as [?|_]; [contradiction|]. rewrite Hdir.
  eexists. split; [reflexivity|]. intros name.
  rewrite <- list_elem_of_In, list_elem_of_omap. split.
  - intros (p & Hp & Hname). apply child_name_spec in Hname as [Hname ->];
      [|exact Hd].
    split; [exact Hname|]. apply list_elem_of_In, in_map_iff in Hp
      as ([p v] & Hfst & Hin). simpl in Hfst. subst p.
    apply list_elem_of_In, elem_of_map_to_list in Hin.
    unfold path_exists. now rewrite Hin.
  - intros [Hname Hex]. exists (path_join d name). split.
    + unfold path_exists in Hex.
      destruct (fs !! path_join d name) as [v|] eqn:Hv; [|discriminate].
      apply list_elem_of_In, in_map_iff. exists (path_join d name, v).
      split; [reflexivity|]. now apply list_elem_of_In, elem_of_map_to_list.
    + now apply child_name_spec.
Qed.

Lemma listdir_inv (fs : FileSystem) (d : string) (names : list string) :
  listdir fs d = inr names -> d <> "" /\ fs !! d = Some Dir.
Proof.
  unfold listdir. destruct (String.eqb_spec d "") as [?|Hd]; [discriminate|].
  destruct (fs !! d) as [[|c]|]; try discriminate. auto.
Qed.

Lemma isdir_exists (fs : FileSystem) (p : string) :
  isdir fs p = true -> path_exists fs p = true.
Proof. unfold isdir, path_exists. now destruct (fs !! p) as [[|c]|]. Qed.

Lemma isdir_Dir (fs : FileSystem) (p : string) :
  isdir fs p = true <-> fs !! p = Some Dir.
Proof.
  unfold isdir. destruct (fs !! p) as [[|c]|]; split; congruence.
Qed.

Lemma NoDup_flat_map {A B} (f : A -> list B) (l : list A) :
  List.NoDup l ->
  (forall a, In a l -> List.NoDup (f a)) ->
  (forall a b x, In a l -> In b l -> In x (f a) -> In x (f b) -> a = b) ->
  List.NoDup (flat_map f l).
Proof.
  induction l as [|a l IH]; intros Hl Hf Hdis; [constructor|].
  apply List.NoDup_cons_iff in Hl as [Ha Hl]. cbn [flat_map].
  apply List.NoDup_app.
  - apply Hf. now left.
  - apply IH; [exact Hl| |].
    + intros b Hb. apply Hf. now right.
    + intros b c x Hb Hc. apply Hdis; now right.
  - intros x Hx Hx'. apply in_flat_map in Hx' as (b & Hb & Hxb).
    apply Ha. rewrite (Hdis a b x); auto; [now left|now right].
Qed.

Lemma NoDup_omap_inj {A B} (f : A -> option B) (l : list A) :
  List.NoDup l ->
  (forall x y z, f x = Some z -> f y = Some z -> x = y) ->
  List.NoDup (omap f l).
Proof.
  intros Hl Hinj. induction l as [|a l IH]; [constructor|].
  apply List.NoDup_cons_iff in Hl as [Ha Hl]. cbn [omap list_omap].
  destruct (f a) as [z|] eqn:Hz; [|now apply IH].
  constructor; [|now apply IH].
  intros Hin. apply list_elem_of_In, list_elem_of_omap in Hin as (y & Hy & Hfy).
  apply list_elem_of_In in Hy. now rewrite (Hinj a y z Hz Hfy) in Ha.
Qed.

(** [os.listdir] names no entry twice. *)
Lemma listdir_NoDup (fs : FileSystem) (d : string) (names : list string) :
  listdir fs d = inr names -> List.NoDup names.
Proof.
  intros Hl. pose proof (listdir_inv fs d names Hl) as [Hd _].
  revert Hl. unfold listdir.
  destruct (String.eqb d ""); [discriminate|].
  destruct (fs !! d) as [[|c]|]; try discriminate. intros [= <-].
  apply NoDup_omap_inj.
  - apply NoDup_ListNoDup, NoDup_fst_map_to_list.
  - intros x y z Hx Hy.
    apply child_name_spec in Hx as [_ ->]; [|exact Hd].
    now apply child_name_spec in Hy as [_ ->].
Qed.

(** ** The list of folders *)

Section Listing.
Variable base_dir : string.
Variable fs : FileSystem.

Lemma timestamp_entries_spec (uuid_dir : string) (names : list string)
  (e : FolderEntry) :
  In e (timestamp_entries base_dir fs uuid_dir names)
  <-> exists timestamp_dir,
        In timestamp_dir names
        /\ isdir fs (path_join (path_join base_dir uuid_dir) timestamp_dir) = true
        /\ _is_valid_gtfs fs
             (path_join (path_join base_dir uuid_dir) timestamp_dir) = true
        /\ e = entry_of base_dir fs uuid_dir timestamp_dir.
Proof.
  unfold timestamp_entries. rewrite in_flat_map. split.
  - intros (t & Hin & He). exists t. split; [exact Hin|].
    destruct (isdir fs _); [|contradiction].
    destruct (_is_valid_gtfs fs _); [|contradiction].
    destruct He as [<-|[]]. auto.
  - intros (t & Hin & Hd & Hv & ->). exists t. split; [exact Hin|].
    rewrite Hd, Hv. now left.
Qed.

(** The method is its two loops: the entries found under each entry of
    [base_dir], in the order of the listing. *)
Lemma folders_loops :
  base_dir <> "" -> fs !! base_dir = Some Dir ->
  exists uuid_dirs,
    listdir fs base_dir = inr uuid_dirs
    /\ get_available_folders base_dir fs
       = inr (flat_map (uuid_entries base_dir fs) uuid_dirs).
Proof.
  intros Hbase Hdir. unfold get_available_folders, path_exists. rewrite Hdir.
  cbn [negb].
  destruct (listdir_spec fs base_dir Hbase Hdir) as (uuids & Hl & Huuids).
  exists uuids. split; [exact Hl|]. rewrite Hl. unfold bind at 1.
  rewrite (mapM_all_inr _ (uuid_entries base_dir fs)).
  2:{ intros u _. unfold uuid_entries.
      destruct (isdir fs (path_join base_dir u)) eqn:Hu; [|reflexivity].
      apply isdir_Dir in Hu.
      destruct (listdir_spec fs (path_join base_dir u)) as (names & -> & _);
        [now apply path_join_not_empty|exact Hu|reflexivity]. }
  unfold bind at 1, ret. now rewrite flat_map_concat_map.
Qed.

Lemma uuid_entries_spec (uuid_dir : string) (e : FolderEntry) :
  base_dir <> "" ->
  In e (uuid_entries base_dir fs uuid_dir)
  <-> exists timestamp_dir,
        is_name timestamp_dir = true
        /\ isdir fs (path_join base_dir uuid_dir) = true
        /\ isdir fs (path_join (path_join base_dir uuid_dir) timestamp_dir) = true
        /\ _is_valid_gtfs fs
             (path_join (path_join base_dir uuid_dir) timestamp_dir) = true
        /\ e = entry_of base_dir fs uuid_dir timestamp_dir.
Proof.
  intros Hbase. unfold uuid_entries.
  destruct (isdir fs (path_join base_dir uuid_dir)) eqn:Hud.
  2:{ split; [contradiction|]. intros (t & _ & H & _). discriminate. }
  pose proof Hud as Hud'. apply isdir_Dir in Hud'.
  destruct (listdir_spec fs (path_join base_dir uuid_dir))
    as (names & -> & Hnames); [now apply path_join_not_empty|exact Hud'|].
  rewrite timestamp_entries_spec. split.
  - intros (t & Ht & Htd & Hv & ->). exists t.
    apply Hnames in Ht as [Ht _]. auto.
  - intros (t & Ht & _ & Htd & Hv & ->). exists t.
    split; [|auto]. apply Hnames. split; [exact Ht|now apply isdir_exists].
Qed.

Lemma folders_spec :
  base_dir <> "" -> fs !! base_dir = Some Dir ->
  exists folders,
    get_available_folders base_dir fs = inr folders
    /\ forall e,
         In e folders
         <-> exists uuid_dir timestamp_dir,
               is_listed base_dir fs uuid_dir timestamp_dir
               /\ e = entry_of base_dir fs uuid_dir timestamp_dir.
Proof.
  intros Hbase Hdir.
  destruct (folders_loops Hbase Hdir) as (uuids & Hl & ->).
  destruct (listdir_spec fs base_dir Hbase Hdir) as (uuids' & Hl' & Huuids).
  rewrite Hl in Hl'. injection Hl' as <-.
  eexists. split; [reflexivity|]. intros e. rewrite in_flat_map. split.
  - intros (u & Hu & He). apply uuid_entries_spec in He
      as (t & Ht & Hud & Htd & Hv & ->); [|exact Hbase].
    exists u, t. split; [|reflexivity]. unfold is_listed.
    apply Huuids in Hu as [Hu _]. auto.
  - intros (u & t & (Hu & Ht & Hud & Htd & Hv) & ->). exists u. split.
    + apply Huuids. split; [exact Hu|now apply isdir_exists].
    + apply uuid_entries_spec; [exact Hbase|]. exists t. auto.
Qed.

(** No folder is listed twice. *)
Lemma folders_NoDup (folders : list FolderEntry) :
  base_dir <> "" -> fs !! base_dir = Some Dir ->
  get_available_folders base_dir fs = inr folders -> List.NoDup folders.
Proof.
  intros Hbase Hdir Hget.
  destruct (folders_loops Hbase Hdir) as (uuids & Hl & Hget').
  rewrite Hget in Hget'. injection Hget' as ->.
  destruct (listdir_spec fs base_dir Hbase Hdir) as (uuids' & Hl' & Huuids).
  rewrite Hl in Hl'. injection Hl' as <-.
  apply NoDup_flat_map.
  - now apply (listdir_NoDup fs base_dir).
  - intros u _. unfold uuid_entries.
    destruct (isdir fs (path_join base_dir u)); [|constructor].
    destruct (listdir fs (path_join base_dir u)) as [e|names] eqn:Hn;
      [constructor|].
    unfold timestamp_entries. apply NoDup_flat_map.
    + now apply (listdir_NoDup fs (path_join base_dir u)).
    + intros t _. destruct (isdir fs _); [|constructor].
      destruct (_is_valid_gtfs fs _); [|constructor].
      repeat constructor. intros [].
    + intros t t' x _ _ Ht Ht'.
      destruct (isdir fs (path_join (path_join base_dir u) t));
        [|contradiction].
      destruct (_is_valid_gtfs fs (path_join (path_join base_dir u) t));
        [|contradiction].
      destruct (isdir fs (path_join (path_join base_dir u) t'));
        [|contradiction].
      destruct (_is_valid_gtfs fs (path_join (path_join base_dir u) t'));
        [|contradiction].
      destruct Ht as [<-|[]]. destruct Ht' as [E|[]].
      injection E as _ E _. apply String.app_inj in E. now injection E.
  - intros u u' x Hu Hu' Hx Hx'.
    apply uuid_entries_spec in Hx as (t & Ht & _ & _ & _ & ->);
      [|exact Hbase].
    apply uuid_entries_spec in Hx' as (t' & Ht' & _ & _ & _ & E);
      [|exact Hbase].
    injection E as _ E _.
    apply Huuids in Hu as [Hu _]. apply Huuids in Hu' as [Hu' _].
    pose proof (split_folder_id u t Hu Ht) as S1.
    pose proof (split_folder_id u' t' Hu' Ht') as S2.
    rewrite E in S1. congruence.
Qed.

End Listing.

Lemma folders_inv (base_dir : string) (fs : FileSystem)
  (folders : list FolderEntry) (e : FolderEntry) :
  get_available_folders base_dir fs = inr folders -> In e folders ->
  exists uuid_dir timestamp_dir,
    is_listed base_dir fs uuid_dir timestamp_dir
    /\ e = entry_of base_dir fs uuid_dir timestamp_dir.
Proof.
  intros Hget Hin.
  assert (Hbase : base_dir <> "" /\ fs !! base_dir = Some Dir).
  { revert Hget. unfold get_available_folders.
    destruct (path_exists fs base_dir); cbn [negb].
    - destruct (listdir fs base_dir) as [err|names] eqn:Hl; [discriminate|].
      intros _. now apply listdir_inv in Hl.
    - intros [= <-]. contradiction. }
  destruct Hbase as [Hne Hdir].
  destruct (folders_spec base_dir fs Hne Hdir) as (folders' & Hget' & Hspec).
  rewrite Hget in Hget'. injection Hget' as <-. now apply Hspec.
Qed.

Section ListedFolders.
Context {rt : Runtime}.
Variable base_dir : string.
Variable fs : FileSystem.

(** X11. When [base_dir] is a directory, the list of folders has exactly
    the directories that lie in a directory of [base_dir] and hold the
    four required files, each with its path, the identifier made of the
    two directory names, and its name; files at either level, and
    directories without the required files, are left out. *)
Theorem folders_are_the_valid_directories :
  base_dir <> "" -> fs !! base_dir = Some Dir ->
  exists folders,
    get_available_folders base_dir fs = inr folders
    /\ List.NoDup folders
    /\ forall e,
         In e folders
         <-> exists uuid_dir timestamp_dir,
               is_listed base_dir fs uuid_dir timestamp_dir
               /\ e = entry_of base_dir fs uuid_dir timestamp_dir.
Proof.
  intros Hbase Hdir.
  destruct (folders_spec base_dir fs Hbase Hdir) as (folders & Hget & Hspec).
  exists folders. split; [exact Hget|]. split; [|exact Hspec].
  now apply (folders_NoDup base_dir fs).
Qed.

(** X12. The identifier of a listed folder leads back to it: it splits
    into the two directory names of its path, and a request for route
    details under it finds the folder and its required files, whatever
    the route and the date. *)
Theorem listed_folder_is_found (folders : list FolderEntry) (e : FolderEntry) :
  get_available_folders base_dir fs = inr folders -> In e folders ->
  (exists uuid_dir timestamp_dir,
     split_slash (entry_id e) = [uuid_dir; timestamp_dir]
     /\ entry_path e = path_join (path_join base_dir uuid_dir) timestamp_dir)
  /\ forall route_id date_time_str,
       get_route_details base_dir fs (entry_id e) route_id date_time_str
       <> FolderNotFound
       /\ forall file,
            get_route_details base_dir fs (entry_id e) route_id date_time_str
            <> RequiredFileMissing file.
Proof.
  intros Hget Hin.
  destruct (folders_inv base_dir fs folders e Hget Hin)
    as (u & t & (Hu & Ht & Hud & Htd & Hv) & ->).
  unfold entry_of. cbn [entry_id entry_path].
  pose proof (split_folder_id u t Hu Ht) as Hsplit.
  split; [eauto|]. intros r d.
  assert (Hall : forall file, In file details_files ->
            path_exists fs (path_join (path_join (path_join base_dir u) t) file)
            = true).
  { intros file Hf. rewrite valid_gtfs_iff in Hv. apply Hv.
    simpl in Hf |- *. tauto. }
  split; [|intros file].
  - now apply (body_all_present base_dir fs _ r d u t Hsplit
                 (isdir_exists _ _ Htd) Hall "").
  - now apply (body_all_present base_dir fs _ r d u t Hsplit
                 (isdir_exists _ _ Htd) Hall file).
Qed.

(** X13. A listed folder always has a name that is not empty: the name
    that [_get_agency_name] found, or, when that is missing, empty or
    zero, the name of its directory. *)
Theorem listed_folder_has_a_name (folders : list FolderEntry) (e : FolderEntry) :
  get_available_folders base_dir fs = inr folders -> In e folders ->
  truthy (entry_name e) = true
  /\ (_get_agency_name fs (entry_path e) = Some (entry_name e)
      \/ entry_name e = VStr (basename (entry_path e))).
Proof.
  intros Hget Hin.
  destruct (folders_inv base_dir fs folders e Hget Hin)
    as (u & t & (Hu & Ht & Hud & Htd & Hv) & ->).
  unfold entry_of. cbn [entry_name entry_path].
  apply is_name_slash_free in Ht as [Hs Hne].
  rewrite (basename_path_join _ t Hs).
  assert (Ht : truthy (VStr t) = true).
  { cbn [truthy]. apply negb_true_iff. now apply String.eqb_neq. }
  unfold name_or.
  destruct (_get_agency_name fs _) as [v|]; [|auto].
  destruct (truthy v) eqn:Hv'; auto.
Qed.

End ListedFolders.

Lemma folders_are_the_valid_directories_witness :
  exists folders,
    get_available_folders "./data" ExAgency.fs_agency = inr folders
    /\ In (mk_entry "./data/u/20240101120000" "u/20240101120000" (VStr "Metro"))
         folders.
Proof.
  destruct (folders_are_the_valid_directories "./data" ExAgency.fs_agency)
    as (folders & Hget & _ & Hspec); [discriminate|reflexivity|].
  exists folders. split; [exact Hget|]. apply Hspec.
  exists "u", "20240101120000". repeat split.
Defined.

Lemma listed_folder_is_found_witness :
  get_route_details (rt := example_runtime) "./data" ExAgency.fs_agency
    "u/20240101120000" "42" Ex.saturday
  <> FolderNotFound.
Proof.
  apply (listed_folder_is_found (rt := example_runtime) "./data"
           ExAgency.fs_agency
           [mk_entry "./data/u/20240101120000" "u/20240101120000" (VStr "Metro")]
           (mk_entry "./data/u/20240101120000" "u/20240101120000" (VStr "Metro"))).
  - vm_compute. reflexivity.
  - now left.
Defined.

Lemma listed_folder_has_a_name_witness :
  truthy (VStr "20240101120000") = true.
Proof.
  apply (listed_folder_has_a_name "./data" Ex.fs_required
           [mk_entry "./data/u/20240101120000" "u/20240101120000"
              (VStr "20240101120000")]
           (mk_entry "./data/u/20240101120000" "u/20240101120000"
              (VStr "20240101120000"))).
  - vm_compute. reflexivity.
  - now left.
Defined.

(** ** The folder name taken from [agency.txt] *)

Lemma truthy_upcast (v : Value) : truthy (upcast v) = truthy v.
Proof.
  destruct v as [z|q|s|]; try reflexivity. cbn [upcast truthy]. f_equal.
  destruct (Z.eqb_spec z 0) as [->|Hz]; [reflexivity|].
  destruct (Qeq_bool (inject_Z z) 0) eqn:E; [|reflexivity].
  apply Qeq_bool_eq in E. unfold Qeq in E. simpl in E. lia.
Qed.

Section AgencyName.
Variable fs : FileSystem.

(** X14. When the first row of [agency.txt] has no agency name, the
    name of the folder is that missing value (NaN is true for [or]), not
    the name of its directory; an agency name that is a text that is not
    empty is the name of the folder; one that is empty or zero gives way
    to the name of the directory. *)
Theorem missing_agency_name_is_kept (folder_path : string)
  (agency_df : DataFrame) (i : nat) (first : Row) (others : list Row) :
  read_csv fs (path_join folder_path "agency.txt") = inr agency_df ->
  index_of "agency_name" (columns agency_df) = Some i ->
  rows agency_df = first :: others ->
  forall timestamp_dir,
    (isna (cell i first) = true ->
     name_or (_get_agency_name fs folder_path) timestamp_dir = VNaN)
    /\ (forall s, cell i first = VStr s -> s <> "" ->
        name_or (_get_agency_name fs folder_path) timestamp_dir = VStr s)
    /\ (truthy (cell i first) = false ->
        name_or (_get_agency_name fs folder_path) timestamp_dir
        = VStr timestamp_dir).
Proof.
  intros Hread Hi Hrows t.
  assert (Hname : _get_agency_name fs folder_path
                  = Some (cell i (row_series agency_df first))).
  { unfold _get_agency_name. rewrite (read_csv_exists _ _ _ Hread), Hread.
    unfold bind at 1. unfold has_column, is_empty, row_get.
    rewrite Hi, Hrows. reflexivity. }
  rewrite Hname. unfold name_or.
  destruct (cell_row_series agency_df i first) as [E|E]; rewrite E; clear E.
  - split; [|split].
    + intros Hna. now destruct (cell i first).
    + intros s -> Hs. cbn [truthy].
      now destruct (String.eqb_spec s "").
    + intros ->. reflexivity.
  - rewrite truthy_upcast. split; [|split].
    + intros Hna. now destruct (cell i first).
    + intros s -> Hs. cbn [upcast truthy].
      now destruct (String.eqb_spec s "").
    + intros ->. reflexivity.
Qed.

End AgencyName.

Lemma missing_agency_name_is_kept_witness :
  name_or (_get_agency_name ExAgency.fs_unnamed_agency Ex.folder)
    "20240101120000"
  = VNaN.
Proof.
  apply (missing_agency_name_is_kept ExAgency.fs_unnamed_agency Ex.folder
           ExAgency.agency_unnamed 1 [VStr "A1"; VNaN] []);
    reflexivity.
Defined.

(** ** Making directories *)

Lemma In_ancestors (p : string) : p <> "" -> In p (ancestors p).
Proof.
  intros Hp. unfold ancestors. apply filter_In. split.
  - apply in_map_iff. exists (split_slash p).
    split; [apply join_split_slash|apply In_inits, split_slash_not_nil].
  - apply negb_true_iff. now apply String.eqb_neq.
Qed.

Lemma makedirs_ancestors (p : string) :
  p <> "" -> makedirs p = io_iter mkdir_exist_ok (ancestors p).
Proof.
  intros Hp. unfold makedirs.
  now destruct (String.eqb_spec p "") as [?|_].
Qed.

(** Directories are made where nothing is; nothing else changes. *)
Lemma io_iter_mkdir_ok (l : list string) (fs : FileSystem) :
  (forall q, In q l -> forall c, fs !! q <> Some (File c)) ->
  exists fs',
    io_iter mkdir_exist_ok l fs = (fs', inr tt)
    /\ forall p,
         fs' !! p = fs !! p
         \/ (fs !! p = None /\ fs' !! p = Some Dir /\ In p l).
Proof.
  revert fs. induction l as [|a l IH]; intros fs Hfree.
  - exists fs. split; [reflexivity|]. now left.
  - cbn [io_iter]. unfold io_bind. unfold mkdir_exist_ok at 1.
    destruct (fs !! a) as [[|c]|] eqn:Ha.
    + destruct (IH fs) as (fs' & -> & Hfs').
      { intros q Hq. apply Hfree. now right. }
      exists fs'. split; [reflexivity|]. intros p.
      destruct (Hfs' p) as [H|(H1 & H2 & H3)]; [now left|right].
      repeat split; auto. now right.
    + exfalso. apply (Hfree a (or_introl eq_refl) c Ha).
    + destruct (IH (<[a := Dir]> fs)) as (fs' & -> & Hfs').
      { intros q Hq c. destruct (decide (a = q)) as [<-|Hne].
        - now rewrite lookup_insert_eq.
        - rewrite lookup_insert_ne by exact Hne. apply Hfree. now right. }
      exists fs'. split; [reflexivity|]. intros p.
      destruct (decide (a = p)) as [<-|Hne].
      * right. repeat split; [exact Ha| |now left].
        destruct (Hfs' a) as [H|(H & _)]; rewrite lookup_insert_eq in H;
          [exact H|discriminate].
      * destruct (Hfs' p) as [H|(H1 & H2 & H3)];
          rewrite lookup_insert_ne in * by exact Hne; [now left|right].
        repeat split; auto. now right.
Qed.

Lemma makedirs_ok (p : string) (fs : FileSystem) :
  can_make fs p ->
  exists fs',
    makedirs p fs = (fs', inr tt)
    /\ forall q,
         fs' !! q = fs !! q
         \/ (fs !! q = None /\ fs' !! q = Some Dir /\ In q (ancestors p)).
Proof.
  intros [Hp Hfree]. rewrite (makedirs_ancestors p Hp).
  now apply io_iter_mkdir_ok.
Qed.

(** A file in the way makes [os.makedirs] fail. *)
Lemma makedirs_file (p : string) (fs : FileSystem) (c : Exc DataFrame) :
  fs !! p = Some (File c) -> exists fs' e, makedirs p fs = (fs', inl e).
Proof.
  intros Hp. destruct (makedirs p fs) as [fs' [e|[]]] eqn:Hm; [eauto|].
  exfalso. pose proof (makedirs_keeps p fs) as Hk. rewrite Hm in Hk.
  apply makedirs_dir in Hm. simpl in Hk.
  destruct (keeps_file _ _ _ _ Hk Hp) as [c' Hc']. congruence.
Qed.

(** ** Creating the viewer *)

(** X15. [GTFSViewer(base_dir)] makes [base_dir] a directory and keeps
    what the storage has; after it, [get_available_folders] returns a
    list and raises nothing. *)
Theorem viewer_makes_its_base_directory (base_dir : string)
  (fs fs' : FileSystem) :
  __init__ base_dir fs = (fs', inr tt) ->
  fs' !! base_dir = Some Dir
  /\ keeps fs fs'
  /\ exists folders, get_available_folders base_dir fs' = inr folders.
Proof.
  unfold __init__. intros Hinit.
  assert (Hne : base_dir <> "").
  { intros ->. discriminate. }
  pose proof (makedirs_keeps base_dir fs) as Hk. rewrite Hinit in Hk.
  apply makedirs_dir in Hinit. split; [exact Hinit|]. split; [exact Hk|].
  destruct (folders_spec base_dir fs' Hne Hinit) as (folders & Hget & _).
  eauto.
Qed.

(** X16. On a storage where [base_dir] is a file, the viewer cannot be
    created, and [get_available_folders] raises what [os.listdir]
    raises; where [base_dir] does not exist, it returns the empty
    list. *)
Theorem base_directory_that_is_no_directory (base_dir : string)
  (fs : FileSystem) :
  match fs !! base_dir with
  | Some (File _) =>
      (exists fs' e, __init__ base_dir fs = (fs', inl e))
      /\ get_available_folders base_dir fs = inl (OSError base_dir)
  | Some Dir => True
  | None => get_available_folders base_dir fs = inr []
  end.
Proof.
  destruct (fs !! base_dir) as [[|c]|] eqn:Hb; [exact I| |].
  - split; [now apply (makedirs_file base_dir fs c)|].
    unfold get_available_folders, path_exists, listdir. rewrite Hb.
    cbn [negb]. now destruct (String.eqb base_dir "").
  - unfold get_available_folders, path_exists. now rewrite Hb.
Qed.

Lemma viewer_makes_its_base_directory_witness :
  exists folders,
    get_available_folders "./data" ExUpload.fs_new = inr folders.
Proof.
  apply (viewer_makes_its_base_directory "./data" ∅ ExUpload.fs_new).
  vm_compute. reflexivity.
Defined.

(** ** Uploads and the rest of the storage *)

Lemma save_and_extract_keeps (base_dir folder_uuid timestamp : string)
  (file_obj : Upload) :
  io_keeps (save_and_extract base_dir folder_uuid timestamp file_obj).
Proof.
  unfold save_and_extract.
  apply io_bind_keeps; [apply makedirs_keeps|intros _].
  apply io_bind_keeps; [apply makedirs_keeps|intros _].
  apply io_bind_keeps; [apply write_file_keeps|intros _].
  apply extractall_keeps.
Qed.

Lemma keeps_keeps_except (q : string) (fs fs' : FileSystem) :
  keeps fs fs' -> keeps_except q fs fs'.
Proof. intros H p _. apply H. Qed.

Lemma keeps_except_delete (q : string) (fs fs' : FileSystem) :
  keeps fs fs' -> keeps_except q fs (delete q fs').
Proof.
  intros H p Hp. specialize (H p). now rewrite lookup_delete_ne by congruence.
Qed.

(** What the storage holds once the archive is saved and extracted. *)
Lemma save_and_extract_state (base_dir folder_uuid timestamp : string)
  (file_obj : Upload) (fs fs1 : FileSystem) :
  save_and_extract base_dir folder_uuid timestamp file_obj fs = (fs1, inr tt) ->
  (exists c, fs1 !! zip_path base_dir folder_uuid = Some (File c))
  /\ fs1 !! uuid_dir base_dir folder_uuid = Some Dir
  /\ fs1 !! extract_dir base_dir folder_uuid timestamp = Some Dir.
Proof.
  set (udir := uuid_dir base_dir folder_uuid).
  set (dir := extract_dir base_dir folder_uuid timestamp).
  set (zip := zip_path base_dir folder_uuid).
  unfold save_and_extract, io_bind. fold udir dir zip.
  destruct (makedirs udir fs) as [fa [e|[]]] eqn:Hmu; [discriminate|].
  destruct (makedirs dir fa) as [fb [e|[]]] eqn:Hmk; [discriminate|].
  destruct (write_file zip (zip_as_csv file_obj) fb)
    as [fc [e|[]]] eqn:Hw; [discriminate|].
  intros Hx.
  apply makedirs_dir in Hmu.
  pose proof (makedirs_keeps dir fa) as Hkb. rewrite Hmk in Hkb. simpl in Hkb.
  apply makedirs_dir in Hmk.
  pose proof (write_file_keeps zip (zip_as_csv file_obj) fb) as Hkc.
  rewrite Hw in Hkc. simpl in Hkc.
  apply write_file_done in Hw as [Hnd ->].
  pose proof (extractall_keeps file_obj dir
                (<[zip := File (zip_as_csv file_obj)]> fb)) as Hk.
  rewrite Hx in Hk. simpl in Hk.
  split; [|split].
  - apply (keeps_file _ _ zip (zip_as_csv file_obj) Hk), lookup_insert_eq.
  - apply (keeps_dir _ _ udir Hk), (keeps_dir _ _ udir Hkc),
      (keeps_dir _ _ udir Hkb), Hmu.
  - apply (keeps_dir _ _ dir Hk), (keeps_dir _ _ dir Hkc), Hmk.
Qed.

Section Uploads.
Variable base_dir : string.
Variable folder_uuid : string.
Variable timestamp : string.

(** X17. Whatever is uploaded and however the upload ends, every entry
    that the storage had is still there afterwards, a directory as a
    directory and a file as a file, the place of the saved zip file
    apart. *)
Theorem upload_keeps_the_storage (file_obj : Upload) (fs : FileSystem) :
  keeps_except (zip_path base_dir folder_uuid) fs
    (fst (upload_gtfs base_dir folder_uuid timestamp file_obj fs)).
Proof.
  unfold upload_gtfs, io_bind.
  pose proof (save_and_extract_keeps base_dir folder_uuid timestamp file_obj fs)
    as Hk.
  destruct (save_and_extract base_dir folder_uuid timestamp file_obj fs)
    as [fs1 [e|[]]]; simpl in Hk; [now apply keeps_keeps_except|].
  unfold remove.
  destruct (fs1 !! zip_path base_dir folder_uuid) as [[|c]|].
  - now apply keeps_keeps_except.
  - destruct (negb _); now apply keeps_except_delete.
  - now apply keeps_keeps_except.
Qed.

(** X18. When the storage accepts the upload and the file is not an
    archive, the method raises what the archive reader raised, after the
    file was saved: the saved file and the two directories stay in the
    storage. *)
Theorem upload_of_no_archive_leaves_the_file (file_obj : Upload) (e : exn)
  (fs : FileSystem) :
  accepts_upload base_dir folder_uuid timestamp fs ->
  zip_members file_obj = inl e ->
  exists fs',
    upload_gtfs base_dir folder_uuid timestamp file_obj fs = (fs', inl e)
    /\ fs' !! zip_path base_dir folder_uuid = Some (File (zip_as_csv file_obj))
    /\ fs' !! uuid_dir base_dir folder_uuid = Some Dir
    /\ fs' !! extract_dir base_dir folder_uuid timestamp = Some Dir.
Proof.
  intros (Hu & Hd & Hzip & Hnot) Hbad.
  set (udir := uuid_dir base_dir folder_uuid) in *.
  set (dir := extract_dir base_dir folder_uuid timestamp) in *.
  set (zip := zip_path base_dir folder_uuid) in *.
  destruct (makedirs_ok udir fs Hu) as (fa & Hmu & Hfa).
  assert (Hd' : can_make fa dir).
  { destruct Hd as [Hne Hfree]. split; [exact Hne|]. intros q Hq c.
    destruct (Hfa q) as [->|(_ & -> & _)]; [now apply Hfree|discriminate]. }
  destruct (makedirs_ok dir fa Hd') as (fb & Hmk & Hfb).
  assert (Hzb : fb !! zip = None).
  { destruct (Hfb zip) as [->|(_ & _ & Hin)].
    - destruct (Hfa zip) as [->|(_ & _ & Hin)]; [exact Hzip|].
      exfalso. apply Hnot, in_or_app. now left.
    - exfalso. apply Hnot, in_or_app. now right. }
  exists (<[zip := File (zip_as_csv file_obj)]> fb).
  assert (Hne1 : zip <> udir).
  { intros E. apply makedirs_dir in Hmu.
    pose proof (makedirs_keeps dir fa) as Hk. rewrite Hmk in Hk. simpl in Hk.
    apply (keeps_dir _ _ udir Hk) in Hmu. congruence. }
  assert (Hne2 : zip <> dir).
  { intros E. apply makedirs_dir in Hmk. congruence. }
  split; [|split; [|split]].
  - unfold upload_gtfs, save_and_extract, io_bind. fold udir dir zip.
    rewrite Hmu, Hmk. unfold write_file. rewrite Hzb.
    unfold extractall. now rewrite Hbad.
  - apply lookup_insert_eq.
  - rewrite lookup_insert_ne by exact Hne1.
    pose proof (makedirs_keeps dir fa) as Hk. rewrite Hmk in Hk. simpl in Hk.
    apply (keeps_dir _ _ udir Hk). now apply makedirs_dir in Hmu.
  - rewrite lookup_insert_ne by exact Hne2. now apply makedirs_dir in Hmk.
Qed.

(** X19. After an upload that succeeded into a directory of [base_dir],
    the new folder is in the list of folders, under the identifier that
    the upload returned. *)
Theorem uploaded_folder_is_listed (file_obj : Upload) (fs fs' : FileSystem)
  (folder_id : string) :
  base_dir <> "" -> fs !! base_dir = Some Dir ->
  is_name folder_uuid = true -> is_name timestamp = true ->
  upload_gtfs base_dir folder_uuid timestamp file_obj fs = (fs', inr folder_id) ->
  exists folders e,
    get_available_folders base_dir fs' = inr folders
    /\ In e folders
    /\ entry_id e = folder_id
    /\ entry_path e = extract_dir base_dir folder_uuid timestamp
    /\ split_slash folder_id = [folder_uuid; timestamp].
Proof.
  intros Hne Hbase Hu Ht Hup.
  pose proof (save_and_extract_keeps base_dir folder_uuid timestamp file_obj fs)
    as Hk.
  revert Hup. unfold upload_gtfs, io_bind.
  destruct (save_and_extract base_dir folder_uuid timestamp file_obj fs)
    as [fs1 [e|[]]] eqn:Hsave; [discriminate|]. simpl in Hk.
  apply save_and_extract_state in Hsave as ([c Hzip] & Hud & Hd).
  unfold remove. rewrite Hzip.
  destruct (_is_valid_gtfs (delete (zip_path base_dir folder_uuid) fs1)
              (extract_dir base_dir folder_uuid timestamp)) eqn:Hvalid;
    cbn [negb]; [|discriminate].
  intros [= <- <-].
  set (zip := zip_path base_dir folder_uuid) in *.
  assert (Hb' : delete zip fs1 !! base_dir = Some Dir).
  { rewrite lookup_delete_ne; [now apply (keeps_dir _ _ _ Hk)|].
    intros E. apply (keeps_dir _ _ _ Hk) in Hbase. congruence. }
  destruct (folders_spec base_dir (delete zip fs1) Hne Hb')
    as (folders & Hget & Hspec).
  exists folders, (entry_of base_dir (delete zip fs1) folder_uuid timestamp).
  split; [exact Hget|]. split; [|split; [reflexivity|split; [reflexivity|]]].
  - apply Hspec. exists folder_uuid, timestamp. split; [|reflexivity].
    unfold extract_dir, uuid_dir in Hud, Hd, Hvalid.
    unfold is_listed. repeat split; auto.
    + apply isdir_Dir. rewrite lookup_delete_ne by congruence. exact Hud.
    + apply isdir_Dir. rewrite lookup_delete_ne by congruence. exact Hd.
  - now apply split_folder_id.
Qed.

End Uploads.

Lemma upload_of_no_archive_leaves_the_file_witness :
  exists fs',
    upload_gtfs "./data" "u" "20240101120000" ExUpload.not_a_zip ExUpload.fs_new
    = (fs', inl BadZipFile)
    /\ fs' !! "./data/u/gtfs.zip" = Some (File (inr Ex.routes)).
Proof.
  destruct (upload_of_no_archive_leaves_the_file "./data" "u" "20240101120000"
              ExUpload.not_a_zip BadZipFile ExUpload.fs_new)
    as (fs' & Hup & Hzip & _).
  - repeat split; try discriminate.
    + intros q Hq c. vm_compute in Hq.
      destruct Hq as [<-|[<-|[<-|[]]]]; vm_compute; discriminate.
    + intros q Hq c. vm_compute in Hq.
      destruct Hq as [<-|[<-|[<-|[<-|[]]]]]; vm_compute; discriminate.
    + vm_compute. intros H.
      repeat (destruct H as [H|H]; [discriminate|]). exact H.
  - reflexivity.
  - exists fs'. split; [exact Hup|exact Hzip].
Defined.

Lemma uploaded_folder_is_listed_witness :
  exists folders e,
    get_available_folders "./data"
      (fst (upload_gtfs "./data" "u" "20240101120000" ExUpload.complete_zip
              ExUpload.fs_new))
    = inr folders
    /\ In e folders
    /\ entry_id e = "u/20240101120000".
Proof.
  destruct (uploaded_folder_is_listed "./data" "u" "20240101120000"
              ExUpload.complete_zip ExUpload.fs_new
              (fst (upload_gtfs "./data" "u" "20240101120000"
                      ExUpload.complete_zip ExUpload.fs_new))
              "u/20240101120000")
    as (folders & e & Hget & Hin & Hid & _).
  - discriminate.
  - reflexivity.
  - reflexivity.
  - reflexivity.
  - vm_compute. reflexivity.
  - exists folders, e. auto.
Defined.

(** ** Extracting an archive without directories *)

Lemma arcname_name (name : string) :
  is_name name = true -> name <> "." -> name <> ".." -> arcname name = name.
Proof.
  intros Hn H1 H2. apply is_name_slash_free in Hn as [Hs Hne].
  unfold arcname. rewrite (slash_free_split _ Hs). cbn [List.filter].
  destruct (String.eqb_spec name "") as [?|_]; [contradiction|].
  destruct (String.eqb_spec name ".") as [?|_]; [contradiction|].
  destruct (String.eqb_spec name "..") as [?|_]; [contradiction|].
  reflexivity.
Qed.

Section FlatArchive.
Variable dir : string.
Hypothesis dir_not_empty : dir <> "".
Hypothesis dir_no_slash : ends_with_slash dir = false.

(** A file at the top of the archive is written into the directory. *)
Lemma extract_flat_member (name : string) (parsed : Exc DataFrame)
  (fs : FileSystem) :
  flat_member (name, Some parsed) ->
  fs !! dir = Some Dir ->
  fs !! path_join dir name <> Some Dir ->
  extract_member dir (name, Some parsed) fs
  = (<[path_join dir name := File parsed]> fs, inr tt).
Proof.
  intros (Hn & H1 & H2 & _) Hdir Hfree. cbn [fst] in *.
  unfold extract_member. cbn [fst snd].
  rewrite (arcname_name name Hn H1 H2).
  assert (Hne : name <> "") by now apply is_name_slash_free in Hn.
  destruct name as [|c r] eqn:En; [congruence|]. rewrite <- En in *.
  rewrite (dirname_path_join dir name dir_not_empty dir_no_slash Hn).
  unfold io_bind, path_exists. rewrite Hdir.
  rewrite andb_false_r. unfold write_file.
  destruct (fs !! path_join dir name) as [[|c0]|]; [congruence|reflexivity..].
Qed.

Lemma extract_flat (members : list (string * option (Exc DataFrame)))
  (fs : FileSystem) :
  fs !! dir = Some Dir ->
  (forall member, In member members ->
     flat_member member /\ fs !! path_join dir (fst member) <> Some Dir) ->
  exists fs',
    io_iter (extract_member dir) members fs = (fs', inr tt)
    /\ (forall k,
          fs' !! k = fs !! k
          \/ exists name parsed,
               In (name, Some parsed) members
               /\ k = path_join dir name
               /\ fs' !! k = Some (File parsed))
    /\ forall member, In member members ->
         exists parsed,
           In (fst member, Some parsed) members
           /\ fs' !! path_join dir (fst member) = Some (File parsed).
Proof.
  revert fs. induction members as [|[name [parsed|]] members IH];
    intros fs Hdir Hall.
  - exists fs. split; [reflexivity|]. split; [now left|contradiction].
  - destruct (Hall _ (or_introl eq_refl)) as [Hflat Hfree]. cbn [fst] in Hfree.
    cbn [io_iter]. unfold io_bind.
    rewrite (extract_flat_member name parsed fs Hflat Hdir Hfree).
    set (fs1 := <[path_join dir name := File parsed]> fs).
    assert (Hne : path_join dir name <> dir) by congruence.
    destruct (IH fs1) as (fs' & Hrun & Hframe & Hwritten).
    { unfold fs1. now rewrite lookup_insert_ne. }
    { intros m Hm. destruct (Hall m (or_intror Hm)) as [Hf Hfr].
      split; [exact Hf|]. unfold fs1.
      destruct (decide (path_join dir name = path_join dir (fst m))) as [E|E].
      - rewrite E, lookup_insert_eq. discriminate.
      - now rewrite lookup_insert_ne. }
    exists fs'. split; [exact Hrun|]. split.
    + intros k. destruct (Hframe k) as [E|(n & c & Hin & -> & E)].
      * destruct (decide (path_join dir name = k)) as [<-|Hk].
        -- right. exists name, parsed. split; [now left|]. split; [reflexivity|].
           rewrite E. unfold fs1. apply lookup_insert_eq.
        -- left. rewrite E. unfold fs1. now rewrite lookup_insert_ne.
      * right. exists n, c. split; [now right|]. now split.
    + intros m [<-|Hm]; cbn [fst].
      * destruct (Hframe (path_join dir name)) as [E|(n & c & Hin & En & E)].
        -- exists parsed. split; [now left|]. rewrite E. unfold fs1.
           apply lookup_insert_eq.
        -- exists c. split; [|exact E]. right.
           destruct (Hall _ (or_intror Hin)) as [(Hn' & _) _].
           destruct Hflat as (Hn & _). cbn [fst] in *.
           now rewrite (path_join_inj dir name n dir_not_empty Hn Hn' En).
      * destruct (Hwritten m Hm) as (c & Hin & E). exists c.
        split; [now right|exact E].
  - destruct (Hall _ (or_introl eq_refl)) as [(_ & _ & _ & Hfile) _].
    now contradiction Hfile.
Qed.

End FlatArchive.

Section FlatUpload.
Variable base_dir : string.
Variable folder_uuid : string.
Variable timestamp : string.

(** X20. An archive whose members are files at its top, among them the
    four required tables, is accepted by a storage that accepts the
    upload: [upload_gtfs] returns the identifier made of the uuid and the
    timestamp, the saved zip file is gone, and each member is in the new
    folder, where [read_csv] finds the table of a member of that name. *)
Theorem upload_of_a_flat_archive (file_obj : Upload)
  (members : list (string * option (Exc DataFrame))) (fs : FileSystem) :
  accepts_upload base_dir folder_uuid timestamp fs ->
  is_name folder_uuid = true -> is_name timestamp = true ->
  zip_members file_obj = inr members ->
  (forall member, In member members ->
     flat_member member
     /\ fs !! path_join (extract_dir base_dir folder_uuid timestamp) (fst member)
        <> Some Dir) ->
  (forall file, In file required_files -> In file (map fst members)) ->
  exists fs',
    upload_gtfs base_dir folder_uuid timestamp file_obj fs
    = (fs', inr (folder_uuid ++ "/" ++ timestamp)%string)
    /\ fs' !! zip_path base_dir folder_uuid = None
    /\ forall member, In member members ->
         exists parsed,
           In (fst member, Some parsed) members
           /\ read_csv fs'
                (path_join (extract_dir base_dir folder_uuid timestamp)
                   (fst member))
              = parsed.
Proof.
  intros (Hu & Hd & Hzip & Hnot) Hnu Hnt Hmembers Hflat Hreq.
  set (udir := uuid_dir base_dir folder_uuid) in *.
  set (dir := extract_dir base_dir folder_uuid timestamp) in *.
  set (zip := zip_path base_dir folder_uuid) in *.
  assert (Hdir_ne : dir <> "") by apply Hd.
  assert (Hdir_slash : ends_with_slash dir = false)
    by now apply path_join_no_trailing_slash.
  assert (Hudir_ne : udir <> "") by apply Hu.
  assert (Hlen : (String.length udir < String.length dir)%nat)
    by now apply path_join_longer.
  assert (Hzip_len : (String.length zip <= String.length udir + 9)%nat).
  { unfold zip, zip_path. fold udir.
    rewrite (path_join_name udir "gtfs.zip" eq_refl).
    destruct udir as [|c r]; [congruence|].
    destruct (ends_with_slash (String c r)); rewrite string_length_app;
      cbn [String.length]; lia. }
  destruct (makedirs_ok udir fs Hu) as (fa & Hmu & Hfa).
  assert (Hd' : can_make fa dir).
  { destruct Hd as [Hne Hfree]. split; [exact Hne|]. intros q Hq c.
    destruct (Hfa q) as [->|(_ & -> & _)]; [now apply Hfree|discriminate]. }
  destruct (makedirs_ok dir fa Hd') as (fb & Hmk & Hfb).
  assert (Hzb : fb !! zip = None).
  { destruct (Hfb zip) as [->|(_ & _ & Hin)].
    - destruct (Hfa zip) as [->|(_ & _ & Hin)]; [exact Hzip|].
      exfalso. apply Hnot, in_or_app. now left.
    - exfalso. apply Hnot, in_or_app. now right. }
  set (fc := <[zip := File (zip_as_csv file_obj)]> fb).
  assert (Hzd : zip <> dir).
  { intros E. apply makedirs_dir in Hmk. congruence. }
  assert (Hdc : fc !! dir = Some Dir).
  { unfold fc. rewrite lookup_insert_ne by exact Hzd.
    now apply makedirs_dir in Hmk. }
  assert (Htarget : forall m, In m members ->
            path_join dir (fst m) <> zip
            /\ fc !! path_join dir (fst m) <> Some Dir).
  { intros m Hm. destruct (Hflat m Hm) as [(Hn & _) Hfree].
    pose proof (path_join_longer dir (fst m) Hn) as Hl.
    assert (Hnz : path_join dir (fst m) <> zip).
    { intros E. unfold zip, zip_path, dir, extract_dir in E. fold udir in E.
      apply is_name_slash_free in Hn as [Hs _].
      apply is_name_slash_free in Hnt as [Hst _].
      assert (Hus : ends_with_slash udir = false)
        by now apply path_join_no_trailing_slash.
      unfold dir, extract_dir in Hdir_slash, Hdir_ne. fold udir in Hdir_slash, Hdir_ne.
      rewrite (path_join_plain _ (fst m) Hdir_ne Hdir_slash Hs) in E.
      rewrite (path_join_plain udir timestamp Hudir_ne Hus Hst) in E.
      rewrite (path_join_plain udir "gtfs.zip" Hudir_ne Hus eq_refl) in E.
      apply (f_equal split_slash) in E.
      rewrite !split_slash_app, (slash_free_split _ Hs),
        (slash_free_split _ Hst) in E.
      apply (f_equal (@length string)) in E.
      change (split_slash "gtfs.zip") with ["gtfs.zip"] in E.
      rewrite !length_app in E. cbn [length] in E. lia. }
    split; [exact Hnz|]. unfold fc. rewrite lookup_insert_ne by congruence.
    destruct (Hfb (path_join dir (fst m))) as [->|(_ & _ & Hin)].
    - destruct (Hfa (path_join dir (fst m))) as [->|(_ & _ & Hin)];
        [exact Hfree|].
      apply ancestors_length in Hin. lia.
    - apply ancestors_length in Hin. lia. }
  destruct (extract_flat dir Hdir_ne Hdir_slash members fc Hdc)
    as (fs1 & Hrun & Hframe & Hwritten).
  { intros m Hm. split; [now apply Hflat|now apply Htarget]. }
  assert (Hz1 : fs1 !! zip = Some (File (zip_as_csv file_obj))).
  { destruct (Hframe zip) as [->|(n & c & Hin & E & _)].
    - unfold fc. apply lookup_insert_eq.
    - exfalso. destruct (Htarget _ Hin) as [Hnz _]. cbn [fst] in Hnz.
      congruence. }
  assert (Hfiles : forall m, In m members ->
            exists parsed,
              In (fst m, Some parsed) members
              /\ delete zip fs1 !! path_join dir (fst m) = Some (File parsed)).
  { intros m Hm. destruct (Hwritten m Hm) as (c & Hin & E). exists c.
    split; [exact Hin|]. destruct (Htarget m Hm) as [Hnz _].
    now rewrite lookup_delete_ne by congruence. }
  exists (delete zip fs1). split; [|split].
  - unfold upload_gtfs, save_and_extract, io_bind. fold udir dir zip.
    rewrite Hmu, Hmk. unfold write_file. rewrite Hzb. fold fc.
    unfold extractall. rewrite Hmembers, Hrun. unfold remove. rewrite Hz1.
    assert (Hvalid : _is_valid_gtfs (delete zip fs1) dir = true).
    { apply valid_gtfs_iff. intros file Hfile.
      apply Hreq, in_map_iff in Hfile as (m & <- & Hm).
      destruct (Hfiles m Hm) as (c & _ & E). unfold path_exists.
      now rewrite E. }
    now rewrite Hvalid.
  - apply lookup_delete_eq.
  - intros m Hm. destruct (Hfiles m Hm) as (c & Hin & E). exists c.
    split; [exact Hin|]. unfold read_csv. now rewrite E.
Qed.

End FlatUpload.

Lemma upload_of_a_flat_archive_witness :
  exists fs',
    upload_gtfs "./data" "u" "20240101120000" ExUpload.complete_zip
      ExUpload.fs_new
    = (fs', inr "u/20240101120000")
    /\ read_csv fs' "./data/u/20240101120000/routes.txt" = inr Ex.routes.
Proof.
  destruct (upload_of_a_flat_archive "./data" "u" "20240101120000"
              ExUpload.complete_zip (
                [("routes.txt", Some (inr Ex.routes));
                 ("trips.txt", Some (inr Ex.trips));
                 ("stop_times.txt", Some (inr Ex.stop_times));
                 ("stops.txt", Some (inr Ex.stops))]) ExUpload.fs_new)
    as (fs' & Hup & _ & Hfiles).
  - repeat split; try discriminate.
    + intros q Hq c. vm_compute in Hq.
      destruct Hq as [<-|[<-|[<-|[]]]]; vm_compute; discriminate.
    + intros q Hq c. vm_compute in Hq.
      destruct Hq as [<-|[<-|[<-|[<-|[]]]]]; vm_compute; discriminate.
    + vm_compute. intros H.
      repeat (destruct H as [H|H]; [discriminate|]). exact H.
  - reflexivity.
  - reflexivity.
  - reflexivity.
  - intros m [<-|[<-|[<-|[<-|[]]]]];
      (split; [repeat split; discriminate|vm_compute; discriminate]).
  - intros f [<-|[<-|[<-|[<-|[]]]]]; simpl; auto 6.
  - exists fs'. split; [exact Hup|].
    destruct (Hfiles ("routes.txt", Some (inr Ex.routes)))
      as (c & Hin & E); [now left|].
    cbn [fst] in Hin, E.
    destruct Hin as [Hin|[Hin|[Hin|[Hin|[]]]]]; try discriminate.
    injection Hin as <-. exact E.
Defined.

(** ** What an upload can create *)

Lemma io_bind_touches {A B} (m : IO A) (k : A -> IO B) (P : string -> Prop) :
  io_touches m P -> (forall a, io_touches (k a) P) -> io_touches (io_bind m k) P.
Proof.
  intros Hm Hk fs p Hp. unfold io_bind. specialize (Hm fs p Hp).
  destruct (m fs) as [fs' [e|a]]; [exact Hm|].
  cbn [fst] in Hm. rewrite <- Hm. now apply Hk.
Qed.

Lemma io_touches_weaken {A} (m : IO A) (P Q : string -> Prop) :
  (forall k, P k -> Q k) -> io_touches m P -> io_touches m Q.
Proof. intros HPQ Hm fs k Hk. apply Hm. auto. Qed.

Lemma io_iter_touches {A} (f : A -> IO unit) (paths : A -> string -> Prop)
  (l : list A) :
  (forall a, io_touches (f a) (paths a)) ->
  io_touches (io_iter f l) (fun k => exists a, In a l /\ paths a k).
Proof.
  intros Hf. induction l as [|a l IH]; [intros fs k _; reflexivity|].
  cbn [io_iter]. apply io_bind_touches.
  - apply (io_touches_weaken _ (paths a)); [|apply Hf].
    intros k Hk. exists a. split; [now left|exact Hk].
  - intros _.
    apply (io_touches_weaken _ (fun k => exists b, In b l /\ paths b k));
      [|exact IH].
    intros k (b & Hb & Hk). exists b. split; [now right|exact Hk].
Qed.

Lemma mkdir_exist_ok_touches (p : string) :
  io_touches (mkdir_exist_ok p) (fun k => k = p).
Proof.
  intros fs k Hk. unfold mkdir_exist_ok.
  destruct (fs !! p) as [[|c]|]; try reflexivity.
  cbn [fst]. apply lookup_insert_ne. congruence.
Qed.

Lemma makedirs_touches (p : string) :
  io_touches (makedirs p) (fun k => In k (ancestors p)).
Proof.
  unfold makedirs. destruct (String.eqb p ""); [intros fs k _; reflexivity|].
  fold (ancestors p).
  apply (io_touches_weaken _
           (fun k => exists a, In a (ancestors p) /\ k = a));
    [|apply (io_iter_touches mkdir_exist_ok (fun a k => k = a)),
        mkdir_exist_ok_touches].
  intros k (a & Ha & ->). exact Ha.
Qed.

Lemma write_file_touches (p : string) (c : Exc DataFrame) :
  io_touches (write_file p c) (fun k => k = p).
Proof.
  intros fs k Hk. unfold write_file.
  destruct (fs !! p) as [[|c0]|]; try reflexivity;
    cbn [fst]; apply lookup_insert_ne; congruence.
Qed.

Lemma extract_member_touches (dir : string)
  (member : string * option (Exc DataFrame)) :
  io_touches (extract_member dir member)
    (fun k => In k (extraction_paths dir member)).
Proof.
  unfold extract_member, extraction_paths. fold (member_target dir member).
  apply io_bind_touches.
  - intros fs k Hk. destruct (_ && _); [|reflexivity].
    apply makedirs_touches. intros Hin. apply Hk. now right.
  - intros _. destruct (snd member) as [c|].
    + apply (io_touches_weaken _ (fun k => k = member_target dir member));
        [|apply write_file_touches].
      intros k ->. now left.
    + intros fs k Hk. destruct (fs !! member_target dir member) as [[|c]|];
        try reflexivity.
      cbn [fst]. apply lookup_insert_ne. intros E. apply Hk. now left.
Qed.

Section MissingTable.
Variable base_dir : string.
Variable folder_uuid : string.
Variable timestamp : string.

Lemma uuid_dir_plain :
  is_name folder_uuid = true ->
  uuid_dir base_dir folder_uuid <> ""
  /\ ends_with_slash (uuid_dir base_dir folder_uuid) = false.
Proof.
  intros Hn. split; [|now apply path_join_no_trailing_slash].
  pose proof (path_join_longer base_dir folder_uuid Hn) as Hl.
  unfold uuid_dir. intros E. rewrite E in Hl. cbn in Hl. lia.
Qed.

(** What lies in the extraction directory is not the saved zip file. *)
Lemma in_extract_dir_not_zip (name : string) :
  is_name folder_uuid = true -> is_name timestamp = true ->
  is_name name = true ->
  path_join (extract_dir base_dir folder_uuid timestamp) name
  <> zip_path base_dir folder_uuid.
Proof.
  intros Hnu Hnt Hn E. destruct (uuid_dir_plain Hnu) as [Hune Hus].
  unfold zip_path, extract_dir in E.
  set (udir := uuid_dir base_dir folder_uuid) in *.
  assert (Hds : ends_with_slash (path_join udir timestamp) = false)
    by now apply path_join_no_trailing_slash.
  assert (Hdne : path_join udir timestamp <> "").
  { pose proof (path_join_longer udir timestamp Hnt) as Hl.
    intros E'. rewrite E' in Hl. cbn in Hl. lia. }
  apply is_name_slash_free in Hn as [Hs _].
  apply is_name_slash_free in Hnt as [Hst _].
  rewrite (path_join_plain _ name Hdne Hds Hs) in E.
  rewrite (path_join_plain udir timestamp Hune Hus Hst) in E.
  rewrite (path_join_plain udir "gtfs.zip" Hune Hus eq_refl) in E.
  apply (f_equal split_slash) in E.
  rewrite !split_slash_app, (slash_free_split _ Hs),
    (slash_free_split _ Hst) in E.
  apply (f_equal (@length string)) in E.
  change (split_slash "gtfs.zip") with ["gtfs.zip"] in E.
  rewrite !length_app in E. cbn [length] in E. lia.
Qed.

Lemma save_and_extract_touches (file_obj : Upload) :
  io_touches (save_and_extract base_dir folder_uuid timestamp file_obj)
    (fun k =>
       In k (ancestors (uuid_dir base_dir folder_uuid))
       \/ In k (ancestors (extract_dir base_dir folder_uuid timestamp))
       \/ k = zip_path base_dir folder_uuid
       \/ exists members member,
            zip_members file_obj = inr members
            /\ In member members
            /\ In k (extraction_paths
                       (extract_dir base_dir folder_uuid timestamp) member)).
Proof.
  unfold save_and_extract.
  apply io_bind_touches.
  { apply (io_touches_weaken _ _ _ (fun k H => or_introl H)),
      makedirs_touches. }
  intros _. apply io_bind_touches.
  { apply (io_touches_weaken _ _ _ (fun k H => or_intror (or_introl H))),
      makedirs_touches. }
  intros _. apply io_bind_touches.
  { apply (io_touches_weaken _ _ _
             (fun k H => or_intror (or_intror (or_introl H)))),
      write_file_touches. }
  intros _ fs k Hk. unfold extractall.
  destruct (zip_members file_obj) as [e|members] eqn:Hm; [reflexivity|].
  apply (io_iter_touches _ _ members
           (extract_member_touches
              (extract_dir base_dir folder_uuid timestamp))).
  intros (m & Hin & Hp). apply Hk. right. right. right.
  exists members, m. auto.
Qed.

(** X21. When nothing in the archive is extracted to the place of one of
    the required tables in the new folder, and nothing is there before,
    the upload does not return: it raises, and the place is still
    empty.  (The members of an archive that holds its tables in a
    directory of its own are extracted one level too deep.) *)
Theorem upload_without_a_required_table (file_obj : Upload)
  (members : list (string * option (Exc DataFrame))) (fs : FileSystem)
  (file : string) :
  is_name folder_uuid = true -> is_name timestamp = true ->
  In file required_files ->
  fs !! path_join (extract_dir base_dir folder_uuid timestamp) file = None ->
  zip_members file_obj = inr members ->
  (forall member, In member members ->
     ~ In (path_join (extract_dir base_dir folder_uuid timestamp) file)
         (extraction_paths (extract_dir base_dir folder_uuid timestamp) member)) ->
  exists fs' e,
    upload_gtfs base_dir folder_uuid timestamp file_obj fs = (fs', inl e)
    /\ fs' !! path_join (extract_dir base_dir folder_uuid timestamp) file = None
    /\ (snd (save_and_extract base_dir folder_uuid timestamp file_obj fs)
        = inr tt ->
        e = ValueError "Uploaded file does not contain valid GTFS data").
Proof.
  intros Hnu Hnt Hfile Hfree Hmembers Hnot.
  assert (Hname : is_name file = true).
  { repeat destruct Hfile as [<-|Hfile]; try reflexivity. contradiction. }
  set (dir := extract_dir base_dir folder_uuid timestamp) in *.
  set (zip := zip_path base_dir folder_uuid) in *.
  set (K := path_join dir file) in *.
  assert (HKzip : K <> zip) by now apply in_extract_dir_not_zip.
  assert (Hlen1 : (String.length (uuid_dir base_dir folder_uuid)
                   < String.length dir)%nat) by now apply path_join_longer.
  assert (Hlen2 : (String.length dir < String.length K)%nat)
    by now apply path_join_longer.
  pose proof (save_and_extract_touches file_obj fs K) as Hframe.
  assert (HK1 : fst (save_and_extract base_dir folder_uuid timestamp file_obj fs)
                !! K = None).
  { rewrite Hframe; [exact Hfree|].
    intros [Hin|[Hin|[E|(ms & m & Hms & Hin & Hp)]]].
    - apply ancestors_length in Hin. lia.
    - apply ancestors_length in Hin. fold dir in Hin. lia.
    - contradiction.
    - rewrite Hmembers in Hms. injection Hms as <-. now apply (Hnot m). }
  unfold upload_gtfs, io_bind.
  destruct (save_and_extract base_dir folder_uuid timestamp file_obj fs)
    as [fs1 [e|[]]] eqn:Hsave; cbn [fst] in HK1.
  - exists fs1, e. split; [reflexivity|]. split; [exact HK1|discriminate].
  - apply save_and_extract_state in Hsave as ([c Hc] & _).
    unfold remove. rewrite Hc. fold zip dir.
    assert (Hmiss : path_exists (delete zip fs1) K = false).
    { unfold path_exists. now rewrite lookup_delete_ne, HK1 by congruence. }
    rewrite (invalid_when_missing _ dir file Hfile Hmiss). cbn [negb].
    exists (delete zip fs1),
      (ValueError "Uploaded file does not contain valid GTFS data").
    split; [reflexivity|]. split; [|reflexivity].
    now rewrite lookup_delete_ne by congruence.
Qed.

End MissingTable.

Lemma upload_without_a_required_table_witness :
  exists fs',
    upload_gtfs "./data" "u" "20240101120000" ExUpload.nested_zip
      ExUpload.fs_new
    = (fs', inl (ValueError "Uploaded file does not contain valid GTFS data"))
    /\ fs' !! "./data/u/20240101120000/routes.txt" = None
    /\ fs' !! "./data/u/20240101120000/feed/routes.txt"
       = Some (File (inr Ex.routes)).
Proof.
  destruct (upload_without_a_required_table "./data" "u" "20240101120000"
              ExUpload.nested_zip
              [("feed/routes.txt", Some (inr Ex.routes));
               ("feed/trips.txt", Some (inr Ex.trips));
               ("feed/stop_times.txt", Some (inr Ex.stop_times));
               ("feed/stops.txt", Some (inr Ex.stops))]
              ExUpload.fs_new "routes.txt")
    as (fs' & e & Hup & Hnone & He).
  - reflexivity.
  - reflexivity.
  - now left.
  - reflexivity.
  - reflexivity.
  - intros m [<-|[<-|[<-|[<-|[]]]]]; vm_compute; intros H;
      repeat (destruct H as [H|H]; [discriminate|]); exact H.
  - exists fs'. rewrite He in Hup by reflexivity.
    split; [exact Hup|]. split; [exact Hnone|].
    assert (E : fs' = fst (upload_gtfs "./data" "u" "20240101120000"
                             ExUpload.nested_zip ExUpload.fs_new))
      by now rewrite Hup.
    rewrite E. vm_compute. reflexivity.
Defined.

(** ** The values sent as JSON *)

(** Induction on a Python value, through its lists and dictionaries. *)
Lemma PyVal_induction (P : PyVal -> Prop) :
  P PNone -> (forall b, P (PBool b)) -> (forall z, P (PInt z)) ->
  (forall q, P (PFloat q)) -> P PNaN -> (forall s, P (PStr s)) ->
  (forall z, P (PNpInteger z)) -> (forall q, P (PNpFloating q)) -> P PNpNaN ->
  (forall b, P (PNpBool b)) -> (forall d, P (PDatetime d)) ->
  (forall l, Forall P l -> P (PList l)) ->
  (forall items, Forall (fun kv => P (snd kv)) items -> P (PDict items)) ->
  (forall values, Forall P values -> P (PSeries values)) ->
  (forall tolist, P tolist -> P (PNdArray tolist)) ->
  (forall records, P records -> P (PDataFrame records)) ->
  forall value, P value.
Proof.
  intros HNone HBool HInt HFloat HNaN HStr HNpI HNpF HNpNaN HNpB HDate
    HList HDict HSeries HArray HFrame.
  fix IH 1. intros [ |b|z|q| |s|z|q| |b|d|l|items|values|t|r].
  - exact HNone.
  - apply HBool.
  - apply HInt.
  - apply HFloat.
  - exact HNaN.
  - apply HStr.
  - apply HNpI.
  - apply HNpF.
  - exact HNpNaN.
  - apply HNpB.
  - apply HDate.
  - apply HList. induction l as [|v l IHl]; constructor; [apply IH|exact IHl].
  - apply HDict. induction items as [|[k v] items IHi]; constructor;
      [apply IH|exact IHi].
  - apply HSeries. induction values as [|v l IHl]; constructor;
      [apply IH|exact IHl].
  - apply HArray, IH.
  - apply HFrame, IH.
Qed.

Section CleanValue.
Variable isoformat : datetime -> string.

Lemma clean_plain_fixed (value : PyVal) :
  json_plain value = true -> _clean_value isoformat value = value.
Proof.
  induction value using PyVal_induction; try discriminate; try reflexivity.
  - cbn [json_plain _clean_value]. intros Hl. f_equal.
    induction l as [|v l IHl]; [reflexivity|].
    cbn [forallb map] in *. apply andb_prop in Hl as [Hv Hl].
    inversion H as [|? ? Hv' Hl']; subst.
    now rewrite (Hv' Hv), (IHl Hl' Hl).
  - cbn [json_plain _clean_value]. intros Hl. f_equal.
    induction items as [|[k v] items IHi]; [reflexivity|].
    cbn [forallb map] in *. apply andb_prop in Hl as [Hv Hl].
    inversion H as [|? ? Hv' Hl']; subst. cbn [snd] in Hv'.
    now rewrite (Hv' Hv), (IHi Hl' Hl).
Qed.

(** X22. [_clean_value] turns a value into JSON data (no numpy scalar,
    no date, no NaN) exactly when the arrays and data frames inside it
    hold JSON data already: it converts their content no further, while
    lists, series and dictionaries are cleaned all the way down.  On
    JSON data it changes nothing. *)
Theorem clean_value_gives_json_data (value : PyVal) :
  json_plain (_clean_value isoformat value) = arrays_plain value
  /\ _clean_value isoformat (PNdArray value) = value
  /\ _clean_value isoformat (PDataFrame value) = value
  /\ (arrays_plain value = true ->
      _clean_value isoformat (_clean_value isoformat value)
      = _clean_value isoformat value).
Proof.
  assert (Hplain : forall v,
            json_plain (_clean_value isoformat v) = arrays_plain v).
  { induction v using PyVal_induction; try reflexivity.
    - cbn [json_plain _clean_value arrays_plain].
      induction l as [|v l IHl]; [reflexivity|].
      inversion H as [|? ? Hv Hl]; subst. cbn [map forallb].
      now rewrite Hv, (IHl Hl).
    - cbn [json_plain _clean_value arrays_plain].
      induction items as [|[k v] items IHi]; [reflexivity|].
      inversion H as [|? ? Hv Hl]; subst. cbn [map forallb snd] in *.
      now rewrite Hv, (IHi Hl).
    - cbn [json_plain _clean_value arrays_plain].
      induction values as [|v l IHl]; [reflexivity|].
      inversion H as [|? ? Hv Hl]; subst. cbn [map forallb].
      now rewrite Hv, (IHl Hl). }
  split; [apply Hplain|]. split; [reflexivity|]. split; [reflexivity|].
  intros Ha. apply clean_plain_fixed. now rewrite Hplain.
Qed.

End CleanValue.

(** ** Stops without coordinates *)

Section Coordinates.
Context {rt : Runtime}.
Variable isoformat : datetime -> string.


End Coordinates.


(** ** The endpoints *)

Lemma example_jsonify_data (value : PyVal) :
  json_plain value = true -> exists body, example_jsonify value = inr body.
Proof. intros H. unfold example_jsonify. rewrite H. eauto. Qed.

Lemma texts_have_no_array (d : list (string * string)) :
  arrays_plain (texts_to_py d) = true.
Proof.
  unfold texts_to_py. cbn [arrays_plain].
  induction d as [|[k s] d IH]; [reflexivity|exact IH].
Qed.

Lemma float_has_no_array (v : Value) : arrays_plain (float_to_py v) = true.
Proof. now destruct v. Qed.

Lemma scalar_has_no_array (v : Value) : arrays_plain (scalar_to_py v) = true.
Proof. now destruct v. Qed.

Lemma forallb_map_true {A B} (f : B -> bool) (g : A -> B) (l : list A) :
  (forall a, f (g a) = true) -> forallb f (map g l) = true.
Proof.
  intros H. induction l as [|a l IH]; [reflexivity|].
  cbn [map forallb]. now rewrite H, IH.
Qed.

Lemma folders_have_no_array (folders : list FolderEntry) :
  arrays_plain (PList (map entry_to_py folders)) = true.
Proof.
  cbn [arrays_plain]. apply forallb_map_true. intros e.
  unfold entry_to_py. cbn [arrays_plain forallb].
  now rewrite scalar_has_no_array.
Qed.

Lemma routes_have_no_array (routes : list (list (string * string))) :
  arrays_plain (PList (map texts_to_py routes)) = true.
Proof.
  cbn [arrays_plain]. apply forallb_map_true, texts_have_no_array.
Qed.

Section Endpoints.
Context {rt : Runtime}.
Variable jsonify : PyVal -> Exc string.
Variable exn_str : exn -> string.
Variable isoformat : datetime -> string.

(** [jsonify] writes JSON data. *)
Hypothesis jsonify_data :
  forall value, json_plain value = true -> exists body, jsonify value = inr body.

Lemma payload_has_no_array (p : Payload) :
  arrays_plain (payload_to_py exn_str p) = true.
Proof.
  destruct p as [ |file|r|r d|e|route shape stops]; try reflexivity.
  cbn [payload_to_py arrays_plain forallb].
  rewrite texts_have_no_array. cbn [andb].
  rewrite !forallb_map_true; [reflexivity| |].
  - intros s. unfold stop_to_py. cbn [arrays_plain forallb].
    now rewrite !float_has_no_array.
  - intros p. unfold point_to_py. cbn [arrays_plain forallb].
    now rewrite !float_has_no_array.
Qed.

Lemma cleaned_is_json_data (value : PyVal) :
  arrays_plain value = true -> json_plain (_clean_value isoformat value) = true.
Proof.
  intros H. induction value using PyVal_induction; try reflexivity;
    try discriminate.
  - cbn [json_plain _clean_value arrays_plain] in *.
    induction l as [|v l IHl]; [reflexivity|].
    inversion H0 as [|? ? Hv Hl]; subst. cbn [map forallb] in *.
    apply andb_prop in H as [H1 H2]. now rewrite (Hv H1), (IHl Hl H2).
  - cbn [json_plain _clean_value arrays_plain] in *.
    induction items as [|[k v] items IHi]; [reflexivity|].
    inversion H0 as [|? ? Hv Hl]; subst. cbn [map forallb snd] in *.
    apply andb_prop in H as [H1 H2]. now rewrite (Hv H1), (IHi Hl H2).
  - cbn [json_plain _clean_value arrays_plain] in *.
    induction values as [|v l IHl]; [reflexivity|].
    inversion H0 as [|? ? Hv Hl]; subst. cbn [map forallb] in *.
    apply andb_prop in H as [H1 H2]. now rewrite (Hv H1), (IHl Hl H2).
  - exact H.
  - exact H.
Qed.

Lemma safe_jsonify_ok (data : PyVal) :
  arrays_plain data = true ->
  exists body, safe_jsonify jsonify exn_str isoformat data = inr (body, 200).
Proof.
  intros H. unfold safe_jsonify.
  destruct (jsonify_data _ (cleaned_is_json_data data H)) as [body ->].
  now exists body.
Qed.

Lemma bad_request_ok (msg : string) :
  exists body, bad_request jsonify msg = inr (body, 400).
Proof.
  unfold bad_request.
  destruct (jsonify_data (PDict [("error", PStr msg)]) eq_refl) as [body ->].
  now exists body.
Qed.

Lemma server_error_ok (e : exn) :
  exists body, server_error jsonify exn_str e = inr (body, 500).
Proof.
  unfold server_error.
  destruct (jsonify_data (PDict [("error", PStr (exn_str e))]) eq_refl)
    as [body ->].
  now exists body.
Qed.

(** X24. [/api/route-details] answers 400 when one of its three
    parameters is absent or empty, and 200 otherwise: whatever
    [get_route_details] found, also "Folder not found", a missing file,
    no trips, or the text of an exception, is sent with status 200. *)
Theorem route_details_endpoint_status (fs : FileSystem)
  (folder route_id date_time : option string) :
  exists body,
    api_get_route_details jsonify exn_str isoformat fs folder route_id date_time
    = inr (body,
           if falsy folder || falsy route_id || falsy date_time
           then 400 else 200).
Proof.
  unfold api_get_route_details. cbn [forallb].
  destruct (falsy folder); [apply bad_request_ok|].
  destruct (falsy route_id); [apply bad_request_ok|].
  destruct (falsy date_time); [apply bad_request_ok|].
  cbn [negb andb orb].
  destruct (safe_jsonify_ok
              (payload_to_py exn_str
                 (get_route_details viewer_base_dir fs (arg folder)
                    (arg route_id) (arg date_time)))
              (payload_has_no_array _)) as [body ->].
  now exists body.
Qed.

(** X25. [/api/routes] answers 400 without a folder and 200 otherwise:
    a folder that does not exist, one without routes and a failure while
    reading are all sent as a list with status 200. *)
Theorem routes_endpoint_status (fs : FileSystem) (folder : option string) :
  exists body,
    api_get_routes jsonify exn_str isoformat fs folder
    = inr (body, if falsy folder then 400 else 200).
Proof.
  unfold api_get_routes.
  destruct (falsy folder); [apply bad_request_ok|].
  assert (Hret : exists routes,
             get_routes viewer_base_dir fs (arg folder) = inr routes).
  { unfold get_routes.
    destruct (split_slash (arg folder)) as [|u [|t [|x l]]]; eauto.
    destruct (path_exists fs (path_join (path_join viewer_base_dir u) t));
      cbn [negb]; eauto.
    destruct (path_exists fs _); cbn [negb]; eauto.
    destruct (read_routes _ _); eauto. }
  destruct Hret as [routes ->]. unfold bind at 1.
  destruct (safe_jsonify_ok _ (routes_have_no_array routes)) as [body ->].
  now exists body.
Qed.

(** X26. [/api/gtfs-folders] answers 200 with the list of folders, and
    500 when [get_available_folders] raises (the base directory is a
    file). *)
Theorem folders_endpoint_status (fs : FileSystem) :
  exists body,
    get_gtfs_folders jsonify exn_str isoformat fs
    = inr (body,
           match get_available_folders viewer_base_dir fs with
           | inr _ => 200
           | inl _ => 500
           end).
Proof.
  unfold get_gtfs_folders.
  destruct (get_available_folders viewer_base_dir fs) as [e|folders];
    unfold bind at 1; [apply server_error_ok|].
  destruct (safe_jsonify_ok _ (folders_have_no_array folders)) as [body ->].
  now exists body.
Qed.

(** X27. [/api/upload] refuses a request without a file, with an empty
    file name, or with a name that does not end in [.zip]: it answers
    400 and leaves the storage as it was.  Otherwise the storage is what
    [upload_gtfs] made of it, and the answer is 200 when [upload_gtfs]
    returned and 500 when it raised. *)
Theorem upload_endpoint_status (folder_uuid timestamp : string)
  (file : option (string * Upload)) (fs : FileSystem) :
  exists body,
    api_upload_gtfs jsonify exn_str isoformat folder_uuid timestamp file fs
    = match file with
      | None => (fs, inr (body, 400))
      | Some (filename, file_obj) =>
          if String.eqb filename "" || negb (endswith filename ".zip")
          then (fs, inr (body, 400))
          else
            (fst (upload_gtfs viewer_base_dir folder_uuid timestamp file_obj fs),
             inr (body,
                  match
                    snd (upload_gtfs viewer_base_dir folder_uuid timestamp
                           file_obj fs)
                  with
                  | inr _ => 200
                  | inl _ => 500
                  end))
      end.
Proof.
  unfold api_upload_gtfs. destruct file as [[filename file_obj]|].
  2:{ destruct (bad_request_ok "No file provided") as [body ->]. eauto. }
  destruct (String.eqb filename "").
  { destruct (bad_request_ok "No file selected") as [body ->]. eauto. }
  destruct (endswith filename ".zip"); cbn [negb orb].
  2:{ destruct (bad_request_ok "File must be a ZIP archive") as [body ->].
      eauto. }
  destruct (upload_gtfs viewer_base_dir folder_uuid timestamp file_obj fs)
    as [fs' [e|folder_id]]; cbn [fst snd].
  - destruct (server_error_ok e) as [body ->]. eauto.
  - destruct (safe_jsonify_ok
                (PDict [("success", PBool true); ("folder_id", PStr folder_id)])
                eq_refl) as [body ->].
    eauto.
Qed.

End Endpoints.

Lemma route_details_endpoint_status_witness :
  exists body,
    api_get_route_details (rt := example_runtime) example_jsonify
      example_exn_str example_isoformat Ex.fs_no_routes (Some Ex.id) (Some "42")
      (Some Ex.saturday)
    = inr (body, 200).
Proof.
  apply (route_details_endpoint_status (rt := example_runtime) example_jsonify
           example_exn_str example_isoformat example_jsonify_data
           Ex.fs_no_routes (Some Ex.id) (Some "42") (Some Ex.saturday)).
Defined.

Lemma routes_endpoint_status_witness :
  exists body,
    api_get_routes (rt := example_runtime) example_jsonify example_exn_str
      example_isoformat Ex.fs_required (Some "no-separator")
    = inr (body, 200).
Proof.
  apply (routes_endpoint_status (rt := example_runtime) example_jsonify
           example_exn_str example_isoformat example_jsonify_data
           Ex.fs_required (Some "no-separator")).
Defined.

Lemma folders_endpoint_status_witness :
  exists body,
    get_gtfs_folders example_jsonify example_exn_str example_isoformat
      ExAgency.fs_agency
    = inr (body, 200).
Proof.
  apply (folders_endpoint_status example_jsonify example_exn_str
           example_isoformat example_jsonify_data ExAgency.fs_agency).
Defined.

Lemma upload_endpoint_status_witness :
  exists body,
    api_upload_gtfs example_jsonify example_exn_str example_isoformat "u"
      "20240101120000" (Some ("feed.zip", ExUpload.not_a_zip)) ExUpload.fs_new
    = (fst (upload_gtfs "./data" "u" "20240101120000" ExUpload.not_a_zip
              ExUpload.fs_new),
       inr (body, 500)).
Proof.
  apply (upload_endpoint_status example_jsonify example_exn_str
           example_isoformat example_jsonify_data "u" "20240101120000"
           (Some ("feed.zip", ExUpload.not_a_zip)) ExUpload.fs_new).
Defined.

